(** * The notebook build driver ([.circleci/build-notebooks.py])

    A shallow embedding of the script that scans a tree of notebook
    directories, writes one environment-setup script per category and
    one build script per notebook, and runs the build scripts one after
    the other.

    - Python [str] is [string]; paths are strings, built with the
      functions of [os.path] that the script calls.
    - The directory tree the script reads and the directories it writes
      are trees of named entries, in listing order.
    - A generator is the list of the values it yields, each with the
      state of the output directories at the time of the yield, and the
      way it ended. *)

From Stdlib Require Import String Ascii List Bool Arith ZArith Lia.
From Stdlib Require Import DecimalString.
Import ListNotations.
Open Scope string_scope.
Open Scope list_scope.

(* ================================================================= *)
(** ** Strings *)

Module Str.

(** [s.startswith(p)] *)
Fixpoint startswith (p s : string) : bool :=
  match p, s with
  | EmptyString, _ => true
  | String a p', String b s' => Ascii.eqb a b && startswith p' s'
  | String _ _, EmptyString => false
  end.

(** [s.endswith(p)] *)
Fixpoint endswith (p s : string) : bool :=
  if (String.length s =? String.length p)%nat then String.eqb s p
  else match s with
       | EmptyString => false
       | String _ s' => endswith p s'
       end.

Definition slash : ascii := "/"%char.
Definition dot : ascii := "."%char.

(** [s.split(c)]: the pieces between the occurrences of [c]; never
    empty, [''.split(c)] is [['']]. *)
Fixpoint split (c : ascii) (s : string) : list string :=
  match s with
  | EmptyString => [EmptyString]
  | String a s' =>
      if Ascii.eqb a c then EmptyString :: split c s'
      else match split c s' with
           | h :: t => String a h :: t
           | [] => [String a EmptyString]
           end
  end.

(** [sep.join(l)] *)
Fixpoint join (sep : string) (l : list string) : string :=
  match l with
  | [] => EmptyString
  | [x] => x
  | x :: l' => (x ++ sep ++ join sep l')%string
  end.

(** [c in s] *)
Fixpoint contains (c : ascii) (s : string) : bool :=
  match s with
  | EmptyString => false
  | String a s' => Ascii.eqb a c || contains c s'
  end.

(** [s.rsplit(c, 1)[0]]: what comes before the last [c], the whole
    string when there is none. *)
Fixpoint rsplit1_head (c : ascii) (s : string) : string :=
  match s with
  | EmptyString => EmptyString
  | String a s' =>
      if contains c s' then String a (rsplit1_head c s')
      else if Ascii.eqb a c then EmptyString
      else String a s'
  end.

(** [s.rstrip(c)] *)
Fixpoint rstrip (c : ascii) (s : string) : string :=
  match s with
  | EmptyString => EmptyString
  | String a s' =>
      match rstrip c s' with
      | EmptyString => if Ascii.eqb a c then EmptyString else String a EmptyString
      | r => String a r
      end
  end.

(** [str(n)] for an integer *)
Definition of_Z (n : Z) : string := NilZero.string_of_int (Z.to_int n).

End Str.

(* ================================================================= *)
(** ** [os.path] *)

Module Path.

Definition sep : string := "/".

(** [os.path.join(a, b)] *)
Definition join (a b : string) : string :=
  if Str.startswith sep b then b
  else if (String.eqb a "" || Str.endswith sep a)%bool then (a ++ b)%string
  else (a ++ sep ++ b)%string.

(** [os.path.join(a, b, c)] *)
Definition join3 (a b c : string) : string := join (join a b) c.

(** [os.path.basename(p)]: what follows the last slash. *)
Definition basename (p : string) : string := last (Str.split Str.slash p) "".

(** [os.path.dirname(p)]: what precedes the last slash, without its
    trailing slashes unless it consists of slashes only. *)
Definition dirname (p : string) : string :=
  let pieces := Str.split Str.slash p in
  match removelast pieces with
  | [] => ""
  | front =>
      let head := (Str.join sep front ++ sep)%string in
      match Str.rstrip Str.slash head with
      | EmptyString => head
      | stripped => stripped
      end
  end.

(** A path is a list of names once split at the slashes; an empty
    name and [.] stand for the directory itself, [..] for its
    parent. *)
Definition step (acc : list string) (name : string) : list string :=
  if (String.eqb name "" || String.eqb name ".")%bool then acc
  else if String.eqb name ".." then removelast acc
  else acc ++ [name].

Definition normalize (names : list string) : list string :=
  fold_left step names [].

(** The names from the root to [p], for a process whose working
    directory is [cwd].  A [..] strikes out the name before it; the
    system takes it from the directory it has come to, which is the
    same but for a path that goes through a missing directory and back
    up, on which the system fails. *)
Definition resolve (cwd p : string) : list string :=
  if Str.startswith sep p then normalize (Str.split Str.slash p)
  else normalize (Str.split Str.slash cwd ++ Str.split Str.slash p).

Fixpoint common_prefix_length (a b : list string) : nat :=
  match a, b with
  | x :: a', y :: b' => if String.eqb x y then S (common_prefix_length a' b') else 0
  | _, _ => 0
  end.

(** [os.path.relpath(p)], relative to the working directory. *)
Definition relpath (cwd p : string) : string :=
  let start_list := resolve "/" cwd in
  let path_list := resolve cwd p in
  let i := common_prefix_length start_list path_list in
  match (repeat ".." (List.length start_list - i) ++ skipn i path_list)%list with
  | [] => "."
  | rel_list => Str.join sep rel_list
  end.

End Path.

(* ================================================================= *)
(** ** Directory trees *)

(** A file with its content, or a directory with its entries in the
    order in which the system lists them. *)
Unset Elimination Schemes.
Inductive node : Type :=
| File (content : string)
| Dir (entries : list (string * node)).
Set Elimination Schemes.

Definition entries : Type := list (string * node).

(** Induction on a tree, with the hypothesis for every entry of a
    directory. *)
Fixpoint node_entries_ind (P : node -> Prop)
    (HFile : forall content, P (File content))
    (HDir : forall es, Forall (fun e => P (snd e)) es -> P (Dir es))
    (n : node) : P n :=
  match n with
  | File content => HFile content
  | Dir es =>
      HDir es
        ((fix all (l : list (string * node)) : Forall (fun e => P (snd e)) l :=
            match l with
            | [] => Forall_nil _
            | e :: l' => Forall_cons e (node_entries_ind P HFile HDir (snd e)) (all l')
            end) es)
  end.

Module FS.

(** The errors of the system calls. *)
Inductive errno : Type := EEXIST | ENOENT | ENOTDIR | EISDIR | EBUSY.

Fixpoint find (name : string) (es : entries) : option node :=
  match es with
  | [] => None
  | (n, x) :: es' => if String.eqb n name then Some x else find name es'
  end.

(** Replaces the entry [name], or adds it at the end. *)
Fixpoint set (name : string) (x : node) (es : entries) : entries :=
  match es with
  | [] => [(name, x)]
  | (n, y) :: es' =>
      if String.eqb n name then (n, x) :: es' else (n, y) :: set name x es'
  end.

Definition del (name : string) (es : entries) : entries :=
  filter (fun e => negb (String.eqb (fst e) name)) es.

(** The node at the end of a path. *)
Fixpoint lookup (cs : list string) (n : node) : option node :=
  match cs with
  | [] => Some n
  | c :: cs' =>
      match n with
      | File _ => None
      | Dir es =>
          match find c es with
          | Some x => lookup cs' x
          | None => None
          end
      end
  end.

(** The tree without what is at the end of a path. *)
Fixpoint remove (cs : list string) (n : node) : node :=
  match cs with
  | [] => n
  | c :: cs' =>
      match n with
      | File _ => n
      | Dir es =>
          match cs' with
          | [] => Dir (del c es)
          | _ :: _ =>
              match find c es with
              | Some x => Dir (set c (remove cs' x) es)
              | None => n
              end
          end
      end
  end.

(** A chain of new, empty directories. *)
Definition chain (cs : list string) : node :=
  fold_right (fun c x => Dir [(c, x)]) (Dir []) cs.

(** [mkdir -p] that refuses an existing target, as [os.makedirs]. *)
Fixpoint makedirs (cs : list string) (n : node) : errno + node :=
  match cs with
  | [] => inl EEXIST
  | c :: cs' =>
      match n with
      | File _ => inl ENOTDIR
      | Dir es =>
          match find c es with
          | Some x =>
              match makedirs cs' x with
              | inr x' => inr (Dir (set c x' es))
              | inl e => inl e
              end
          | None => inr (Dir (set c (chain cs') es))
          end
      end
  end.

(** Creates or truncates the file at the end of a path and writes
    [content] to it. *)
Fixpoint write (cs : list string) (content : string) (n : node) : errno + node :=
  match cs with
  | [] => inl EISDIR
  | c :: cs' =>
      match n with
      | File _ => inl ENOTDIR
      | Dir es =>
          match cs' with
          | [] =>
              match find c es with
              | Some (Dir _) => inl EISDIR
              | _ => inr (Dir (set c (File content) es))
              end
          | _ :: _ =>
              match find c es with
              | Some x =>
                  match write cs' content x with
                  | inr x' => inr (Dir (set c x' es))
                  | inl e => inl e
                  end
              | None => inl ENOENT
              end
          end
      end
  end.

(** The content of the regular file at the end of a path. *)
Definition read (cs : list string) (n : node) : errno + string :=
  match lookup cs n with
  | Some (File content) => inr content
  | Some (Dir _) => inl EISDIR
  | None => inl ENOENT
  end.

(** [shutil.rmtree]: the target has to be a directory, and not the
    root. *)
Definition rmtree (cs : list string) (n : node) : errno + node :=
  match lookup cs n with
  | Some (Dir _) =>
      match cs with
      | [] => inl EBUSY
      | _ :: _ => inr (remove cs n)
      end
  | Some (File _) => inl ENOTDIR
  | None => inl ENOENT
  end.

Definition exists_ (cs : list string) (n : node) : bool :=
  match lookup cs n with
  | Some _ => true
  | None => false
  end.

(** The entries of the directory at the end of a path. *)
Definition listdir (cs : list string) (n : node) : option entries :=
  match lookup cs n with
  | Some (Dir es) => Some es
  | _ => None
  end.

End FS.

(* ================================================================= *)
(** ** Exceptions, and computations that yield *)

Inductive exn : Type :=
| NotImplementedError (msg : string)
| OSError (e : FS.errno) (path : string)
| BuildError (msg : string)
| BdbQuit.

(** A computation over the output directories: the values it yields,
    each with the directories as they are at that yield, then the
    exception that ended it or its result, and the directories it
    leaves. *)
Definition G (Y A : Type) : Type :=
  node -> list (Y * node) * (exn + A) * node.

Definition gret {Y A : Type} (a : A) : G Y A :=
  fun out => ([], inr a, out).

Definition gbind {Y A B : Type} (m : G Y A) (f : A -> G Y B) : G Y B :=
  fun out =>
    match m out with
    | (ys, inl e, out') => (ys, inl e, out')
    | (ys, inr a, out') =>
        match f a out' with
        | (ys', r, out'') => (ys ++ ys', r, out'')
        end
    end.

Definition graise {Y A : Type} (e : exn) : G Y A :=
  fun out => ([], inl e, out).

Definition gyield {Y : Type} (y : Y) : G Y unit :=
  fun out => ([(y, out)], inr tt, out).

(** [try: m except: handler], for a handler that takes the exceptions
    it answers [Some] for. *)
Definition gtry {Y A : Type} (m : G Y A) (handler : exn -> option (G Y A)) : G Y A :=
  fun out =>
    match m out with
    | (ys, inl e, out') =>
        match handler e with
        | Some h =>
            match h out' with
            | (ys', r, out'') => (ys ++ ys', r, out'')
            end
        | None => (ys, inl e, out')
        end
    | done => done
    end.

Notation "x <- m ;; k" := (gbind m (fun x => k))
  (at level 61, m at next level, right associativity).
Notation "m ;; k" := (gbind m (fun _ => k))
  (at level 61, right associativity).

(** [for x in l: body(x)] *)
Definition gfor {Y X : Type} (body : X -> G Y unit) : list X -> G Y unit :=
  fix loop (l : list X) : G Y unit :=
    match l with
    | [] => gret tt
    | x :: l' => body x ;; loop l'
    end.

(** A system call on the output directories. *)
Definition syscall {Y : Type} (f : node -> FS.errno + node) (path : string) : G Y unit :=
  fun out =>
    match f out with
    | inl e => ([], inl (OSError e path), out)
    | inr out' => ([], inr tt, out')
    end.

(** [[y for y in g]] *)
Definition collect {Y Z : Type} (g : G Y unit) : G Z (list Y) :=
  fun out =>
    match g out with
    | (_, inl e, out') => ([], inl e, out')
    | (ys, inr _, out') => ([], inr (map fst ys), out')
    end.

(** What a run yielded, how it ended, and what it left. *)
Definition yielded {Y A : Type} (r : list (Y * node) * (exn + A) * node) : list Y :=
  map fst (fst (fst r)).

Definition raised {Y A : Type} (r : list (Y * node) * (exn + A) * node) : option exn :=
  match snd (fst r) with
  | inl e => Some e
  | inr _ => None
  end.

Definition left_ {Y A : Type} (r : list (Y * node) * (exn + A) * node) : node :=
  snd r.

(* ================================================================= *)
(** ** The script *)

Definition BUILD_BASE_DIR : string := "/tmp/nbcollection-ci-build-base-dir".
Definition ARTIFACT_DEST_DIR : string := "/tmp/artifacts".

(** The double quote and the line feed of the generated scripts. *)
Definition dq : string := String (ascii_of_nat 34) EmptyString.
Definition nl : string := String (ascii_of_nat 10) EmptyString.

(** A triple-quoted template: its lines, each ended by a line feed. *)
Definition lines (l : list string) : string :=
  fold_right (fun line rest => (line ++ nl ++ rest)%string) EmptyString l.

Section Script.

(** The working directory of the process, [os.getcwd()]. *)
Variable cwd : string.

(** The directories the script reads and never writes: the checkout
    with the notebooks.  They are taken to lie apart from the two
    directories under [/tmp] that the script writes, so that nothing
    the script does changes them. *)
Variable src : node.

Section Effects.

Variable Y : Type.

(** [os.path.exists(p)], [shutil.rmtree(p)], [os.makedirs(p)] and
    [open(p, 'w').write(content)] on the output directories. *)
Definition os_path_exists (p : string) : G Y bool :=
  fun out => ([], inr (FS.exists_ (Path.resolve cwd p) out), out).

Definition shutil_rmtree (p : string) : G Y unit :=
  syscall (FS.rmtree (Path.resolve cwd p)) p.

Definition os_makedirs (p : string) : G Y unit :=
  syscall (FS.makedirs (Path.resolve cwd p)) p.

Definition write_file (p content : string) : G Y unit :=
  syscall (FS.write (Path.resolve cwd p) content) p.

(** [shutil.copyfile(source, dest)], from the checkout to the output
    directories. *)
Definition shutil_copyfile (source dest : string) : G Y unit :=
  match FS.read (Path.resolve cwd source) src with
  | inl e => graise (OSError e source)
  | inr content => write_file dest content
  end.

End Effects.

(** [os.path.exists(p)] on the checkout. *)
Definition src_exists (p : string) : bool :=
  FS.exists_ (Path.resolve cwd p) src.

(* --------------------------------------------------------------- *)
(** *** Lines 29 to 32: the artifact directory is emptied at start *)

Definition module_init : G unit unit :=
  (e <- os_path_exists unit ARTIFACT_DEST_DIR ;;
   if (e : bool) then shutil_rmtree unit ARTIFACT_DEST_DIR else gret tt) ;;
  os_makedirs unit ARTIFACT_DEST_DIR.

(* --------------------------------------------------------------- *)
(** *** [class Notebook] *)

(** The classes [Notebook], [Category], [Collection] and [BuildJob]
    each have a field [name]; they are [nb_name], [cat_name],
    [col_name] and [job_name] here. *)
Record Notebook : Type := mkNotebook {
  nb_name : string;
  filename : string;
  filepath : string
}.

Definition inject_notebook {Y : Type} (self : Notebook) (build_dir : string) : G Y unit :=
  let build_path := Path.join build_dir (filename self) in
  shutil_copyfile Y (filepath self) build_path.

Definition build_script_filepath (self : Notebook) (build_dir : string) : string :=
  Path.join build_dir (filename self ++ "-builder.sh").

Definition categories_formatted (categories : list string) : string :=
  Str.join "/" categories.

Definition metadata_path (self : Notebook) (categories : list string) (artifact_dir : string) : string :=
  (artifact_dir ++ "/" ++ categories_formatted categories ++ "/" ++ filename self ++ ".metadata.json")%string.

Definition html_path (self : Notebook) (categories : list string) (artifact_dir : string) : string :=
  (artifact_dir ++ "/" ++ categories_formatted categories ++ "/" ++ filename self ++ ".html")%string.

Definition build_script (self : Notebook) (categories : list string)
    (build_dir artifact_dir : string) : string :=
  let output_dir := Path.dirname (html_path self categories artifact_dir) in
  lines
    [ "#!/usr/bin/env bash";
      "set -e";
      "cd " ++ build_dir;
      "bash setup-build-env.sh";
      "source env/bin/activate";
      "if [ -f " ++ dq ++ "environment.sh" ++ dq ++ " ]; then";
      "    source environment.sh";
      "fi";
      "";
      "mkdir -p " ++ output_dir;
      "python extract_metadata_from_notebook.py --input " ++ dq ++ filename self ++ dq
        ++ " --output " ++ dq ++ metadata_path self categories artifact_dir ++ dq;
      "jupyter nbconvert --debug --to html --execute " ++ dq ++ filename self ++ dq
        ++ " --output " ++ dq ++ html_path self categories artifact_dir ++ dq
        ++ " --ExecutePreprocessor.timeout=600";
      "cd -" ]%string.

Definition create_build_script {Y : Type} (self : Notebook) (categories : list string)
    (build_dir artifact_dir : string) : G Y unit :=
  write_file Y (build_script_filepath self build_dir)
    (build_script self categories build_dir artifact_dir).

(* --------------------------------------------------------------- *)
(** *** [class Category] *)

Record Category : Type := mkCategory {
  cat_name : string;
  notebooks : list Notebook;
  source_dir : string;
  build_dir : string;
  artifact_dir : string
}.

Definition env_setup_script (self : Category) : string :=
  lines
    [ "#!/usr/bin/env bash";
      "set -e";
      "cd " ++ build_dir self;
      "virtualenv -p $(which python3) env";
      "source env/bin/activate";
      "pip install -U pip setuptools";
      "if [ -f " ++ dq ++ "pre-install.sh" ++ dq ++ " ]; then";
      "    bash pre-install.sh";
      "fi";
      "if [ -f " ++ dq ++ "pre-requirements.txt" ++ dq ++ " ]; then";
      "    pip install -U -r pre-requirements.txt";
      "fi";
      "pip install -U -r requirements.txt";
      "if [ -f " ++ dq ++ "environment.sh" ++ dq ++ " ]; then";
      "    source environment.sh";
      "fi";
      "pip install jupyter";
      "mkdir -p " ++ artifact_dir self;
      "cd -" ]%string.

Definition support_files : list string :=
  ["environment.sh"; "pre-install.sh"; "pre-requirements.txt"; "requirements.txt"].

Definition helper_files : list string :=
  ["extract_metadata_from_notebook.py"].

(** [if os.path.exists(source): shutil.copyfile(source, dest)] *)
Definition copy_if_exists {Y : Type} (source dest : string) : G Y unit :=
  if src_exists source then shutil_copyfile Y source dest else gret tt.

Definition setup_build_env {Y : Type} (self : Category) : G Y unit :=
  os_makedirs Y (build_dir self) ;;
  os_makedirs Y (artifact_dir self) ;;
  let build_script_path := Path.join (build_dir self) "setup-build-env.sh" in
  write_file Y build_script_path (env_setup_script self) ;;
  gfor (fun filename =>
          let build_filepath := Path.join (build_dir self) filename in
          let source_filepath := Path.join (source_dir self) filename in
          copy_if_exists source_filepath build_filepath)
       support_files ;;
  gfor (fun filename =>
          let build_filepath := Path.join (build_dir self) filename in
          let source_filepath := Path.join3 cwd ".circleci" filename in
          copy_if_exists source_filepath build_filepath)
       helper_files.

(* --------------------------------------------------------------- *)
(** *** [class Collection], [class BuildJob] *)

Record Collection : Type := mkCollection {
  col_name : string;
  categories : list Category
}.

Record BuildJob : Type := mkBuildJob {
  job_name : Category;
  scripts : list string
}.

(* --------------------------------------------------------------- *)
(** *** [build_categories] *)

(** The names [glob] matches against [*.ipynb]: they end with
    [.ipynb] and do not start with a dot. *)
Definition is_notebook_name (name : string) : bool :=
  (Str.endswith ".ipynb" name && negb (Str.startswith "." name))%bool.

(** [glob.glob(f'{dirpath}/*.ipynb')] for the directory at [dirpath]
    whose entries are [es], when [dirpath] has none of the characters
    [*], [?] and [[]: the entries of that directory that [*.ipynb]
    matches.  Line 125 puts [dirpath] into the pattern as it is, so with
    one of these characters in it [glob] looks into the directories
    that the pattern matches instead; the statements that depend on the
    notebooks found are for paths without them. *)
Definition glob_ipynb (dirpath : string) (es : entries) : list string :=
  map (fun e => Path.join dirpath (fst e))
      (filter (fun e => is_notebook_name (fst e)) es).

Definition notebooks_of (dirpath : string) (es : entries) : list Notebook :=
  map (fun filepath =>
         let name := Str.rsplit1_head Str.dot (Path.basename filepath) in
         let rel_filepath := Path.relpath cwd filepath in
         let filename := Path.basename filepath in
         mkNotebook name filename rel_filepath)
      (glob_ipynb dirpath es).

Definition has_entry (name : string) (es : entries) : bool :=
  match FS.find name es with
  | Some _ => true
  | None => false
  end.

(** [if os.path.exists(d): shutil.rmtree(d)] *)
Definition remove_stale {Y : Type} (d : string) : G Y unit :=
  e <- os_path_exists Y d ;;
  if (e : bool) then shutil_rmtree Y d else gret tt.

(** The body of [for dirname in dirnames], for the directory
    [dirname] of [root] whose entries are [es]; [recurse] is
    [build_categories(dirpath)].  [os.path.exists(requirements_path)]
    looks for the entry [requirements.txt] of that directory.  The
    [temp_name] of line 136 is never used, and its temporary file is
    gone as soon as it is made, so it has no place here. *)
Definition scan_dir (root dirname : string) (es : entries)
    (recurse : G Category unit) : G Category unit :=
  let dirpath := Path.join root dirname in
  let notebooks := notebooks_of dirpath es in
  match notebooks with
  | _ :: _ =>
      let requirements_path := Path.relpath cwd (Path.join dirpath "requirements.txt") in
      if negb (has_entry "requirements.txt" es) then
        graise (NotImplementedError
                  ("Category missing Requirements File[" ++ requirements_path ++ "]"))
      else
        let build_dir := Path.join BUILD_BASE_DIR dirname in
        remove_stale build_dir ;;
        let artifact_dir := Path.join ARTIFACT_DEST_DIR dirname in
        remove_stale artifact_dir ;;
        gyield (mkCategory dirname notebooks dirpath build_dir artifact_dir)
  | [] => recurse
  end.

(** [build_categories(start_path)] when the directory at [start_path]
    is [n].  [os.walk] hands out the directories of the tree from the
    top down, each with the names of its subdirectories; the body runs
    for every subdirectory of every directory handed out, and calls
    [build_categories] again on the ones without notebooks. *)
Fixpoint build_categories_in (start_path : string) (n : node) {struct n}
    : G Category unit :=
  match n with
  | File _ => gret tt
  | Dir es =>
      (* the triple (root, dirnames, filenames) for [start_path] *)
      gfor (fun e =>
              match snd e with
              | File _ => gret tt
              | Dir es_d =>
                  scan_dir start_path (fst e) es_d
                    (build_categories_in (Path.join start_path (fst e)) (snd e))
              end) es ;;
      (* the triples of the walk below each of [dirnames] in turn *)
      gfor (fun e =>
              match snd e with
              | File _ => gret tt
              | Dir _ => build_categories_in (Path.join start_path (fst e)) (snd e)
              end) es
  end.

Definition build_categories (start_path : string) : G Category unit :=
  match FS.lookup (Path.resolve cwd start_path) src with
  | Some n => build_categories_in start_path n
  | None => gret tt
  end.

(* --------------------------------------------------------------- *)
(** *** [build_collections], [find_build_jobs] *)

Definition collection_names : list string := ["jdat_notebooks"].

(** [for collection in build_collections(): body(collection)] *)
Definition for_build_collections {Y : Type} (body : Collection -> G Y unit) : G Y unit :=
  gfor (fun name =>
          let c_path := Path.join cwd name in
          cates <- collect (build_categories c_path) ;;
          body (mkCollection name cates))
       collection_names.

Definition build_collections : G Collection unit :=
  for_build_collections gyield.

(** One turn of [for category in collection.categories], up to the
    [yield]. *)
Definition build_job {Y : Type} (collection_name : string) (category : Category)
    : G Y BuildJob :=
  setup_build_env category ;;
  gfor (fun notebook =>
          create_build_script notebook [collection_name; cat_name category]
            (build_dir category) (artifact_dir category) ;;
          inject_notebook notebook (build_dir category))
       (notebooks category) ;;
  gret (mkBuildJob category
          (map (fun notebook =>
                  Path.join (build_dir category) (filename notebook ++ "-builder.sh"))
               (notebooks category))).

(** [for build_job in find_build_jobs(): body(build_job)]; the
    generator runs up to its next [yield] only when the loop asks for
    the next job. *)
Definition for_find_build_jobs {Y : Type} (body : BuildJob -> G Y unit) : G Y unit :=
  for_build_collections
    (fun collection =>
       gfor (fun category =>
               job <- build_job (col_name collection) category ;;
               body job)
            (categories collection)).

Definition find_build_jobs : G BuildJob unit :=
  for_find_build_jobs gyield.

End Script.

(* ================================================================= *)
(** ** The driver *)

(** A child process: how many more polls find it running, and its
    return code, negative when a signal ended it. *)
Record Process : Type := mkProcess {
  pending : nat;
  returncode : Z
}.

(** [proc.poll()] *)
Definition poll (proc : Process) : option Z * Process :=
  match pending proc with
  | O => (Some (returncode proc), proc)
  | S k => (None, mkProcess k (returncode proc))
  end.

(** What the driver does that shows from outside. *)
Inductive event : Type :=
| Popen (cmd : list string)
| Sleep
| LogError (msg : string)
| SetTrace.

Definition pass_names : list string := ["preimaging_01_mirage.ipynb-builder.sh"].

Section Driver.

Variable cwd : string.
Variable src : node.

(** The shell: the process it starts for a command line, and what
    that process does to the output directories. *)
Variable shell : list string -> node -> Process * node.

(** [subprocess.Popen(cmd, shell=True)] *)
Definition subprocess_Popen (cmd : list string) : G event Process :=
  fun out =>
    match shell cmd out with
    | (proc, out') => ([(Popen cmd, out)], inr proc, out')
    end.

(** [while proc.poll() is None: time.sleep(.1)], for a process that
    [n] more polls find running: what is left of it once [poll]
    answers its return code. *)
Fixpoint while_poll (n : nat) (rc : Z) : G event Process :=
  match n with
  | O => gret (mkProcess O rc)
  | S k => gyield Sleep ;; while_poll k rc
  end.

Definition build_artifact (cmd : string + list string) : G event unit :=
  let cmd := match cmd with inl s => [s] | inr l => l end in
  proc <- subprocess_Popen cmd ;;
  proc <- while_poll (pending proc) (returncode proc) ;;
  match fst (poll proc) with
  | Some code =>
      if (code >? 0)%Z then
        graise (BuildError ("Process Exit Code[" ++ Str.of_Z code ++ "]"))
      else gret tt
  | None => gret tt
  end.

(** Who sits at the debugger: whether the session entered after
    [script] failed, with the output directories as they are, is
    resumed.  A session that is not resumed is quit, with [q] or by the
    end of the input, as when nothing is connected to the standard
    input. *)
Variable debugger : string -> node -> bool.

(** [import pdb; pdb.set_trace()] and the [pass] after it: the session
    opens at the [pass]; resumed, it lets the turn end; quit, it raises
    [BdbQuit] there, inside the handler. *)
Definition pdb_set_trace (script : string) : G event unit :=
  gyield SetTrace ;;
  fun out => if debugger script out then gret tt out else graise BdbQuit out.

(** One turn of [for script in build_job.scripts].  A [BuildError] is
    logged and the debugger is entered; no other exception is taken,
    and nothing takes the [BdbQuit] of the debugger. *)
Definition run_script (script : string) : G event unit :=
  let name := Path.basename script in
  if existsb (String.eqb name) pass_names then gret tt
  else
    let command := ("bash " ++ script)%string in
    gtry (build_artifact (inl command))
         (fun err =>
            match err with
            | BuildError _ =>
                Some (gyield (LogError ("Unable to build " ++ script)) ;;
                      pdb_set_trace script)
            | _ => None
            end).

Definition main : G event unit :=
  for_find_build_jobs cwd src
    (fun build_job => gfor run_script (scripts build_job)).

(** The commands handed to the shell during a run. *)
Definition spawned (evs : list event) : list (list string) :=
  flat_map (fun ev => match ev with Popen cmd => [cmd] | _ => [] end) evs.

End Driver.

(* ================================================================= *)
(** ** Notions used in the statements *)

(** A name that can stand between two slashes of a path. *)
Definition slash_free (s : string) : Prop := Str.contains Str.slash s = false.

(** The two artifact paths in the build script of notebook [nb] of
    category [cat] in collection [coll], with the artifact directory
    [build_categories] gives the category. *)
Definition metadata_artifact (coll cat : string) (nb : Notebook) : string :=
  metadata_path nb [coll; cat] (Path.join ARTIFACT_DEST_DIR cat).

Definition html_artifact (coll cat : string) (nb : Notebook) : string :=
  html_path nb [coll; cat] (Path.join ARTIFACT_DEST_DIR cat).

(** The same paths, with a suffix [ext] after the file name. *)
Definition artifact_at (coll cat fname ext : string) : string :=
  (ARTIFACT_DEST_DIR ++ "/" ++ cat ++ "/" ++ coll ++ "/" ++ cat ++ "/" ++ fname ++ ext)%string.


(** The notebooks [build_categories] finds in a directory, and the
    directories it cannot make a category of: notebooks, and no
    [requirements.txt]. *)
Definition has_notebooks (es : entries) : bool :=
  existsb (fun e => is_notebook_name (fst e)) es.

Definition unbuildable (es : entries) : bool :=
  (has_notebooks es && negb (has_entry "requirements.txt" es))%bool.

(** Some directory below [n] is one of those. *)
Fixpoint unbuildable_below (n : node) : bool :=
  match n with
  | File _ => false
  | Dir es =>
      existsb (fun e =>
                 match snd e with
                 | File _ => false
                 | Dir es_d => (unbuildable es_d || unbuildable_below (snd e))%bool
                 end) es
  end.

(** [subdir n names es]: going down from [n] along [names], one comes
    to a directory whose entries are [es]. *)
Inductive subdir : node -> list string -> entries -> Prop :=
| subdir_child (es : entries) (name : string) (es_d : entries) :
    In (name, Dir es_d) es -> subdir (Dir es) [name] es_d
| subdir_deeper (es : entries) (name : string) (child : node)
    (names : list string) (es_d : entries) :
    In (name, child) es -> subdir child names es_d ->
    subdir (Dir es) (name :: names) es_d.

(** The category [build_categories] makes of the directory [names]
    below [start_path], whose entries are [es]. *)
Definition category_of (cwd start_path : string) (names : list string) (es : entries)
    : Category :=
  let dirpath := fold_left Path.join names start_path in
  let dirname := last names "" in
  mkCategory dirname (notebooks_of cwd dirpath es) dirpath
    (Path.join BUILD_BASE_DIR dirname) (Path.join ARTIFACT_DEST_DIR dirname).

(** A yield at which neither the build directory nor the artifact
    directory of the category exists. *)
Definition clean_at_yield (cwd : string) (y : Category * node) : Prop :=
  FS.exists_ (Path.resolve cwd (build_dir (fst y))) (snd y) = false
  /\ FS.exists_ (Path.resolve cwd (artifact_dir (fst y))) (snd y) = false.

(** A run that ended with an exception. *)
Definition raises {Y A : Type} (r : list (Y * node) * (exn + A) * node) : Prop :=
  exists e, raised r = Some e.

(** Every value a computation yields, with the directories at that
    time, satisfies [P]. *)
Definition every_yield {Y A : Type} (P : Y * node -> Prop) (g : G Y A) : Prop :=
  forall out, Forall P (fst (fst (g out))).

(** The message of the configuration error for the directory at
    [dirpath]. *)
Definition missing_requirements (cwd dirpath : string) : exn :=
  NotImplementedError
    ("Category missing Requirements File["
       ++ Path.relpath cwd (Path.join dirpath "requirements.txt") ++ "]").

(** A category made of a directory below [n] that has notebooks and
    [requirements.txt]. *)
Definition buildable_category (cwd start_path : string) (n : node) (c : Category) : Prop :=
  exists names es,
    subdir n names es
    /\ c = category_of cwd start_path names es
    /\ has_notebooks es = true
    /\ has_entry "requirements.txt" es = true.

(** A checkout whose directory [a] has a notebook and no
    [requirements.txt], after a directory [ok] that has both. *)
Definition checkout_without_requirements : node :=
  Dir [("repo", Dir [("jdat_notebooks", Dir
    [("ok", Dir [("n.ipynb", File "{}"); ("requirements.txt", File "")]);
     ("a", Dir [("m.ipynb", File "{}")])])])].

(** Output directories as the start of the script leaves them. *)
Definition fresh_output : node :=
  Dir [("tmp", Dir [("artifacts", Dir [])])].

(** A checkout whose category [a] has a subdirectory [b] with a
    notebook of its own. *)
Definition checkout_nested : node :=
  Dir [("repo", Dir [("jdat_notebooks", Dir
    [("a", Dir [("n.ipynb", File "{}"); ("requirements.txt", File "");
                ("b", Dir [("m.ipynb", File "{}"); ("requirements.txt", File "")])])])])].

(** A checkout whose only category [c] is inside a directory [g] that
    has no notebooks. *)
Definition checkout_grouped : node :=
  Dir [("repo", Dir [("jdat_notebooks", Dir
    [("g", Dir [("c", Dir [("n.ipynb", File "{}"); ("requirements.txt", File "")])])])])].

(** The scripts of a job that the driver does not skip. *)
Definition not_skipped (script : string) : bool :=
  negb (existsb (String.eqb (Path.basename script)) pass_names).

(** A shell whose processes all end at once with [code] and leave the
    directories alone. *)
Definition shell_exiting (code : Z) : list string -> node -> Process * node :=
  fun _ out => (mkProcess 0 code, out).

(** A computation that yields nothing. *)
Definition silent {Y A : Type} (g : G Y A) : Prop :=
  forall out, fst (fst (g out)) = [].

(** A name a directory entry can have: not empty, without a slash, and
    neither [.] nor [..]. *)
Definition valid_name (x : string) : bool :=
  (negb (Str.contains Str.slash x) && negb (String.eqb x "")
   && negb (String.eqb x ".") && negb (String.eqb x ".."))%bool.

(** The last character of a string. *)
Fixpoint last_char (s : string) : option ascii :=
  match s with
  | EmptyString => None
  | String a EmptyString => Some a
  | String _ s' => last_char s'
  end.

(** The entries of a directory after the files [new] were written to
    it one after the other. *)
Definition put (es new : entries) : entries :=
  fold_left (fun es e => FS.set (fst e) (snd e) es) new es.

Definition is_file (n : node) : bool :=
  match n with
  | File _ => true
  | Dir _ => false
  end.

Definition all_files (es : entries) : bool :=
  forallb (fun e => is_file (snd e)) es.

(** Two paths that part at some name. *)
Fixpoint diverge (cs cs2 : list string) : bool :=
  match cs, cs2 with
  | c :: r, c2 :: r2 => if String.eqb c c2 then diverge r r2 else true
  | _, _ => false
  end.

(** [os.makedirs] goes through: no file stands in the way, and the
    target is not there yet. *)
Fixpoint creatable (cs : list string) (n : node) : bool :=
  match cs with
  | [] => false
  | c :: cs' =>
      match n with
      | File _ => false
      | Dir es =>
          match FS.find c es with
          | Some x => creatable cs' x
          | None => true
          end
      end
  end.

(** [n'] is [n] but for what lies along the path [cs2]. *)
Fixpoint only_below (cs2 : list string) (n n' : node) : Prop :=
  match cs2 with
  | [] => True
  | c2 :: r2 =>
      match n, n' with
      | Dir es, Dir es' =>
          (forall c, c <> c2 -> FS.find c es' = FS.find c es)
          /\ match FS.find c2 es, FS.find c2 es' with
             | Some x, Some x' => only_below r2 x x'
             | None, Some x' => only_below r2 (Dir []) x'
             | None, None => True
             | Some _, None => r2 = []
             end
      | _, _ => n = n'
      end
  end.

(** The copy [shutil.copyfile] makes, under [name], of the file of the
    checkout at [source]; nothing when there is no file to read. *)
Definition copy_of (cwd : string) (src : node) (source name : string) : entries :=
  match FS.read (Path.resolve cwd source) src with
  | inr content => [(name, File content)]
  | inl _ => []
  end.

Definition copy_if_present (cwd : string) (src : node) (source name : string) : entries :=
  if src_exists cwd src source then copy_of cwd src source name else [].

(** The build script of a notebook, and the copy of the notebook. *)
Definition notebook_files (cwd : string) (src : node) (coll : string) (c : Category)
    (nb : Notebook) : entries :=
  ((filename nb ++ "-builder.sh")%string,
   File (build_script nb [coll; cat_name c] (build_dir c) (artifact_dir c)))
  :: copy_of cwd src (filepath nb) (filename nb).

(** The copies [setup_build_env] makes of the support files that the
    source directory has, and of the helper. *)
Definition support_copies (cwd : string) (src : node) (c : Category) : entries :=
  flat_map (fun f => copy_if_present cwd src (Path.join (source_dir c) f) f)
    support_files.

Definition helper_copies (cwd : string) (src : node) : entries :=
  flat_map (fun f => copy_if_present cwd src (Path.join3 cwd ".circleci" f) f)
    helper_files.

(** The files of the notebooks of a category. *)
Definition notebook_part (cwd : string) (src : node) (coll : string) (c : Category)
    : entries :=
  flat_map (notebook_files cwd src coll c) (notebooks c).

(** What [build_job] leaves in the build directory of a category: the
    environment-setup script, the support files that the source
    directory has, the helper, and for each notebook its build script
    and its copy. *)
Definition build_dir_listing (cwd : string) (src : node) (coll : string) (c : Category)
    : entries :=
  [("setup-build-env.sh", File (env_setup_script c))]
  ++ support_copies cwd src c
  ++ helper_copies cwd src
  ++ notebook_part cwd src coll c.

(** The file of the checkout at [p] can be read. *)
Definition readable (cwd : string) (src : node) (p : string) : Prop :=
  exists content, FS.read (Path.resolve cwd p) src = inr content.

(** Every file [build_job] copies for a category can be read. *)
Definition src_ok (cwd : string) (src : node) (c : Category) : Prop :=
  (forall f, In f support_files ->
     src_exists cwd src (Path.join (source_dir c) f) = true ->
     readable cwd src (Path.join (source_dir c) f))
  /\ (forall f, In f helper_files ->
        src_exists cwd src (Path.join3 cwd ".circleci" f) = true ->
        readable cwd src (Path.join3 cwd ".circleci" f))
  /\ (forall nb, In nb (notebooks c) -> readable cwd src (filepath nb)).

(** A category as the scan makes them: named after a directory, with
    its two directories under [/tmp] named after it, and with the
    notebooks of one directory. *)
Definition scanned (c : Category) : Prop :=
  valid_name (cat_name c) = true
  /\ build_dir c = Path.join BUILD_BASE_DIR (cat_name c)
  /\ artifact_dir c = Path.join ARTIFACT_DEST_DIR (cat_name c)
  /\ Forall (fun nb => valid_name (filename nb) = true
                       /\ Str.endswith ".ipynb" (filename nb) = true)
       (notebooks c)
  /\ NoDup (map filename (notebooks c)).

(** A step of [build_job] that goes through and writes the files [new]
    into the directory at [dir], which holds files only, and changes
    nothing along the paths that part from [dir]. *)
Definition fills_ok {Y : Type} (dir : list string) (g : G Y unit) (new : entries) : Prop :=
  forall out es,
    FS.lookup dir out = Some (Dir es) -> all_files es = true ->
    exists out',
      g out = ([], inr tt, out')
      /\ FS.lookup dir out' = Some (Dir (put es new))
      /\ all_files (put es new) = true
      /\ forall cs, diverge cs dir = true ->
           FS.lookup cs out' = FS.lookup cs out /\ creatable cs out' = creatable cs out.

(** The names of the build scripts of the notebooks. *)
Definition is_builder_script (name : string) : bool :=
  Str.endswith "-builder.sh" name.

Definition is_setup_script (name : string) : bool :=
  String.eqb name "setup-build-env.sh".

(** No name comes twice. *)
Fixpoint nodupb (l : list string) : bool :=
  match l with
  | [] => true
  | x :: l' => (negb (existsb (String.eqb x) l') && nodupb l')%bool
  end.

(** A tree of a file system: in every directory the names are valid and
    no name comes twice. *)
Fixpoint wf_tree (n : node) : bool :=
  match n with
  | File _ => true
  | Dir es =>
      (forallb (fun e => valid_name (fst e) && wf_tree (snd e)) es
       && nodupb (map fst es))%bool
  end.

(** What the scan does before it yields a category again: both stale
    directories are removed. *)
Definition cleanup {Y : Type} (cwd : string) (c : Category) : G Y unit :=
  remove_stale cwd (build_dir c) ;; remove_stale cwd (artifact_dir c).

(** The job [build_job] makes of a category. *)
Definition job_of (c : Category) : BuildJob :=
  mkBuildJob c
    (map (fun nb => Path.join (build_dir c) (filename nb ++ "-builder.sh"))
         (notebooks c)).

(** A checkout with one category of two notebooks, with
    [requirements.txt] and [environment.sh], and with the helper. *)
Definition checkout_catX : node :=
  Dir [("repo", Dir
    [(".circleci", Dir [("extract_metadata_from_notebook.py", File "import json")]);
     ("jdat_notebooks", Dir
        [("catX", Dir [("nb1.ipynb", File "{1}"); ("nb2.ipynb", File "{2}");
                       ("requirements.txt", File "numpy");
                       ("environment.sh", File "export A=1");
                       ("README.md", File "notes")])])])].

Definition catX : Category :=
  mkCategory "catX"
    [mkNotebook "nb1" "nb1.ipynb" "jdat_notebooks/catX/nb1.ipynb";
     mkNotebook "nb2" "nb2.ipynb" "jdat_notebooks/catX/nb2.ipynb"]
    "/repo/jdat_notebooks/catX" "/tmp/nbcollection-ci-build-base-dir/catX"
    "/tmp/artifacts/catX".

(** The exceptions a scan can end with: the configuration error of a
    directory, or the error of a system call. *)
Definition scan_error (cwd : string) (e : exn) : Prop :=
  (exists dirpath, e = missing_requirements cwd dirpath)
  \/ (exists errno path, e = OSError errno path).

(** Every exception a computation can end with satisfies [Q]. *)
Definition raises_only {Y A : Type} (Q : exn -> Prop) (g : G Y A) : Prop :=
  forall out e, raised (g out) = Some e -> Q e.

(** A computation that brings nothing into being: what does not exist
    before it does not exist after it. *)
Definition creates_nothing {Y A : Type} (g : G Y A) : Prop :=
  forall out cs, FS.exists_ cs out = false -> FS.exists_ cs (left_ (g out)) = false.

(** The names from the root to the artifact directory. *)
Definition artifact_dest_names : list string := ["tmp"; "artifacts"].

(** A computation that leaves what lies along the paths in [P] as it
    is, however it ends: what is there, and whether [os.makedirs] goes
    through there. *)
Definition keeps {Y A : Type} (P : list string -> Prop) (g : G Y A) : Prop :=
  forall out cs, P cs ->
    FS.lookup cs (left_ (g out)) = FS.lookup cs out
    /\ creatable cs (left_ (g out)) = creatable cs out.

(** The paths that part from both directories of a category. *)
Definition apart_from_category (cwd : string) (c : Category) (cs : list string) : Prop :=
  diverge cs (Path.resolve cwd (build_dir c)) = true
  /\ diverge cs (Path.resolve cwd (artifact_dir c)) = true.

(** The paths that part from the build base and from the artifact
    root. *)
Definition apart_from_output (cs : list string) : Prop :=
  diverge cs ["tmp"; "nbcollection-ci-build-base-dir"] = true
  /\ diverge cs ["tmp"; "artifacts"] = true.

(** A directory whose subdirectories hold files only: the layout of
    the repository, with every category right below the collection. *)
Definition flat_dir (es : entries) : bool :=
  forallb (fun e => match snd e with
                    | File _ => true
                    | Dir es_d => all_files es_d
                    end) es.

(** One category for each subdirectory with notebooks, in listing
    order. *)
Definition flat_categories (cwd start_path : string) (es : entries) : list Category :=
  flat_map (fun e => match snd e with
                     | File _ => []
                     | Dir es_d =>
                         if has_notebooks es_d
                         then [category_of cwd start_path [fst e] es_d]
                         else []
                     end) es.

(** The messages the driver logs, and how often it enters the
    debugger. *)
Definition logged (evs : list event) : list string :=
  flat_map (fun ev => match ev with LogError msg => [msg] | _ => [] end) evs.

Definition breakpoints (evs : list event) : nat :=
  List.length (filter (fun ev => match ev with SetTrace => true | _ => false end) evs).

(** A shell whose processes end with a return code that the command
    line decides: [delay], [code] and [effect] give, for each command,
    how long it runs, how it ends and what it does to the directories. *)
Definition shell_of (delay : list string -> nat) (code : list string -> Z)
    (effect : list string -> node -> node) : list string -> node -> Process * node :=
  fun cmd out => (mkProcess (delay cmd) (code cmd), effect cmd out).

(** The scripts the driver runs and that end with a positive code. *)
Definition fails (code : list string -> Z) (script : string) : bool :=
  (not_skipped script && (code ["bash " ++ script]%string >? 0)%Z)%bool.


(** The helper of the checkout, when it is there, is a file that can be
    read. *)
Definition helper_ok (cwd : string) (src : node) : Prop :=
  forall f, In f helper_files ->
    src_exists cwd src (Path.join3 cwd ".circleci" f) = true ->
    readable cwd src (Path.join3 cwd ".circleci" f).

(** Nothing stands in the way of a directory at [cs]: [os.makedirs]
    goes through there, or a directory is there already. *)
Definition room_for (cs : list string) (out : node) : Prop :=
  creatable cs out = true \/ exists es, FS.lookup cs out = Some (Dir es).

(** Output directories in which there is room for the build directory
    and for the artifact directory of a category of any name. *)
Definition output_ready (out : node) : Prop :=
  forall name,
    room_for ["tmp"; "nbcollection-ci-build-base-dir"; name] out
    /\ room_for ["tmp"; "artifacts"; name] out.

(** The paths that part from both directories of every name in a
    list. *)
Definition apart_from_names (names : list string) (cs : list string) : Prop :=
  forall d, In d names ->
    diverge cs ["tmp"; "nbcollection-ci-build-base-dir"; d] = true
    /\ diverge cs ["tmp"; "artifacts"; d] = true.

(** The directories at the last yield of a run, or [start] when the
    run yielded nothing. *)
Definition state_after {Y : Type} (ys : list (Y * node)) (start : node) : node :=
  last (map snd ys) start.

(** The scripts up to the first one, included, after which the session
    at the debugger is not resumed. *)
Fixpoint until_quit (resumes : string -> bool) (l : list string) : list string :=
  match l with
  | [] => []
  | s :: l' => s :: (if resumes s then until_quit resumes l' else [])
  end.

(** The characters [glob] reads as wildcards, its
    [magic_check = re.compile('([*?[])')]. *)
Definition is_magic (a : ascii) : bool :=
  (Ascii.eqb a "*" || Ascii.eqb a "?" || Ascii.eqb a "[")%bool.

Fixpoint has_magic (s : string) : bool :=
  match s with
  | EmptyString => false
  | String a s' => (is_magic a || has_magic s')%bool
  end.

(** A tree in which no directory has a wildcard character in its name.
    Line 125 puts the path of a directory into the pattern as it is, so
    only for such directories, below a start path that has none either,
    does [glob] list the notebooks of the directory itself, as
    [glob_ipynb] does. *)
Fixpoint plain_tree (n : node) : bool :=
  match n with
  | File _ => true
  | Dir es =>
      forallb (fun e =>
                 match snd e with
                 | File _ => true
                 | Dir _ => (negb (has_magic (fst e)) && plain_tree (snd e))%bool
                 end) es
  end.

(** A path that does not go up: no name in it is [..].  The system
    takes [..] from the directory it has come to, and fails when that
    directory is missing; [Path.resolve] strikes out the name before
    [..]; without [..] the two come to the same. *)
Definition no_dotdot (p : string) : bool :=
  negb (existsb (String.eqb "..") (Str.split Str.slash p)).



(** A checkout whose scan root holds a notebook of its own, and no
    [requirements.txt], beside a directory [ok] that has both. *)
Definition checkout_top_notebook : node :=
  Dir [("repo", Dir [("jdat_notebooks", Dir
    [("top.ipynb", File "{}");
     ("ok", Dir [("n.ipynb", File "{}"); ("requirements.txt", File "")])])])].

(** A computation after which nothing that was absent at one of its
    yields is there: the caller finds, at the end, no more than it was
    handed. *)
Definition settles {Y A : Type} (g : G Y A) : Prop :=
  forall out,
    Forall (fun y => forall cs, FS.exists_ cs (snd y) = false ->
                       FS.exists_ cs (left_ (g out)) = false)
      (fst (fst (g out))).

(** Output directories with something left from an earlier run in both
    directories of the category [catX]. *)
Definition stale_output : node :=
  Dir [("tmp", Dir [("nbcollection-ci-build-base-dir",
                     Dir [("catX", Dir [("nb1.ipynb-builder.sh", File "old")])]);
                    ("artifacts", Dir [("catX", Dir [("old.html", File "<html>")])])])].

(** A checkout with a directory named [*] beside two directories that
    each hold a notebook [n.ipynb]. *)
Definition checkout_star : node :=
  Dir [("repo", Dir [("jdat_notebooks", Dir
    [("k", Dir [("n.ipynb", File "{k}"); ("requirements.txt", File "")]);
     ("j", Dir [("n.ipynb", File "{j}"); ("requirements.txt", File "")]);
     ("*", Dir [("requirements.txt", File "")])])])].

(** The category of the directory [*] of that checkout, with the
    notebooks the pattern [/repo/jdat_notebooks/*/*.ipynb] of line 125
    matches there: the notebooks of [k] and of [j], of the same file
    name. *)
Definition category_star : Category :=
  mkCategory "*"
    [mkNotebook "n" "n.ipynb" "jdat_notebooks/k/n.ipynb";
     mkNotebook "n" "n.ipynb" "jdat_notebooks/j/n.ipynb"]
    "/repo/jdat_notebooks/*" "/tmp/nbcollection-ci-build-base-dir/*" "/tmp/artifacts/*".

(** The paths [build_job] reads for a category do not go up: the
    working directory, the source directory and the paths of the
    notebooks have no [..]. *)
Definition reads_plainly (cwd : string) (c : Category) : Prop :=
  no_dotdot cwd = true
  /\ no_dotdot (source_dir c) = true
  /\ Forall (fun nb => no_dotdot (filepath nb) = true) (notebooks c).

(* ================================================================= *)
(** * Properties *)

(** ** Strings and paths *)

Example join_ex1 : Path.join "/tmp/artifacts" "catX" = "/tmp/artifacts/catX".
Proof. reflexivity. Qed.
Example join_ex2 : Path.join "/tmp/artifacts" "/abs" = "/abs".
Proof. reflexivity. Qed.
Example join_ex3 : Path.join "a/" "b" = "a/b".
Proof. reflexivity. Qed.
Example basename_ex : Path.basename "/tmp/b/x.ipynb-builder.sh" = "x.ipynb-builder.sh".
Proof. reflexivity. Qed.
Example dirname_ex1 : Path.dirname "/tmp/a/b/c.html" = "/tmp/a/b".
Proof. reflexivity. Qed.
Example dirname_ex2 : Path.dirname "/c.html" = "/".
Proof. reflexivity. Qed.
Example dirname_ex3 : Path.dirname "c.html" = "".
Proof. reflexivity. Qed.
Example dirname_ex4 : Path.dirname "a//c.html" = "a".
Proof. reflexivity. Qed.
Example relpath_ex1 : Path.relpath "/repo" "/repo/jdat_notebooks/a/n.ipynb" = "jdat_notebooks/a/n.ipynb".
Proof. reflexivity. Qed.
Example relpath_ex2 : Path.relpath "/repo/x" "/repo/y/n" = "../y/n".
Proof. reflexivity. Qed.
Example rsplit_ex1 : Str.rsplit1_head Str.dot "a.b.ipynb" = "a.b".
Proof. reflexivity. Qed.
Example rsplit_ex2 : Str.rsplit1_head Str.dot "abc" = "abc".
Proof. reflexivity. Qed.
Example of_Z_ex : Str.of_Z 137 = "137".
Proof. reflexivity. Qed.


Section StringFacts.

Lemma append_assoc (a b c : string) : ((a ++ b) ++ c = a ++ (b ++ c))%string.
Proof. induction a as [|x a IH]; simpl; [reflexivity | now rewrite IH]. Qed.

Lemma append_nil_r (a : string) : (a ++ "" = a)%string.
Proof. induction a as [|x a IH]; simpl; [reflexivity | now rewrite IH]. Qed.

Lemma length_append (a b : string) :
  String.length (a ++ b) = String.length a + String.length b.
Proof. induction a as [|x a IH]; simpl; [reflexivity | now rewrite IH]. Qed.

Lemma contains_append (c : ascii) (a b : string) :
  Str.contains c (a ++ b) = (Str.contains c a || Str.contains c b)%bool.
Proof.
  induction a as [|x a IH]; simpl; [reflexivity |].
  now rewrite IH, orb_assoc.
Qed.

Lemma split_not_nil (c : ascii) (s : string) : Str.split c s <> [].
Proof.
  destruct s as [|a s]; simpl; [discriminate |].
  destruct (Ascii.eqb a c); [discriminate |].
  destruct (Str.split c s); discriminate.
Qed.

(** Splitting distributes over a separator. *)
Lemma split_append (c : ascii) (a b : string) :
  Str.split c (a ++ String c b) = (Str.split c a ++ Str.split c b)%list.
Proof.
  induction a as [|x a IH]; simpl.
  - now rewrite Ascii.eqb_refl.
  - destruct (Ascii.eqb x c); [now rewrite IH |].
    rewrite IH.
    destruct (Str.split c a) as [|h t] eqn:E; [now apply split_not_nil in E |].
    reflexivity.
Qed.

(** A string without the separator is one piece. *)
Lemma split_one (c : ascii) (s : string) :
  Str.contains c s = false -> Str.split c s = [s].
Proof.
  induction s as [|a s IH]; simpl; [reflexivity |].
  intros H. apply orb_false_iff in H as [Ha Hs].
  rewrite Ha, (IH Hs). reflexivity.
Qed.

Lemma startswith_sep (s : string) :
  Str.contains Str.slash s = false -> Str.startswith Path.sep s = false.
Proof.
  destruct s as [|a s]; simpl; [reflexivity |].
  intros H. apply orb_false_iff in H as [Ha _].
  rewrite Ascii.eqb_sym in Ha. unfold Str.slash in Ha.
  change (Ascii.eqb "/"%char a && Str.startswith "" s = false)%bool.
  now rewrite Ha.
Qed.

End StringFacts.

(** ** Artifact paths *)

Section ArtifactPaths.

Lemma join_artifact_dir (cat : string) :
  slash_free cat -> Path.join ARTIFACT_DEST_DIR cat = (ARTIFACT_DEST_DIR ++ "/" ++ cat)%string.
Proof.
  intros H. unfold Path.join. now rewrite (startswith_sep cat H).
Qed.

Lemma join_build_base_dir (cat : string) :
  slash_free cat -> Path.join BUILD_BASE_DIR cat = (BUILD_BASE_DIR ++ "/" ++ cat)%string.
Proof.
  intros H. unfold Path.join. now rewrite (startswith_sep cat H).
Qed.

Lemma metadata_artifact_eq (coll cat : string) (nb : Notebook) :
  slash_free cat ->
  metadata_artifact coll cat nb = artifact_at coll cat (filename nb) ".metadata.json".
Proof.
  intros H. unfold metadata_artifact, metadata_path, artifact_at, categories_formatted.
  rewrite (join_artifact_dir cat H). cbn [Str.join].
  now rewrite !append_assoc.
Qed.

Lemma html_artifact_eq (coll cat : string) (nb : Notebook) :
  slash_free cat ->
  html_artifact coll cat nb = artifact_at coll cat (filename nb) ".html".
Proof.
  intros H. unfold html_artifact, html_path, artifact_at, categories_formatted.
  rewrite (join_artifact_dir cat H). cbn [Str.join].
  now rewrite !append_assoc.
Qed.

Lemma split_artifact_at (coll cat fname ext : string) :
  slash_free coll -> slash_free cat -> slash_free fname -> slash_free ext ->
  Str.split Str.slash (artifact_at coll cat fname ext)
  = [""; "tmp"; "artifacts"; cat; coll; cat; (fname ++ ext)%string].
Proof.
  intros Hcoll Hcat Hf He. unfold artifact_at.
  change (Str.split Str.slash
            (ARTIFACT_DEST_DIR ++ String Str.slash
               (cat ++ String Str.slash
                  (coll ++ String Str.slash
                     (cat ++ String Str.slash (fname ++ ext)))))
          = [""; "tmp"; "artifacts"; cat; coll; cat; (fname ++ ext)%string]).
  rewrite !split_append.
  rewrite (split_one _ _ Hcat), (split_one _ _ Hcoll).
  rewrite (split_one Str.slash (fname ++ ext)); [reflexivity |].
  rewrite contains_append. unfold slash_free in Hf, He. now rewrite Hf, He.
Qed.

(** Two artifact paths are equal only for the same collection and the
    same category. *)
Lemma artifact_at_inj (coll1 cat1 f1 e1 coll2 cat2 f2 e2 : string) :
  slash_free coll1 -> slash_free cat1 -> slash_free f1 -> slash_free e1 ->
  slash_free coll2 -> slash_free cat2 -> slash_free f2 -> slash_free e2 ->
  artifact_at coll1 cat1 f1 e1 = artifact_at coll2 cat2 f2 e2 ->
  coll1 = coll2 /\ cat1 = cat2.
Proof.
  intros A1 B1 C1 D1 A2 B2 C2 D2 E.
  apply (f_equal (Str.split Str.slash)) in E.
  rewrite !split_artifact_at in E by assumption.
  injection E as -> -> _. split; reflexivity.
Qed.

End ArtifactPaths.

(** C1, as the script has it: the build script of a notebook names the
    metadata file [<artifact-root>/<category>/<collection>/<category>/<notebook-filename>.metadata.json]
    and the report [<artifact-root>/<category>/<collection>/<category>/<notebook-filename>.html]:
    the category name comes twice, once from the artifact directory of
    the category and once from the list of names.  With names that hold
    no slash, the paths of two notebooks never coincide when their
    collections or their categories differ, whatever the file names. *)
Theorem artifact_paths_namespaced
    (coll1 cat1 coll2 cat2 : string) (nb1 nb2 : Notebook) :
  slash_free coll1 -> slash_free cat1 -> slash_free (filename nb1) ->
  slash_free coll2 -> slash_free cat2 -> slash_free (filename nb2) ->
  (metadata_artifact coll1 cat1 nb1
   = ARTIFACT_DEST_DIR ++ "/" ++ cat1 ++ "/" ++ coll1 ++ "/" ++ cat1 ++ "/"
       ++ filename nb1 ++ ".metadata.json")%string
  /\ (html_artifact coll1 cat1 nb1
      = ARTIFACT_DEST_DIR ++ "/" ++ cat1 ++ "/" ++ coll1 ++ "/" ++ cat1 ++ "/"
          ++ filename nb1 ++ ".html")%string
  /\ (coll1 <> coll2 \/ cat1 <> cat2 ->
      metadata_artifact coll1 cat1 nb1 <> metadata_artifact coll2 cat2 nb2
      /\ html_artifact coll1 cat1 nb1 <> html_artifact coll2 cat2 nb2
      /\ metadata_artifact coll1 cat1 nb1 <> html_artifact coll2 cat2 nb2
      /\ html_artifact coll1 cat1 nb1 <> metadata_artifact coll2 cat2 nb2).
Proof.
  intros A1 B1 C1 A2 B2 C2.
  split; [exact (metadata_artifact_eq coll1 cat1 nb1 B1) |].
  split; [exact (html_artifact_eq coll1 cat1 nb1 B1) |].
  intros Hdiff.
  rewrite !metadata_artifact_eq, !html_artifact_eq by assumption.
  assert (Hne : forall e1 e2, slash_free e1 -> slash_free e2 ->
            artifact_at coll1 cat1 (filename nb1) e1
            <> artifact_at coll2 cat2 (filename nb2) e2).
  { intros e1 e2 He1 He2 E.
    destruct (artifact_at_inj _ _ _ _ _ _ _ _ A1 B1 C1 He1 A2 B2 C2 He2 E) as [-> ->].
    destruct Hdiff as [H | H]; now apply H. }
  repeat split; apply Hne; reflexivity.
Qed.

Lemma artifact_paths_namespaced_witness :
  let nb := mkNotebook "nb1" "nb1.ipynb" "jdat_notebooks/catX/nb1.ipynb" in
  html_artifact "jdat_notebooks" "catX" nb
  = "/tmp/artifacts/catX/jdat_notebooks/catX/nb1.ipynb.html"
  /\ html_artifact "jdat_notebooks" "catX" nb <> html_artifact "jdat_notebooks" "catY" nb.
Proof.
  intros nb.
  pose proof (artifact_paths_namespaced "jdat_notebooks" "catX" "jdat_notebooks" "catY" nb nb
                eq_refl eq_refl eq_refl eq_refl eq_refl eq_refl) as (_ & Hh & Hd).
  split; [exact Hh |].
  destruct Hd as (_ & H & _); [right; discriminate | exact H].
Defined.

(** C1 as the specification words it fails: the paths are not
    [<artifact-root>/<collection>/<category>/<notebook-filename>...]. *)
Lemma artifact_paths_not_collection_first :
  let nb := mkNotebook "nb1" "nb1.ipynb" "jdat_notebooks/catX/nb1.ipynb" in
  metadata_artifact "jdat_notebooks" "catX" nb
  <> (ARTIFACT_DEST_DIR ++ "/" ++ "jdat_notebooks" ++ "/" ++ "catX" ++ "/"
        ++ filename nb ++ ".metadata.json")%string
  /\ html_artifact "jdat_notebooks" "catX" nb
     <> (ARTIFACT_DEST_DIR ++ "/" ++ "jdat_notebooks" ++ "/" ++ "catX" ++ "/"
           ++ filename nb ++ ".html")%string.
Proof.
  split; intros E; vm_compute in E; discriminate E.
Qed.

(* ================================================================= *)
(** ** Directory trees *)

Section TreeFacts.

Lemma find_set_same (c : string) (x : node) (es : entries) :
  FS.find c (FS.set c x es) = Some x.
Proof.
  induction es as [|[n y] es IH]; simpl.
  - now rewrite String.eqb_refl.
  - destruct (String.eqb n c) eqn:E; simpl; rewrite E; [reflexivity | exact IH].
Qed.

Lemma find_set_other (c c' : string) (x : node) (es : entries) :
  c <> c' -> FS.find c (FS.set c' x es) = FS.find c es.
Proof.
  intros Hne. induction es as [|[n y] es IH]; simpl.
  - destruct (String.eqb_spec c' c); [congruence | reflexivity].
  - destruct (String.eqb_spec n c'); simpl.
    + subst n. destruct (String.eqb_spec c' c); [congruence | reflexivity].
    + destruct (String.eqb_spec n c); [reflexivity | exact IH].
Qed.

Lemma find_del_same (c : string) (es : entries) : FS.find c (FS.del c es) = None.
Proof.
  unfold FS.del. induction es as [|[n y] es IH]; simpl; [reflexivity |].
  destruct (String.eqb n c) eqn:E; simpl; [exact IH | now rewrite E].
Qed.

Lemma find_del_other (c c' : string) (es : entries) :
  c <> c' -> FS.find c (FS.del c' es) = FS.find c es.
Proof.
  intros Hne. unfold FS.del. induction es as [|[n y] es IH]; simpl; [reflexivity |].
  destruct (String.eqb_spec n c'); simpl.
  - subst n. destruct (String.eqb_spec c' c); [congruence | exact IH].
  - destruct (String.eqb_spec n c); [reflexivity | exact IH].
Qed.

(** What was removed is no longer there. *)
Lemma lookup_remove_same (cs : list string) (n : node) :
  cs <> [] -> FS.lookup cs (FS.remove cs n) = None.
Proof.
  revert n. induction cs as [|c cs IH]; intros n Hne; [congruence |].
  destruct n as [content|es]; [reflexivity |].
  destruct cs as [|c' cs'].
  - simpl. now rewrite find_del_same.
  - cbn [FS.remove]. destruct (FS.find c es) as [x|] eqn:E.
    + cbn [FS.lookup]. rewrite find_set_same.
      refine (IH x _). discriminate.
    + cbn [FS.lookup]. now rewrite E.
Qed.

(** Removing does not bring anything into being. *)
Lemma lookup_remove_none (cs cs2 : list string) (n : node) :
  FS.lookup cs n = None -> FS.lookup cs (FS.remove cs2 n) = None.
Proof.
  revert cs2 n. induction cs as [|c cs IH]; intros cs2 n H; [discriminate H |].
  destruct cs2 as [|c2 cs2']; [exact H |].
  destruct n as [content|es]; [exact H |].
  cbn [FS.lookup] in H.
  destruct cs2' as [|c3 cs3].
  - cbn [FS.remove FS.lookup].
    destruct (String.eqb_spec c c2) as [->|Hne].
    + now rewrite find_del_same.
    + now rewrite (find_del_other c c2 es Hne).
  - cbn [FS.remove]. destruct (FS.find c2 es) as [y|] eqn:E2; [| exact H].
    cbn [FS.lookup].
    destruct (String.eqb_spec c c2) as [->|Hne].
    + rewrite find_set_same. rewrite E2 in H. exact (IH (c3 :: cs3) y H).
    + now rewrite (find_set_other c c2 _ es Hne).
Qed.

Lemma exists_remove_same (cs : list string) (n : node) :
  cs <> [] -> FS.exists_ cs (FS.remove cs n) = false.
Proof. intros H. unfold FS.exists_. now rewrite lookup_remove_same. Qed.

Lemma exists_remove_none (cs cs2 : list string) (n : node) :
  FS.exists_ cs n = false -> FS.exists_ cs (FS.remove cs2 n) = false.
Proof.
  unfold FS.exists_. intros H.
  destruct (FS.lookup cs n) eqn:E; [discriminate H |].
  now rewrite lookup_remove_none.
Qed.

(** After a [shutil.rmtree] that went through, the target is gone and
    nothing new is there. *)
Lemma rmtree_ok (cs : list string) (n n' : node) :
  FS.rmtree cs n = inr n' ->
  FS.exists_ cs n' = false
  /\ forall cs', FS.exists_ cs' n = false -> FS.exists_ cs' n' = false.
Proof.
  unfold FS.rmtree. intros H.
  destruct (FS.lookup cs n) as [[content|es]|]; try discriminate H.
  destruct cs as [|c cs]; [discriminate H |].
  injection H as <-. split.
  - refine (exists_remove_same (c :: cs) n _). discriminate.
  - intros cs'. exact (exists_remove_none cs' (c :: cs) n).
Qed.

End TreeFacts.

(* ================================================================= *)
(** ** Computations that yield *)

Section Runs.

Context {Y : Type}.

Lemma every_yield_ret {A : Type} (P : Y * node -> Prop) (a : A) :
  every_yield P (gret a).
Proof. intros out. constructor. Qed.

Lemma every_yield_raise {A : Type} (P : Y * node -> Prop) (e : exn) :
  every_yield P (@graise Y A e).
Proof. intros out. constructor. Qed.

Lemma every_yield_bind {A B : Type} (P : Y * node -> Prop) (m : G Y A) (f : A -> G Y B) :
  every_yield P m -> (forall a, every_yield P (f a)) -> every_yield P (gbind m f).
Proof.
  intros Hm Hf out. unfold gbind. specialize (Hm out).
  destruct (m out) as [[ys [e|a]] out']; [exact Hm |].
  specialize (Hf a out'). destruct (f a out') as [[ys' r] out''].
  simpl in *. apply Forall_app. split; assumption.
Qed.

Lemma every_yield_for {X : Type} (P : Y * node -> Prop) (body : X -> G Y unit)
    (l : list X) :
  (forall x, In x l -> every_yield P (body x)) -> every_yield P (gfor body l).
Proof.
  induction l as [|x l IH]; intros H; simpl.
  - apply every_yield_ret.
  - apply every_yield_bind.
    + apply H. now left.
    + intros _. apply IH. intros y Hy. apply H. now right.
Qed.

Lemma every_yield_impl {A : Type} (P Q : Y * node -> Prop) (g : G Y A) :
  (forall y, P y -> Q y) -> every_yield P g -> every_yield Q g.
Proof. intros H Hg out. eapply Forall_impl; [exact H | apply Hg]. Qed.

(** An exception in the first part of a sequence, or in every
    continuation, ends the sequence. *)
Lemma raises_bind_l {A B : Type} (m : G Y A) (f : A -> G Y B) (out : node) :
  raises (m out) -> raises (gbind m f out).
Proof.
  unfold raises, raised, gbind. intros [e H].
  destruct (m out) as [[ys [e'|a]] out']; simpl in *; [now exists e' | discriminate H].
Qed.

Lemma raises_bind_r {A B : Type} (m : G Y A) (f : A -> G Y B) (out : node) :
  (forall a out', raises (f a out')) -> raises (gbind m f out).
Proof.
  unfold raises, raised, gbind. intros H.
  destruct (m out) as [[ys [e'|a]] out']; simpl; [now exists e' |].
  specialize (H a out'). destruct (f a out') as [[ys' r] out'']. exact H.
Qed.

Lemma raises_for {X : Type} (body : X -> G Y unit) (l : list X) (x : X) :
  In x l -> (forall out, raises (body x out)) -> forall out, raises (gfor body l out).
Proof.
  induction l as [|x' l IH]; intros Hin Hx out; [contradiction |].
  simpl. destruct Hin as [->|Hin].
  - apply raises_bind_l, Hx.
  - apply raises_bind_r. intros _ out'. now apply IH.
Qed.

End Runs.

(* ================================================================= *)
(** ** The scan *)

Section Scan.

Variable cwd : string.

Lemma notebooks_of_nil (dirpath : string) (es : entries) :
  notebooks_of cwd dirpath es = [] <-> has_notebooks es = false.
Proof.
  unfold notebooks_of, glob_ipynb, has_notebooks.
  induction es as [|e es IH]; simpl; [tauto |].
  destruct (is_notebook_name (fst e)); simpl; [| exact IH].
  split; discriminate.
Qed.

(** [if os.path.exists(d): shutil.rmtree(d)] yields nothing; when it
    goes through, [d] does not exist and nothing new does. *)
Lemma remove_stale_run (d : string) (out : node) :
  exists r out',
    @remove_stale cwd Category d out = ([], r, out')
    /\ (forall u, r = inr u ->
        FS.exists_ (Path.resolve cwd d) out' = false
        /\ forall cs, FS.exists_ cs out = false -> FS.exists_ cs out' = false).
Proof.
  unfold remove_stale, gbind, os_path_exists.
  destruct (FS.exists_ (Path.resolve cwd d) out) eqn:E.
  - unfold shutil_rmtree, syscall.
    destruct (FS.rmtree (Path.resolve cwd d) out) as [e|out'] eqn:R.
    + exists (inl (OSError e d)), out. split; [reflexivity | discriminate].
    + exists (inr tt), out'. split; [reflexivity |]. intros _ _. now apply rmtree_ok.
  - exists (inr tt), out. split; [reflexivity |]. intros _ _. split; [exact E | tauto].
Qed.

(** What the body yields, when its directory has notebooks and
    [requirements.txt]: the category, with both stale directories
    gone. *)
Lemma scan_dir_yields (P : Category * node -> Prop) (root dirname : string)
    (es : entries) (recurse : G Category unit) :
  (has_notebooks es = false -> every_yield P recurse) ->
  (has_notebooks es = true -> has_entry "requirements.txt" es = true ->
   forall out,
     clean_at_yield cwd (category_of cwd root [dirname] es, out) ->
     P (category_of cwd root [dirname] es, out)) ->
  every_yield P (scan_dir cwd root dirname es recurse).
Proof.
  intros Hrec Hcat. unfold scan_dir.
  destruct (notebooks_of cwd (Path.join root dirname) es) as [|nb nbs] eqn:N.
  - apply Hrec. now apply (notebooks_of_nil (Path.join root dirname)).
  - assert (Hnb : has_notebooks es = true).
    { destruct (has_notebooks es) eqn:E; [reflexivity |].
      apply (notebooks_of_nil (Path.join root dirname)) in E. congruence. }
    destruct (has_entry "requirements.txt" es) eqn:R; simpl;
      [| apply every_yield_raise].
    intros out. unfold gbind.
    destruct (remove_stale_run (Path.join BUILD_BASE_DIR dirname) out)
      as (r1 & out1 & E1 & H1).
    rewrite E1. destruct r1 as [e|[]]; [constructor |].
    destruct (remove_stale_run (Path.join ARTIFACT_DEST_DIR dirname) out1)
      as (r2 & out2 & E2 & H2).
    rewrite E2. destruct r2 as [e|[]]; [constructor |].
    destruct (H1 tt eq_refl) as [Hb _]. destruct (H2 tt eq_refl) as [Ha Hkeep].
    simpl. constructor; [| constructor].
    rewrite <- N.
    apply (Hcat Hnb eq_refl out2). split; simpl; [now apply Hkeep | exact Ha].
Qed.

(** The yields of the scan of a tree, from those of the body. *)
Lemma build_categories_in_yields (P : string -> node -> Category * node -> Prop) :
  (forall start es d child y,
     In (d, child) es -> P (Path.join start d) child y -> P start (Dir es) y) ->
  (forall start es d es_d out,
     In (d, Dir es_d) es ->
     has_notebooks es_d = true -> has_entry "requirements.txt" es_d = true ->
     clean_at_yield cwd (category_of cwd start [d] es_d, out) ->
     P start (Dir es) (category_of cwd start [d] es_d, out)) ->
  forall n start, every_yield (P start n) (build_categories_in cwd start n).
Proof.
  intros Hup Hbase n.
  induction n as [content|es IH] using node_entries_ind; intros start; simpl.
  - apply every_yield_ret.
  - rewrite Forall_forall in IH.
    apply every_yield_bind; [| intros _]; apply every_yield_for;
      intros [d child] Hin; simpl; specialize (IH _ Hin); simpl in IH;
      destruct child as [content|es_d]; try apply every_yield_ret.
    + apply scan_dir_yields.
      * intros _. eapply every_yield_impl; [| apply IH].
        intros y. now apply Hup.
      * intros Hnb Hreq out. now apply Hbase.
    + eapply every_yield_impl; [| apply IH]. intros y. now apply Hup.
Qed.

End Scan.

Section ScanErrors.

Variable cwd : string.

Lemma scan_dir_unbuildable (root dirname : string) (es : entries)
    (recurse : G Category unit) (out : node) :
  unbuildable es = true ->
  scan_dir cwd root dirname es recurse out
  = ([], inl (missing_requirements cwd (Path.join root dirname)), out).
Proof.
  unfold unbuildable, scan_dir. intros H.
  apply andb_true_iff in H as [Hnb Hreq].
  destruct (notebooks_of cwd (Path.join root dirname) es) eqn:N.
  - apply (notebooks_of_nil cwd) in N. congruence.
  - rewrite Hreq. reflexivity.
Qed.

Lemma build_categories_in_raises (n : node) :
  unbuildable_below n = true ->
  forall start out, raises (build_categories_in cwd start n out).
Proof.
  induction n as [content|es IH] using node_entries_ind; intros H start out;
    [discriminate H |].
  simpl in H. apply existsb_exists in H as ([d child] & Hin & H).
  rewrite Forall_forall in IH. specialize (IH _ Hin).
  simpl in H, IH. destruct child as [content|es_d]; [discriminate H |].
  simpl. apply orb_true_iff in H as [H|H].
  - apply raises_bind_l.
    apply (raises_for _ es (d, Dir es_d) Hin). intros out'. simpl.
    rewrite (scan_dir_unbuildable _ _ _ _ _ H).
    eexists. reflexivity.
  - apply raises_bind_r. intros _ out'.
    apply (raises_for _ es (d, Dir es_d) Hin). intros out''. simpl.
    now apply IH.
Qed.

Lemma last_cons_nonempty (d : string) (names : list string) :
  names <> [] -> last (d :: names) "" = last names "".
Proof. destruct names; [congruence | reflexivity]. Qed.

Lemma subdir_nonempty (n : node) (names : list string) (es : entries) :
  subdir n names es -> names <> [].
Proof. intros H. destruct H; discriminate. Qed.

Lemma build_categories_in_buildable (n : node) (start : string) :
  every_yield (fun y => buildable_category cwd start n (fst y))
    (build_categories_in cwd start n).
Proof.
  revert n start.
  apply (build_categories_in_yields cwd
           (fun start n y => buildable_category cwd start n (fst y))).
  - intros start es d child [c out] Hin (names & es_d & Hsub & Hc & Hnb & Hreq).
    exists (d :: names), es_d. repeat split; try assumption.
    + now apply subdir_deeper with (child := child).
    + simpl in *. subst c. unfold category_of.
      rewrite (last_cons_nonempty d names (subdir_nonempty _ _ _ Hsub)).
      reflexivity.
  - intros start es d es_d out Hin Hnb Hreq _.
    exists [d], es_d. repeat split; try assumption.
    now apply subdir_child.
Qed.

End ScanErrors.

Section ScanRaises.

Variable cwd : string.

Lemma raises_only_ret {Y A : Type} (Q : exn -> Prop) (a : A) :
  raises_only Q (@gret Y A a).
Proof. intros out e H. discriminate H. Qed.

Lemma raises_only_raise {Y A : Type} (Q : exn -> Prop) (e : exn) :
  Q e -> raises_only Q (@graise Y A e).
Proof. intros He out e' H. injection H as <-. exact He. Qed.

Lemma raises_only_bind {Y A B : Type} (Q : exn -> Prop) (m : G Y A) (f : A -> G Y B) :
  raises_only Q m -> (forall a, raises_only Q (f a)) -> raises_only Q (gbind m f).
Proof.
  intros Hm Hf out e. unfold raised, gbind. specialize (Hm out).
  unfold raised in Hm.
  destruct (m out) as [[ys [e'|a]] out']; cbn [fst snd] in *; [apply Hm |].
  specialize (Hf a out'). unfold raised in Hf.
  destruct (f a out') as [[ys' r] out'']. exact (Hf e).
Qed.

Lemma raises_only_for {Y X : Type} (Q : exn -> Prop) (body : X -> G Y unit)
    (l : list X) :
  (forall x, In x l -> raises_only Q (body x)) -> raises_only Q (gfor body l).
Proof.
  induction l as [|x l IH]; intros H; simpl.
  - apply raises_only_ret.
  - apply raises_only_bind.
    + apply H. now left.
    + intros _. apply IH. intros y Hy. apply H. now right.
Qed.

Lemma raises_only_remove_stale (d : string) :
  raises_only (scan_error cwd) (@remove_stale cwd Category d).
Proof.
  intros out e. unfold remove_stale, gbind, os_path_exists, raised. cbn [fst snd].
  destruct (FS.exists_ (Path.resolve cwd d) out); [| discriminate].
  unfold shutil_rmtree, syscall.
  destruct (FS.rmtree (Path.resolve cwd d) out) as [errno|out']; [| discriminate].
  intros H. injection H as <-. right. eauto.
Qed.

Lemma raises_only_scan_dir (root dirname : string) (es : entries)
    (recurse : G Category unit) :
  raises_only (scan_error cwd) recurse ->
  raises_only (scan_error cwd) (scan_dir cwd root dirname es recurse).
Proof.
  intros Hrec. unfold scan_dir.
  destruct (notebooks_of cwd (Path.join root dirname) es); [exact Hrec |].
  destruct (has_entry "requirements.txt" es); cbn [negb].
  - apply raises_only_bind; [apply raises_only_remove_stale | intros _].
    apply raises_only_bind; [apply raises_only_remove_stale | intros _].
    intros out e H. discriminate H.
  - apply raises_only_raise. left. now exists (Path.join root dirname).
Qed.

Lemma raises_only_build_categories_in (n : node) (start : string) :
  raises_only (scan_error cwd) (build_categories_in cwd start n).
Proof.
  revert start. induction n as [content|es IH] using node_entries_ind; intros start;
    simpl.
  - apply raises_only_ret.
  - rewrite Forall_forall in IH.
    apply raises_only_bind; [| intros _]; apply raises_only_for;
      intros [d child] Hin; simpl; specialize (IH _ Hin); simpl in IH;
      destruct child as [content|es_d]; try apply raises_only_ret.
    + apply raises_only_scan_dir, IH.
    + apply IH.
Qed.

End ScanRaises.

(** C4, as the code has it: for a directory below the start of the
    scan, whose path has no wildcard character: when it has a notebook
    and no [requirements.txt], the body of the scan raises the
    configuration error at once, with nothing yielded and nothing
    removed; a scan over a tree that has such a directory below its
    start ends with an exception, which nothing catches, and which is a
    configuration error unless a removal of stale directories failed
    before; and every category a scan yields is for a directory that has
    notebooks and [requirements.txt]. *)
Theorem missing_requirements_is_fatal (cwd : string) :
  (forall root dirname es recurse out,
     has_magic (Path.join root dirname) = false ->
     unbuildable es = true ->
     scan_dir cwd root dirname es recurse out
     = ([], inl (missing_requirements cwd (Path.join root dirname)), out))
  /\ (forall src start_path n out,
        FS.lookup (Path.resolve cwd start_path) src = Some n ->
        has_magic start_path = false -> plain_tree n = true ->
        no_dotdot cwd = true -> no_dotdot start_path = true ->
        unbuildable_below n = true ->
        exists e,
          raised (build_categories cwd src start_path out) = Some e
          /\ scan_error cwd e)
  /\ (forall src start_path n out,
        FS.lookup (Path.resolve cwd start_path) src = Some n ->
        has_magic start_path = false -> plain_tree n = true ->
        no_dotdot cwd = true -> no_dotdot start_path = true ->
        Forall (buildable_category cwd start_path n)
          (yielded (build_categories cwd src start_path out))).
Proof.
  split; [| split].
  - intros root dirname es recurse out _ H. now apply scan_dir_unbuildable.
  - intros src start_path n out Hn _ _ _ _ H. unfold build_categories. rewrite Hn.
    destruct (build_categories_in_raises cwd n H start_path out) as [e He].
    exists e. split; [exact He |].
    now apply (raises_only_build_categories_in cwd n start_path out).
  - intros src start_path n out Hn _ _ _ _. unfold build_categories, yielded. rewrite Hn.
    apply Forall_map. apply (build_categories_in_buildable cwd n start_path out).
Qed.

Lemma missing_requirements_is_fatal_witness :
  raised (build_categories "/repo" checkout_without_requirements
            "/repo/jdat_notebooks" fresh_output)
  = Some (NotImplementedError
            "Category missing Requirements File[jdat_notebooks/a/requirements.txt]")
  /\ scan_dir "/repo" "/repo/jdat_notebooks" "a" [("m.ipynb", File "{}")]
       (gret tt) fresh_output
     = ([], inl (NotImplementedError
                   "Category missing Requirements File[jdat_notebooks/a/requirements.txt]"),
        fresh_output).
Proof.
  destruct (missing_requirements_is_fatal "/repo") as (Hbody & Hscan & _).
  split.
  - destruct (Hscan checkout_without_requirements "/repo/jdat_notebooks"
                (Dir [("ok", Dir [("n.ipynb", File "{}"); ("requirements.txt", File "")]);
                      ("a", Dir [("m.ipynb", File "{}")])])
                fresh_output eq_refl eq_refl eq_refl eq_refl eq_refl eq_refl)
      as (e & He & _).
    rewrite He. revert He. vm_compute. intros He. exact (eq_sym He).
  - apply (Hbody "/repo/jdat_notebooks" "a" [("m.ipynb", File "{}")]); reflexivity.
Defined.

(** C4, as the claim has it, fails at the start of the scan: the
    directory [jdat_notebooks] has a notebook of its own and no
    [requirements.txt], and the scan, which looks at the
    subdirectories only, raises nothing and yields the category of
    [ok]. *)
Lemma scan_start_is_not_examined :
  FS.listdir ["repo"; "jdat_notebooks"] checkout_top_notebook
  = Some [("top.ipynb", File "{}");
          ("ok", Dir [("n.ipynb", File "{}"); ("requirements.txt", File "")])]
  /\ unbuildable [("top.ipynb", File "{}");
                  ("ok", Dir [("n.ipynb", File "{}"); ("requirements.txt", File "")])]
     = true
  /\ raised (build_categories "/repo" checkout_top_notebook "/repo/jdat_notebooks"
               fresh_output) = None
  /\ map cat_name (yielded (build_categories "/repo" checkout_top_notebook
                              "/repo/jdat_notebooks" fresh_output)) = ["ok"].
Proof. repeat split; vm_compute; reflexivity. Qed.

(** C2, at a category with a subdirectory that has a notebook: the walk
    goes on below the category [a] and yields a category for [b] too. *)
Theorem scan_descends_below_category :
  yielded (build_categories "/repo" checkout_nested "/repo/jdat_notebooks" fresh_output)
  = [ mkCategory "a" [mkNotebook "n" "n.ipynb" "jdat_notebooks/a/n.ipynb"]
        "/repo/jdat_notebooks/a" "/tmp/nbcollection-ci-build-base-dir/a" "/tmp/artifacts/a";
      mkCategory "b" [mkNotebook "m" "m.ipynb" "jdat_notebooks/a/b/m.ipynb"]
        "/repo/jdat_notebooks/a/b" "/tmp/nbcollection-ci-build-base-dir/b" "/tmp/artifacts/b" ]
  /\ raised (build_categories "/repo" checkout_nested "/repo/jdat_notebooks" fresh_output)
     = None.
Proof. split; vm_compute; reflexivity. Qed.

(** C3, at a category inside a directory without notebooks: the scan
    yields the category [c] twice, once from the call on [g] and once
    more when the walk from the start comes to [g]; the second makes
    [find_build_jobs] stop on the build directory of the first. *)
Theorem scan_yields_grouped_category_twice :
  let c := mkCategory "c" [mkNotebook "n" "n.ipynb" "jdat_notebooks/g/c/n.ipynb"]
             "/repo/jdat_notebooks/g/c" "/tmp/nbcollection-ci-build-base-dir/c"
             "/tmp/artifacts/c" in
  yielded (build_categories "/repo" checkout_grouped "/repo/jdat_notebooks" fresh_output)
  = [c; c]
  /\ map job_name (yielded (find_build_jobs "/repo" checkout_grouped fresh_output)) = [c]
  /\ raised (find_build_jobs "/repo" checkout_grouped fresh_output)
     = Some (OSError FS.EEXIST "/tmp/nbcollection-ci-build-base-dir/c").
Proof. repeat split; vm_compute; reflexivity. Qed.

(* ================================================================= *)
(** ** The driver *)

Section DriverFacts.

Variable shell : list string -> node -> Process * node.
Variable debugger : string -> node -> bool.

Lemma while_poll_run (n : nat) (rc : Z) (out : node) :
  while_poll n rc out = (repeat (Sleep, out) n, inr (mkProcess 0 rc), out).
Proof.
  induction n as [|n IH]; simpl; [reflexivity |].
  unfold gbind, gyield. now rewrite IH.
Qed.

(** A run of [build_artifact]: the process is started, polled until it
    ends, and its return code decides. *)
Lemma build_artifact_run (cmd : string) (out : node) :
  build_artifact shell (inl cmd) out
  = let proc := fst (shell [cmd] out) in
    let out' := snd (shell [cmd] out) in
    ((Popen [cmd], out) :: repeat (Sleep, out') (pending proc),
     if (returncode proc >? 0)%Z
     then inl (BuildError ("Process Exit Code[" ++ Str.of_Z (returncode proc) ++ "]"))
     else inr tt,
     out').
Proof.
  unfold build_artifact, gbind, subprocess_Popen.
  destruct (shell [cmd] out) as [proc out']. simpl.
  rewrite while_poll_run. simpl.
  destruct (returncode proc >? 0)%Z; simpl; now rewrite app_nil_r.
Qed.


Lemma spawned_sleeps (n : nat) (out : node) :
  spawned (map fst (repeat (Sleep, out) n)) = [].
Proof. induction n; simpl; [reflexivity | assumption]. Qed.



End DriverFacts.

(** C5: the driver starts the command and, once the process has ended,
    raises the build error that carries the return code when the code is
    positive, and raises nothing when the code is zero or negative. *)
Theorem build_artifact_classifies_exit_status
    (shell : list string -> node -> Process * node) (cmd : string) (out : node) :
  let code := returncode (fst (shell [cmd] out)) in
  let run := build_artifact shell (inl cmd) out in
  spawned (yielded run) = [[cmd]]
  /\ ((0 < code)%Z ->
      raised run = Some (BuildError ("Process Exit Code[" ++ Str.of_Z code ++ "]")))
  /\ (code = 0%Z -> raised run = None)
  /\ ((code < 0)%Z -> raised run = None).
Proof.
  intros code run. unfold run. rewrite build_artifact_run. cbv zeta. fold code.
  unfold raised, yielded. cbn [fst snd map].
  split.
  - change ([cmd] :: spawned (map fst (repeat (Sleep, snd (shell [cmd] out))
                                         (pending (fst (shell [cmd] out)))))
            = [[cmd]]).
    now rewrite spawned_sleeps.
  - repeat split; intros H.
    + apply Z.gtb_lt in H. now rewrite H.
    + now rewrite H.
    + destruct (code >? 0)%Z eqn:E; [| reflexivity].
      apply Z.gtb_lt in E. lia.
Qed.

Lemma build_artifact_classifies_exit_status_witness :
  raised (build_artifact (shell_exiting 1) (inl "bash x-builder.sh") fresh_output)
  = Some (BuildError "Process Exit Code[1]")
  /\ raised (build_artifact (shell_exiting 0) (inl "bash x-builder.sh") fresh_output) = None
  /\ raised (build_artifact (shell_exiting (-9)) (inl "bash x-builder.sh") fresh_output)
     = None.
Proof.
  split; [| split].
  - destruct (build_artifact_classifies_exit_status
                (shell_exiting 1) "bash x-builder.sh" fresh_output) as (_ & H & _).
    apply H. reflexivity.
  - destruct (build_artifact_classifies_exit_status
                (shell_exiting 0) "bash x-builder.sh" fresh_output) as (_ & _ & H & _).
    apply H. reflexivity.
  - destruct (build_artifact_classifies_exit_status
                (shell_exiting (-9)) "bash x-builder.sh" fresh_output) as (_ & _ & _ & H).
    apply H. reflexivity.
Defined.

Section Silent.

Context {Y : Type}.

Lemma silent_every_yield {A : Type} (P : Y * node -> Prop) (g : G Y A) :
  silent g -> every_yield P g.
Proof. intros H out. rewrite (H out). constructor. Qed.

Lemma silent_ret {A : Type} (a : A) : silent (@gret Y A a).
Proof. intros out. reflexivity. Qed.

Lemma silent_raise {A : Type} (e : exn) : silent (@graise Y A e).
Proof. intros out. reflexivity. Qed.

Lemma silent_syscall (f : node -> FS.errno + node) (p : string) :
  silent (@syscall Y f p).
Proof. intros out. unfold syscall. now destruct (f out). Qed.

Lemma silent_bind {A B : Type} (m : G Y A) (f : A -> G Y B) :
  silent m -> (forall a, silent (f a)) -> silent (gbind m f).
Proof.
  intros Hm Hf out. unfold gbind. specialize (Hm out).
  destruct (m out) as [[ys [e|a]] out']; [exact Hm |].
  specialize (Hf a out'). destruct (f a out') as [[ys' r] out''].
  simpl in *. now rewrite Hm, Hf.
Qed.

Lemma silent_for {X : Type} (body : X -> G Y unit) (l : list X) :
  (forall x, silent (body x)) -> silent (gfor body l).
Proof.
  intros H. induction l as [|x l IH]; simpl.
  - apply silent_ret.
  - apply silent_bind; [apply H | intros _; exact IH].
Qed.

Lemma silent_collect {Z : Type} (g : G Z unit) : silent (@collect Z Y g).
Proof. intros out. unfold collect. now destruct (g out) as [[ys [e|u]] out']. Qed.

Variables (cwd : string) (src : node).

Lemma silent_copyfile (source dest : string) : silent (shutil_copyfile cwd src Y source dest).
Proof.
  unfold shutil_copyfile.
  destruct (FS.read (Path.resolve cwd source) src); [apply silent_raise | apply silent_syscall].
Qed.

Lemma silent_copy_if_exists (source dest : string) :
  silent (@copy_if_exists cwd src Y source dest).
Proof.
  unfold copy_if_exists.
  destruct (src_exists cwd src source); [apply silent_copyfile | apply silent_ret].
Qed.

Lemma silent_setup_build_env (c : Category) : silent (@setup_build_env cwd src Y c).
Proof.
  unfold setup_build_env.
  apply silent_bind; [apply silent_syscall | intros _].
  apply silent_bind; [apply silent_syscall | intros _].
  apply silent_bind; [apply silent_syscall | intros _].
  apply silent_bind; [| intros _];
    apply silent_for; intros f; apply silent_copy_if_exists.
Qed.

Lemma silent_build_job (coll : string) (c : Category) :
  silent (@build_job cwd src Y coll c).
Proof.
  unfold build_job.
  apply silent_bind; [apply silent_setup_build_env | intros _].
  apply silent_bind; [| intros _; apply silent_ret].
  apply silent_for. intros nb.
  apply silent_bind; [apply silent_syscall | intros _; apply silent_copyfile].
Qed.

(** What a loop over the jobs yields is what its body yields. *)
Lemma every_yield_for_find_build_jobs (P : Y * node -> Prop)
    (body : BuildJob -> G Y unit) :
  (forall job, every_yield P (body job)) ->
  every_yield P (for_find_build_jobs cwd src body).
Proof.
  intros H. unfold for_find_build_jobs, for_build_collections.
  apply every_yield_for. intros name _.
  apply every_yield_bind; [apply silent_every_yield, silent_collect |].
  intros cates. apply every_yield_for. intros c _.
  apply every_yield_bind; [apply silent_every_yield, silent_build_job |].
  exact H.
Qed.

End Silent.

(** C10: [build_collections] scans the directory [jdat_notebooks] of the
    working directory and nothing else; it yields the one collection
    [jdat_notebooks] with every category of that scan, or ends with the
    exception of the scan. *)
Theorem one_fixed_collection (cwd : string) (src : node) (out : node) :
  let scan := build_categories cwd src (Path.join cwd "jdat_notebooks") out in
  build_collections cwd src out
  = match raised scan with
    | Some e => ([], inl e, left_ scan)
    | None => ([(mkCollection "jdat_notebooks" (yielded scan), left_ scan)],
               inr tt, left_ scan)
    end.
Proof.
  intros scan. unfold build_collections, for_build_collections, collection_names.
  simpl. unfold gbind, collect. fold scan.
  unfold raised, yielded, left_.
  destruct scan as [[ys [e|[]]] out']; reflexivity.
Qed.

(* ================================================================= *)
(** ** Names and the paths made of them *)

Section NameFacts.

Lemma valid_name_spec (x : string) :
  valid_name x = true ->
  slash_free x /\ x <> "" /\ x <> "." /\ x <> "..".
Proof.
  unfold valid_name, slash_free. intros H.
  repeat (apply andb_true_iff in H as [H ?]).
  repeat match goal with
         | K : negb _ = true |- _ => apply negb_true_iff in K
         end.
  repeat split; try assumption; now apply String.eqb_neq.
Qed.

Lemma step_valid (acc : list string) (x : string) :
  valid_name x = true -> Path.step acc x = (acc ++ [x])%list.
Proof.
  intros H. apply valid_name_spec in H as (_ & H1 & H2 & H3).
  unfold Path.step.
  apply String.eqb_neq in H1, H2, H3. now rewrite H1, H2, H3.
Qed.

Lemma normalize_snoc (l : list string) (x : string) :
  Path.normalize (l ++ [x]) = Path.step (Path.normalize l) x.
Proof. unfold Path.normalize. now rewrite fold_left_app. Qed.

Lemma normalize_snoc_empty (l : list string) :
  Path.normalize (l ++ [""]) = Path.normalize l.
Proof. now rewrite normalize_snoc. Qed.

(** [s.endswith(p)] says that [s] is something followed by [p]. *)
Lemma endswith_spec (p s : string) :
  Str.endswith p s = true -> exists a, s = (a ++ p)%string.
Proof.
  induction s as [|c s IH]; cbn [Str.endswith String.length].
  - destruct p; simpl; [now exists "" | discriminate].
  - destruct (Nat.eqb (S (String.length s)) (String.length p)).
    + intros H. apply String.eqb_eq in H. now exists "".
    + intros H. destruct (IH H) as [a ->]. now exists (String c a).
Qed.

Lemma endswith_append (p a : string) : Str.endswith p (a ++ p) = true.
Proof.
  induction a as [|c a IH].
  - destruct p as [|c p]; [reflexivity |].
    cbn [append Str.endswith]. rewrite Nat.eqb_refl. apply String.eqb_refl.
  - cbn [append Str.endswith]. cbn [String.length]. rewrite length_append.
    destruct (Nat.eqb_spec (S (String.length a + String.length p)) (String.length p));
      [lia | exact IH].
Qed.

Lemma last_char_append (a p : string) :
  p <> "" -> last_char (a ++ p) = last_char p.
Proof.
  intros Hp. induction a as [|c a IH]; [reflexivity |].
  cbn [append last_char]. rewrite IH.
  destruct (a ++ p)%string eqn:E; [| reflexivity].
  destruct a; simpl in E; [congruence | discriminate].
Qed.

Lemma endswith_last_char (p s : string) :
  p <> "" -> Str.endswith p s = true -> last_char s = last_char p.
Proof.
  intros Hp H. destruct (endswith_spec p s H) as [a ->].
  now apply last_char_append.
Qed.

Lemma append_inj_l (a b s : string) : (a ++ s = b ++ s)%string -> a = b.
Proof.
  revert b. induction a as [|c a IH]; intros [|d b] H; simpl in H.
  - reflexivity.
  - apply (f_equal String.length) in H. simpl in H. rewrite length_append in H. lia.
  - apply (f_equal String.length) in H. simpl in H. rewrite length_append in H. lia.
  - injection H as -> H. f_equal. now apply IH.
Qed.

Lemma startswith_sep_append (a b : string) :
  a <> "" -> Str.startswith Path.sep (a ++ b) = Str.startswith Path.sep a.
Proof. destruct a as [|c a]; [congruence | reflexivity]. Qed.

(** The names of [os.path.join(a, b)] are those of [a], then [b]. *)
Lemma split_join (a b : string) :
  valid_name b = true -> a <> "" ->
  exists front,
    Path.normalize (Str.split Str.slash a) = Path.normalize front
    /\ Str.split Str.slash (Path.join a b) = (front ++ [b])%list
    /\ (forall pre, Path.normalize (pre ++ Str.split Str.slash a)
                    = Path.normalize (pre ++ front))
    /\ Str.startswith Path.sep (Path.join a b) = Str.startswith Path.sep a.
Proof.
  intros Hb Ha. destruct (valid_name_spec b Hb) as (Hs & _).
  unfold Path.join. rewrite (startswith_sep b Hs).
  apply String.eqb_neq in Ha. rewrite Ha. apply String.eqb_neq in Ha. cbn [orb].
  destruct (Str.endswith Path.sep a) eqn:E.
  - destruct (endswith_spec _ _ E) as [a' ->].
    exists (Str.split Str.slash a').
    rewrite append_assoc.
    change (Path.sep ++ b)%string with (String Str.slash b).
    change Path.sep with (String Str.slash "").
    rewrite !split_append, (split_one _ _ Hs).
    change (Str.split Str.slash "") with [""].
    split; [apply normalize_snoc_empty |].
    split; [reflexivity |].
    split; [intros pre; rewrite app_assoc; apply normalize_snoc_empty |].
    destruct a'; reflexivity.
  - exists (Str.split Str.slash a).
    change (a ++ Path.sep ++ b)%string with (a ++ String Str.slash b)%string.
    rewrite split_append, (split_one _ _ Hs).
    repeat split. now apply startswith_sep_append.
Qed.

Lemma resolve_join (cwd a b : string) :
  valid_name b = true ->
  Path.resolve cwd (Path.join a b) = (Path.resolve cwd a ++ [b])%list.
Proof.
  intros Hb. destruct (valid_name_spec b Hb) as (Hs & _).
  destruct (String.eqb_spec a "") as [->|Ha].
  - unfold Path.join. rewrite (startswith_sep b Hs). simpl.
    unfold Path.resolve. rewrite (startswith_sep b Hs). simpl.
    rewrite (split_one _ _ Hs), normalize_snoc, normalize_snoc, (step_valid _ _ Hb).
    reflexivity.
  - destruct (split_join a b Hb Ha) as (front & H1 & H2 & H3 & H4).
    unfold Path.resolve. rewrite H4, H2.
    destruct (Str.startswith Path.sep a).
    + now rewrite normalize_snoc, (step_valid _ _ Hb), H1.
    + now rewrite app_assoc, normalize_snoc, (step_valid _ _ Hb), H3.
Qed.

Lemma basename_join (a b : string) :
  valid_name b = true -> Path.basename (Path.join a b) = b.
Proof.
  intros Hb. destruct (valid_name_spec b Hb) as (Hs & _).
  unfold Path.basename.
  destruct (String.eqb_spec a "") as [->|Ha].
  - unfold Path.join. rewrite (startswith_sep b Hs). simpl.
    now rewrite (split_one _ _ Hs).
  - destruct (split_join a b Hb Ha) as (front & _ & H2 & _).
    rewrite H2. apply last_last.
Qed.

End NameFacts.

(* ================================================================= *)
(** ** System calls on paths that part *)

Section Frame.

Lemma only_below_refl (cs : list string) (n : node) : only_below cs n n.
Proof.
  revert n. induction cs as [|c cs IH]; intros n; simpl; [exact I |].
  destruct n as [content|es]; [reflexivity |].
  split; [reflexivity |]. destruct (FS.find c es); [apply IH | exact I].
Qed.

Lemma only_below_chain (cs : list string) : only_below cs (Dir []) (FS.chain cs).
Proof.
  induction cs as [|c cs IH]; simpl; [exact I |].
  split.
  - intros c' Hne. destruct (String.eqb_spec c c'); [congruence | reflexivity].
  - now rewrite String.eqb_refl.
Qed.

Lemma only_below_remove (cs : list string) (n : node) :
  only_below cs n (FS.remove cs n).
Proof.
  revert n. induction cs as [|c cs IH]; intros n; [exact I |].
  destruct n as [content|es]; [reflexivity |].
  destruct cs as [|c' cs'].
  - simpl. split.
    + intros c0 Hne. now apply find_del_other.
    + rewrite find_del_same. now destruct (FS.find c es).
  - cbn [FS.remove]. destruct (FS.find c es) as [x|] eqn:E.
    + cbn [only_below]. split.
      * intros c0 Hne. now apply find_set_other.
      * rewrite E, find_set_same. apply IH.
    + apply only_below_refl.
Qed.

Lemma only_below_makedirs (cs : list string) (n n' : node) :
  FS.makedirs cs n = inr n' -> only_below cs n n'.
Proof.
  revert n n'. induction cs as [|c cs IH]; intros n n' H; [exact I |].
  destruct n as [content|es]; [discriminate H |].
  cbn [FS.makedirs] in H. destruct (FS.find c es) as [x|] eqn:E.
  - destruct (FS.makedirs cs x) as [e|x'] eqn:M; [discriminate H |].
    injection H as <-. cbn [only_below]. split.
    + intros c0 Hne. now apply find_set_other.
    + rewrite E, find_set_same. now apply IH.
  - injection H as <-. cbn [only_below]. split.
    + intros c0 Hne. now apply find_set_other.
    + rewrite E, find_set_same. apply only_below_chain.
Qed.

Lemma write_below (c c' : string) (cs : list string) (content : string) (es : entries) :
  FS.write (c :: c' :: cs) content (Dir es)
  = match FS.find c es with
    | Some x =>
        match FS.write (c' :: cs) content x with
        | inr x' => inr (Dir (FS.set c x' es))
        | inl e => inl e
        end
    | None => inl FS.ENOENT
    end.
Proof. reflexivity. Qed.

Lemma only_below_write (cs : list string) (content : string) (n n' : node) :
  FS.write cs content n = inr n' -> only_below cs n n'.
Proof.
  revert n n'. induction cs as [|c cs IH]; intros n n' H; [exact I |].
  destruct n as [content'|es]; [discriminate H |].
  destruct cs as [|c' cs'].
  - cbn [FS.write] in H.
    assert (n' = Dir (FS.set c (File content) es)) as ->.
    { destruct (FS.find c es) as [[?|?]|]; congruence. }
    cbn [only_below]. split.
    + intros c0 Hne. now apply find_set_other.
    + rewrite find_set_same. now destruct (FS.find c es).
  - rewrite write_below in H. destruct (FS.find c es) as [x|] eqn:E; [| discriminate H].
    destruct (FS.write (c' :: cs') content x) as [e|x'] eqn:W; [discriminate H |].
    injection H as <-. cbn [only_below]. split.
    + intros c0 Hne. now apply find_set_other.
    + rewrite E, find_set_same. now apply IH.
Qed.

Lemma diverge_nonempty (cs cs2 : list string) : diverge cs cs2 = true -> cs <> [].
Proof. destruct cs; [discriminate | discriminate]. Qed.

(** What lies along a path is the same after a change along a path
    that parts from it. *)
Lemma only_below_frame (cs2 cs : list string) (n n' : node) :
  only_below cs2 n n' -> diverge cs cs2 = true ->
  FS.lookup cs n' = FS.lookup cs n /\ creatable cs n' = creatable cs n.
Proof.
  revert cs n n'. induction cs2 as [|c2 r2 IH]; intros cs n n' H D.
  - destruct cs; discriminate D.
  - destruct cs as [|c r]; [discriminate D |].
    cbn [only_below] in H.
    destruct n as [content|es], n' as [content'|es']; try (rewrite H; tauto);
      try (rewrite <- H; tauto).
    destruct H as [Hsib Hsub]. cbn [diverge] in D. cbn [FS.lookup creatable].
    destruct (String.eqb_spec c c2) as [->|Hne].
    + destruct (FS.find c2 es) as [x|], (FS.find c2 es') as [x'|].
      * now apply IH.
      * subst r2. destruct r; discriminate D.
      * destruct (IH r _ _ Hsub D) as [H1 H2]. rewrite H1, H2.
        pose proof (diverge_nonempty _ _ D) as Hr.
        destruct r; [congruence | split; reflexivity].
      * split; reflexivity.
    + now rewrite (Hsib c Hne).
Qed.

Lemma lookup_chain (cs : list string) : FS.lookup cs (FS.chain cs) = Some (Dir []).
Proof.
  induction cs as [|c cs IH]; [reflexivity |].
  simpl. now rewrite String.eqb_refl.
Qed.

(** [os.makedirs] leaves a new, empty directory. *)
Lemma makedirs_lookup (cs : list string) (n n' : node) :
  FS.makedirs cs n = inr n' -> FS.lookup cs n' = Some (Dir []).
Proof.
  revert n n'. induction cs as [|c cs IH]; intros n n' H; [discriminate H |].
  destruct n as [content|es]; [discriminate H |].
  cbn [FS.makedirs] in H. destruct (FS.find c es) as [x|] eqn:E.
  - destruct (FS.makedirs cs x) as [e|x'] eqn:M; [discriminate H |].
    injection H as <-. cbn [FS.lookup]. rewrite find_set_same. now apply IH with x.
  - injection H as <-. cbn [FS.lookup]. rewrite find_set_same. apply lookup_chain.
Qed.

Lemma creatable_makedirs (cs : list string) (n : node) :
  creatable cs n = true -> exists n', FS.makedirs cs n = inr n'.
Proof.
  revert n. induction cs as [|c cs IH]; intros n H; [discriminate H |].
  destruct n as [content|es]; [discriminate H |].
  cbn [creatable] in H. cbn [FS.makedirs].
  destruct (FS.find c es) as [x|].
  - destruct (IH x H) as [x' ->]. eauto.
  - eauto.
Qed.

Lemma creatable_after_remove (cs : list string) (n : node) :
  cs <> [] -> FS.exists_ cs n = true -> creatable cs (FS.remove cs n) = true.
Proof.
  unfold FS.exists_. revert n.
  induction cs as [|c cs IH]; intros n Hne H; [congruence |].
  destruct n as [content|es]; [discriminate H |].
  cbn [FS.lookup] in H. destruct (FS.find c es) as [x|] eqn:E; [| discriminate H].
  destruct cs as [|c' cs'].
  - simpl. now rewrite find_del_same.
  - cbn [FS.remove]. rewrite E. cbn [creatable]. rewrite find_set_same.
    refine (IH x _ H). discriminate.
Qed.

(** Writing a file into a directory that holds files only. *)
Lemma write_in_dir (cs : list string) (x content : string) (n : node) (es : entries) :
  FS.lookup cs n = Some (Dir es) -> all_files es = true ->
  exists n', FS.write (cs ++ [x]) content n = inr n'
             /\ FS.lookup cs n' = Some (Dir (FS.set x (File content) es)).
Proof.
  revert n. induction cs as [|c cs IH]; intros n H Hall.
  - injection H as ->. simpl.
    assert (Hx : forall es', FS.find x es <> Some (Dir es')).
    { intros es' Hf. clear - Hall Hf. induction es as [|[k v] es IH]; [discriminate Hf |].
      simpl in Hall, Hf. apply andb_true_iff in Hall as [Hv Hall].
      destruct (String.eqb k x); [| now apply IH].
      injection Hf as Hf. subst v. discriminate Hv. }
    destruct (FS.find x es) as [[?|es']|] eqn:E; eauto.
    now elim (Hx es').
  - destruct n as [content'|es0]; [discriminate H |].
    cbn [FS.lookup] in H. destruct (FS.find c es0) as [y|] eqn:E; [| discriminate H].
    destruct (IH y H Hall) as (y' & W & L).
    change ((c :: cs) ++ [x])%list with (c :: (cs ++ [x]))%list.
    destruct (cs ++ [x])%list as [|c' r] eqn:A.
    + now destruct cs.
    + rewrite write_below, E, W. eexists. split; [reflexivity |].
      cbn [FS.lookup]. now rewrite find_set_same.
Qed.

Lemma all_files_set (x : string) (v : node) (es : entries) :
  all_files es = true -> is_file v = true -> all_files (FS.set x v es) = true.
Proof.
  intros H Hv. induction es as [|[k w] es IH]; simpl.
  - now rewrite Hv.
  - simpl in H. apply andb_true_iff in H as [Hw H].
    destruct (String.eqb k x); simpl.
    + now rewrite Hv, H.
    + now rewrite Hw, IH.
Qed.

Lemma all_files_put (es new : entries) :
  all_files es = true -> all_files new = true -> all_files (put es new) = true.
Proof.
  revert es. induction new as [|[k v] new IH]; intros es H Hn; [exact H |].
  simpl in Hn. apply andb_true_iff in Hn as [Hv Hn].
  unfold put. simpl. apply IH; [| exact Hn]. now apply all_files_set.
Qed.

Lemma put_app (es a b : entries) : put es (a ++ b) = put (put es a) b.
Proof. unfold put. apply fold_left_app. Qed.

End Frame.

(* ================================================================= *)
(** ** Filling a build directory *)

Section Fill.

Context {Y : Type}.
Variables (cwd : string) (src : node).

Lemma diverge_app_r (cs cs2 r : list string) :
  diverge cs cs2 = true -> diverge cs (cs2 ++ r) = true.
Proof.
  revert cs. induction cs2 as [|c2 cs2 IH]; intros [|c cs] H; try discriminate H.
  simpl in *. destruct (String.eqb c c2); [now apply IH | reflexivity].
Qed.

Lemma fills_ok_ret (dir : list string) : fills_ok dir (@gret Y unit tt) [].
Proof.
  intros out es H Hall. exists out.
  split; [reflexivity |]. split; [exact H |]. split; [exact Hall |].
  intros cs _. split; reflexivity.
Qed.

Lemma fills_ok_bind (dir : list string) (m k : G Y unit) (a b : entries) :
  fills_ok dir m a -> fills_ok dir k b -> fills_ok dir (m ;; k) (a ++ b).
Proof.
  intros Hm Hk out es H Hall.
  destruct (Hm out es H Hall) as (out1 & E1 & L1 & A1 & F1).
  destruct (Hk out1 _ L1 A1) as (out2 & E2 & L2 & A2 & F2).
  exists out2. unfold gbind. rewrite E1, E2, put_app.
  split; [reflexivity |]. split; [exact L2 |]. split; [exact A2 |].
  intros cs D. destruct (F2 cs D) as [-> ->]. now apply F1.
Qed.

Lemma fills_ok_for {X : Type} (dir : list string) (body : X -> G Y unit)
    (ent : X -> entries) (l : list X) :
  (forall x, In x l -> fills_ok dir (body x) (ent x)) ->
  fills_ok dir (gfor body l) (flat_map ent l).
Proof.
  induction l as [|x l IH]; intros H; simpl.
  - apply fills_ok_ret.
  - apply fills_ok_bind.
    + apply H. now left.
    + apply IH. intros y Hy. apply H. now right.
Qed.

Lemma fills_ok_write (bd x content : string) :
  valid_name x = true ->
  fills_ok (Path.resolve cwd bd) (write_file cwd Y (Path.join bd x) content)
    [(x, File content)].
Proof.
  intros Hx out es H Hall.
  destruct (write_in_dir _ x content out es H Hall) as (out' & W & L).
  exists out'. unfold write_file, syscall. rewrite (resolve_join cwd bd x Hx), W.
  split; [reflexivity |]. split; [exact L |].
  split; [now apply all_files_set |].
  intros cs D.
  apply (only_below_frame (Path.resolve cwd bd ++ [x]) cs out out').
  - now apply only_below_write with content.
  - now apply diverge_app_r.
Qed.

Lemma fills_ok_copyfile (bd x source : string) :
  valid_name x = true -> readable cwd src source ->
  fills_ok (Path.resolve cwd bd) (shutil_copyfile cwd src Y source (Path.join bd x))
    (copy_of cwd src source x).
Proof.
  intros Hx [content R]. unfold shutil_copyfile, copy_of. rewrite R.
  now apply fills_ok_write.
Qed.

Lemma fills_ok_copy_if_exists (bd x source : string) :
  valid_name x = true ->
  (src_exists cwd src source = true -> readable cwd src source) ->
  fills_ok (Path.resolve cwd bd) (@copy_if_exists cwd src Y source (Path.join bd x))
    (copy_if_present cwd src source x).
Proof.
  intros Hx Hr. unfold copy_if_exists, copy_if_present.
  destruct (src_exists cwd src source).
  - apply fills_ok_copyfile; auto.
  - apply fills_ok_ret.
Qed.

End Fill.

Section BuildJobRun.

Context {Y : Type}.
Variables (cwd : string) (src : node).

Lemma gbind_run_ok {A B : Type} (m : G Y A) (f : A -> G Y B) (out : node)
    (ys : list (Y * node)) (a : A) (out1 : node) :
  m out = (ys, inr a, out1) ->
  gbind m f out
  = ((ys ++ fst (fst (f a out1)))%list, snd (fst (f a out1)), snd (f a out1)).
Proof.
  intros E. unfold gbind. rewrite E. now destruct (f a out1) as [[ys' r] out2].
Qed.

Lemma gbind_run_raise {A B : Type} (m : G Y A) (f : A -> G Y B) (out : node)
    (ys : list (Y * node)) (e : exn) (out1 : node) :
  m out = (ys, inl e, out1) -> gbind m f out = (ys, inl e, out1).
Proof. intros E. unfold gbind. now rewrite E. Qed.

Lemma valid_support_file (f : string) : In f support_files -> valid_name f = true.
Proof. intros H. repeat (destruct H as [<-|H]; [reflexivity |]). contradiction. Qed.

Lemma valid_helper_file (f : string) : In f helper_files -> valid_name f = true.
Proof. intros H. repeat (destruct H as [<-|H]; [reflexivity |]). contradiction. Qed.

Lemma valid_builder_script (fname : string) :
  valid_name fname = true -> valid_name (fname ++ "-builder.sh") = true.
Proof.
  intros H. destruct (valid_name_spec fname H) as (Hs & _).
  unfold valid_name. rewrite contains_append. unfold slash_free in Hs. rewrite Hs.
  assert (L : 11 <= String.length (fname ++ "-builder.sh")).
  { rewrite length_append. simpl. lia. }
  assert (N : forall s, String.length s < 11 -> String.eqb (fname ++ "-builder.sh") s = false).
  { intros s Hlt. apply String.eqb_neq. intros E. rewrite E in L. lia. }
  rewrite !N by (simpl; lia). reflexivity.
Qed.

(** The part of [setup_build_env] that follows the two [os.makedirs]. *)
Lemma setup_files_fill (c : Category) :
  src_ok cwd src c ->
  fills_ok (Path.resolve cwd (build_dir c))
    (write_file cwd Y (Path.join (build_dir c) "setup-build-env.sh") (env_setup_script c) ;;
     gfor (Y := Y)
          (fun filename =>
             copy_if_exists cwd src (Path.join (source_dir c) filename)
               (Path.join (build_dir c) filename))
          support_files ;;
     gfor (Y := Y)
          (fun filename =>
             copy_if_exists cwd src (Path.join3 cwd ".circleci" filename)
               (Path.join (build_dir c) filename))
          helper_files)
    ([("setup-build-env.sh", File (env_setup_script c))]
     ++ flat_map (fun f => copy_if_present cwd src (Path.join (source_dir c) f) f)
          support_files
     ++ flat_map (fun f => copy_if_present cwd src (Path.join3 cwd ".circleci" f) f)
          helper_files).
Proof.
  intros (Hsup & Hhelp & _).
  apply fills_ok_bind; [now apply fills_ok_write |].
  apply fills_ok_bind; apply fills_ok_for; intros f Hf;
    apply fills_ok_copy_if_exists; auto using valid_support_file, valid_helper_file.
Qed.

(** The loop of [build_job] over the notebooks. *)
Lemma notebook_files_fill (coll : string) (c : Category) :
  src_ok cwd src c ->
  Forall (fun nb => valid_name (filename nb) = true) (notebooks c) ->
  fills_ok (Path.resolve cwd (build_dir c))
    (gfor (Y := Y)
          (fun notebook =>
             create_build_script cwd notebook [coll; cat_name c]
               (build_dir c) (artifact_dir c) ;;
             inject_notebook cwd src notebook (build_dir c))
          (notebooks c))
    (flat_map (notebook_files cwd src coll c) (notebooks c)).
Proof.
  intros (_ & _ & Hnb) Hvalid. rewrite Forall_forall in Hvalid.
  apply fills_ok_for. intros nb Hin.
  unfold notebook_files.
  apply (fills_ok_bind _ _ _ [_] _).
  - apply fills_ok_write. apply valid_builder_script. now apply Hvalid.
  - apply fills_ok_copyfile; auto.
Qed.

(** A run of [build_job] on a category whose files can all be read,
    from directories in which both [os.makedirs] go through. *)
Lemma build_job_run (coll : string) (c : Category) (out o1 o2 : node) :
  src_ok cwd src c ->
  Forall (fun nb => valid_name (filename nb) = true) (notebooks c) ->
  diverge (Path.resolve cwd (artifact_dir c)) (Path.resolve cwd (build_dir c)) = true ->
  FS.makedirs (Path.resolve cwd (build_dir c)) out = inr o1 ->
  FS.makedirs (Path.resolve cwd (artifact_dir c)) o1 = inr o2 ->
  FS.lookup (Path.resolve cwd (build_dir c)) o2 = Some (Dir []) ->
  exists out',
    @build_job cwd src Y coll c out
    = ([], inr (mkBuildJob c
                  (map (fun nb => Path.join (build_dir c) (filename nb ++ "-builder.sh"))
                       (notebooks c))),
       out')
    /\ FS.lookup (Path.resolve cwd (build_dir c)) out'
       = Some (Dir (put [] (build_dir_listing cwd src coll c)))
    /\ all_files (put [] (build_dir_listing cwd src coll c)) = true
    /\ FS.lookup (Path.resolve cwd (artifact_dir c)) out' = Some (Dir []).
Proof.
  intros Hsrc Hvalid Hdiv M1 M2 L2.
  destruct (setup_files_fill c Hsrc o2 [] L2 eq_refl) as (o3 & E3 & L3 & A3 & F3).
  destruct (notebook_files_fill coll c Hsrc Hvalid o3 _ L3 A3) as (o4 & E4 & L4 & A4 & F4).
  exists o4.
  assert (Hsetup : @setup_build_env cwd src Y c out = ([], inr tt, o3)).
  { unfold setup_build_env. cbv zeta.
    rewrite (gbind_run_ok _ _ out [] tt o1)
      by (unfold os_makedirs, syscall; now rewrite M1).
    rewrite (gbind_run_ok _ _ o1 [] tt o2)
      by (unfold os_makedirs, syscall; now rewrite M2).
    now rewrite E3. }
  split; [| split; [| split]].
  - unfold build_job. rewrite (gbind_run_ok _ _ out [] tt o3 Hsetup).
    rewrite (gbind_run_ok _ _ o3 [] tt o4 E4). reflexivity.
  - unfold build_dir_listing. rewrite L4, <- put_app, <- !app_assoc. reflexivity.
  - unfold build_dir_listing. rewrite app_assoc, app_assoc, put_app.
    rewrite <- app_assoc. exact A4.
  - destruct (F4 _ Hdiv) as [-> _]. destruct (F3 _ Hdiv) as [-> _].
    now apply makedirs_lookup with o1.
Qed.

End BuildJobRun.

Section BuildJobInversion.

Context {Y : Type}.
Variables (cwd : string) (src : node).

Lemma raises_not_ok {A : Type} (r : list (Y * node) * (exn + A) * node) :
  raises r -> raised r = None -> False.
Proof. intros [e H] H'. congruence. Qed.

Lemma copyfile_unreadable (source dest : string) (e : FS.errno) (out : node) :
  FS.read (Path.resolve cwd source) src = inl e ->
  raises (shutil_copyfile cwd src Y source dest out).
Proof.
  intros R. unfold shutil_copyfile. rewrite R. eexists. reflexivity.
Qed.

Lemma readable_dec (p : string) :
  readable cwd src p \/ exists e, FS.read (Path.resolve cwd p) src = inl e.
Proof.
  unfold readable. destruct (FS.read (Path.resolve cwd p) src) as [e|content]; eauto.
Qed.

(** A run of [build_job] that ends without an exception read every file
    it had to copy. *)
Lemma build_job_ok_src (coll : string) (c : Category) (out : node) :
  raised (@build_job cwd src Y coll c out) = None -> src_ok cwd src c.
Proof.
  intros Hok. split; [| split].
  - intros f Hf Hex.
    destruct (readable_dec (Path.join (source_dir c) f)) as [H|[e R]]; [exact H |].
    exfalso. apply (raises_not_ok _) with (2 := Hok).
    unfold build_job. apply raises_bind_l.
    unfold setup_build_env. cbv zeta.
    do 3 (apply raises_bind_r; intros _ ?).
    apply raises_bind_l, (raises_for _ _ f Hf). intros o.
    unfold copy_if_exists. rewrite Hex. now apply copyfile_unreadable with e.
  - intros f Hf Hex.
    destruct (readable_dec (Path.join3 cwd ".circleci" f)) as [H|[e R]]; [exact H |].
    exfalso. apply (raises_not_ok _) with (2 := Hok).
    unfold build_job. apply raises_bind_l.
    unfold setup_build_env. cbv zeta.
    do 4 (apply raises_bind_r; intros _ ?).
    apply (raises_for _ _ f Hf). intros o.
    unfold copy_if_exists. rewrite Hex. now apply copyfile_unreadable with e.
  - intros nb Hnb.
    destruct (readable_dec (filepath nb)) as [H|[e R]]; [exact H |].
    exfalso. apply (raises_not_ok _) with (2 := Hok).
    unfold build_job. apply raises_bind_r. intros _ out1.
    apply raises_bind_l, (raises_for _ _ nb Hnb). intros out'.
    apply raises_bind_r. intros _ out''.
    unfold inject_notebook. now apply copyfile_unreadable with e.
Qed.

(** ... and both of its [os.makedirs] went through. *)
Lemma build_job_ok_makedirs (coll : string) (c : Category) (out : node) :
  raised (@build_job cwd src Y coll c out) = None ->
  exists o1 o2,
    FS.makedirs (Path.resolve cwd (build_dir c)) out = inr o1
    /\ FS.makedirs (Path.resolve cwd (artifact_dir c)) o1 = inr o2.
Proof.
  intros Hok.
  destruct (FS.makedirs (Path.resolve cwd (build_dir c)) out) as [e|o1] eqn:M1.
  - exfalso. apply (raises_not_ok _) with (2 := Hok).
    unfold build_job. apply raises_bind_l.
    unfold setup_build_env. apply raises_bind_l.
    unfold os_makedirs, syscall. rewrite M1. eexists. reflexivity.
  - destruct (FS.makedirs (Path.resolve cwd (artifact_dir c)) o1) as [e|o2] eqn:M2;
      [| eauto].
    exfalso. apply (raises_not_ok _) with (2 := Hok).
    unfold build_job. apply raises_bind_l.
    unfold setup_build_env.
    rewrite (gbind_run_ok _ _ out [] tt o1)
      by (unfold os_makedirs, syscall; now rewrite M1).
    unfold raises, raised. cbn [fst snd].
    assert (R : raises (gbind (os_makedirs cwd Y (artifact_dir c))
                          (fun _ =>
                             write_file cwd Y
                               (Path.join (build_dir c) "setup-build-env.sh")
                               (env_setup_script c) ;;
                             gfor (fun filename =>
                                     copy_if_exists cwd src
                                       (Path.join (source_dir c) filename)
                                       (Path.join (build_dir c) filename))
                                  support_files ;;
                             gfor (fun filename =>
                                     copy_if_exists cwd src
                                       (Path.join3 cwd ".circleci" filename)
                                       (Path.join (build_dir c) filename))
                                  helper_files) o1)).
    { apply raises_bind_l. unfold os_makedirs, syscall. rewrite M2.
      eexists. reflexivity. }
    exact R.
Qed.

End BuildJobInversion.

(* ================================================================= *)
(** ** The listing of a build directory *)

Section Listing.

Variables (cwd : string) (src : node).

Lemma nodupb_NoDup (l : list string) : nodupb l = true -> NoDup l.
Proof.
  induction l as [|x l IH]; simpl; intros H; constructor.
  - apply andb_true_iff in H as [H _]. apply negb_true_iff in H.
    intros Hin. assert (existsb (String.eqb x) l = true); [| congruence].
    apply existsb_exists. exists x. split; [exact Hin | apply String.eqb_refl].
  - apply andb_true_iff in H as [_ H]. now apply IH.
Qed.

Lemma set_fresh (k : string) (v : node) (es : entries) :
  ~ In k (map fst es) -> FS.set k v es = (es ++ [(k, v)])%list.
Proof.
  induction es as [|[k' v'] es IH]; intros H; simpl; [reflexivity |].
  simpl in H. destruct (String.eqb_spec k' k) as [->|Hne]; [tauto |].
  rewrite IH; tauto.
Qed.

Lemma put_fresh (new es : entries) :
  NoDup (map fst (es ++ new)) -> put es new = (es ++ new)%list.
Proof.
  revert es. induction new as [|[k v] new IH]; intros es H.
  - now rewrite app_nil_r.
  - unfold put. simpl. fold (put (FS.set k v es) new).
    assert (Hk : ~ In k (map fst es)).
    { rewrite map_app in H. simpl in H. apply NoDup_remove_2 in H.
      intros Hin. apply H. apply in_or_app. now left. }
    rewrite (set_fresh k v es Hk), IH; rewrite <- app_assoc; [reflexivity | exact H].
Qed.

Lemma in_copy_of (source x : string) (e : string * node) :
  In e (copy_of cwd src source x) -> fst e = x.
Proof.
  unfold copy_of. destruct (FS.read (Path.resolve cwd source) src) as [?|content];
    [contradiction |].
  intros [<-|[]]. reflexivity.
Qed.

Lemma in_copy_if_present (source x : string) (e : string * node) :
  In e (copy_if_present cwd src source x) -> fst e = x.
Proof.
  unfold copy_if_present. destruct (src_exists cwd src source); [| contradiction].
  apply in_copy_of.
Qed.

Lemma copy_of_names (source x : string) :
  map fst (copy_of cwd src source x) = [] \/ map fst (copy_of cwd src source x) = [x].
Proof.
  unfold copy_of. destruct (FS.read (Path.resolve cwd source) src); simpl; auto.
Qed.

Lemma copy_if_present_names (source x : string) :
  map fst (copy_if_present cwd src source x) = []
  \/ map fst (copy_if_present cwd src source x) = [x].
Proof.
  unfold copy_if_present. destruct (src_exists cwd src source); [| now left].
  apply copy_of_names.
Qed.

(** The copies of the files of a list without repetition. *)
Lemma copies_names (g : string -> entries) (l : list string) :
  (forall f, map fst (g f) = [] \/ map fst (g f) = [f]) ->
  NoDup l ->
  NoDup (map fst (flat_map g l))
  /\ forall x, In x (map fst (flat_map g l)) -> In x l.
Proof.
  intros Hg. induction l as [|f l IH]; intros Hl; simpl.
  - split; [constructor | contradiction].
  - inversion Hl as [|? ? Hf Hl']; subst.
    destruct (IH Hl') as [IH1 IH2].
    rewrite map_app. destruct (Hg f) as [-> | ->]; simpl.
    + split; [exact IH1 | auto].
    + split.
      * constructor; [| exact IH1]. intros Hin. now apply Hf, IH2.
      * intros x [<-|Hx]; auto.
Qed.

Lemma ipynb_not_builder (x : string) :
  Str.endswith ".ipynb" x = true -> is_builder_script x = false.
Proof.
  intros H. unfold is_builder_script.
  destruct (Str.endswith "-builder.sh" x) eqn:E; [| reflexivity].
  apply endswith_last_char in H; [| discriminate].
  apply endswith_last_char in E; [| discriminate].
  rewrite H in E. discriminate E.
Qed.

Lemma builder_not_ipynb (fname : string) :
  Str.endswith ".ipynb" (fname ++ "-builder.sh") = false.
Proof.
  destruct (Str.endswith ".ipynb" (fname ++ "-builder.sh")) eqn:E; [| reflexivity].
  apply ipynb_not_builder in E. unfold is_builder_script in E.
  now rewrite endswith_append in E.
Qed.

Lemma fixed_name_class (x : string) :
  In x ("setup-build-env.sh" :: support_files ++ helper_files) ->
  Str.endswith ".ipynb" x = false /\ is_builder_script x = false.
Proof.
  intros H. repeat (destruct H as [<-|H]; [split; reflexivity |]). contradiction.
Qed.

Section Notebooks.

Variables (coll : string) (c : Category).

(** The names of the files of the notebooks: build scripts and
    notebooks. *)
Lemma in_notebook_names (nbs : list Notebook) (x : string) :
  In x (map fst (flat_map (notebook_files cwd src coll c) nbs)) ->
  exists nb, In nb nbs
             /\ (x = (filename nb ++ "-builder.sh")%string \/ x = filename nb).
Proof.
  induction nbs as [|nb nbs IH]; simpl; [contradiction |].
  rewrite map_app, in_app_iff. intros [<-|[H|H]].
  - exists nb. auto.
  - exists nb. split; [now left |]. right.
    apply in_map_iff in H as (e & <- & He). now apply in_copy_of in He.
  - destruct (IH H) as (nb' & Hin & Hx). exists nb'. auto.
Qed.

Lemma notebook_name_class (nbs : list Notebook) (x : string) :
  Forall (fun nb => valid_name (filename nb) = true
                    /\ Str.endswith ".ipynb" (filename nb) = true) nbs ->
  In x (map fst (flat_map (notebook_files cwd src coll c) nbs)) ->
  Str.endswith ".ipynb" x = true \/ is_builder_script x = true.
Proof.
  intros Hall Hx. rewrite Forall_forall in Hall.
  destruct (in_notebook_names nbs x Hx) as (nb & Hin & [->| ->]).
  - right. apply endswith_append.
  - left. now apply Hall.
Qed.

Lemma notebook_names_NoDup (nbs : list Notebook) :
  Forall (fun nb => valid_name (filename nb) = true
                    /\ Str.endswith ".ipynb" (filename nb) = true) nbs ->
  NoDup (map filename nbs) ->
  NoDup (map fst (flat_map (notebook_files cwd src coll c) nbs)).
Proof.
  induction nbs as [|nb nbs IH]; intros Hall Hnd; simpl; [constructor |].
  inversion Hall as [|? ? [Hv Hi] Hall']; subst.
  inversion Hnd as [|? ? Hfresh Hnd']; subst.
  specialize (IH Hall' Hnd').
  assert (Hrest : forall x,
            In x (map fst (flat_map (notebook_files cwd src coll c) nbs)) ->
            x <> filename nb /\ x <> (filename nb ++ "-builder.sh")%string).
  { intros x Hx. destruct (in_notebook_names nbs x Hx) as (nb' & Hin & Hx').
    rewrite Forall_forall in Hall'. destruct (Hall' nb' Hin) as [_ Hi'].
    assert (Hne : filename nb' <> filename nb).
    { intros E. apply Hfresh. rewrite <- E. now apply in_map. }
    destruct Hx' as [-> | ->]; split.
    - intros E. rewrite <- E in Hi. now rewrite builder_not_ipynb in Hi.
    - intros E. now apply append_inj_l in E.
    - exact Hne.
    - intros E. rewrite E in Hi'. now rewrite builder_not_ipynb in Hi'. }
  rewrite map_app. constructor.
  - rewrite in_app_iff. intros [H|H].
    + apply in_map_iff in H as (e & He & Hin). apply in_copy_of in Hin.
      rewrite Hin in He. rewrite He in Hi. now rewrite builder_not_ipynb in Hi.
    + now destruct (Hrest _ H).
  - destruct (copy_of_names (filepath nb) (filename nb)) as [-> | ->]; simpl;
      [exact IH |].
    constructor; [| exact IH]. intros H. now destruct (Hrest _ H).
Qed.

(** Each notebook adds one build script to the listing. *)
Lemma notebook_scripts_count (nbs : list Notebook) :
  Forall (fun nb => valid_name (filename nb) = true
                    /\ Str.endswith ".ipynb" (filename nb) = true) nbs ->
  List.length (filter (fun e => is_builder_script (fst e))
                 (flat_map (notebook_files cwd src coll c) nbs))
  = List.length nbs.
Proof.
  induction nbs as [|nb nbs IH]; intros Hall; [reflexivity |].
  inversion Hall as [|? ? [Hv Hi] Hall']; subst.
  cbn [flat_map notebook_files app filter fst].
  unfold is_builder_script at 1. rewrite endswith_append.
  rewrite filter_app. cbn [List.length]. rewrite length_app, (IH Hall').
  assert (filter (fun e => is_builder_script (fst e))
            (copy_of cwd src (filepath nb) (filename nb)) = []) as ->; [| reflexivity].
  unfold copy_of. destruct (FS.read (Path.resolve cwd (filepath nb)) src); [reflexivity |].
  simpl. now rewrite (ipynb_not_builder _ Hi).
Qed.

End Notebooks.

Lemma filter_none {A : Type} (p : A -> bool) (l : list A) :
  (forall x, In x l -> p x = false) -> filter p l = [].
Proof.
  induction l as [|x l IH]; intros H; simpl; [reflexivity |].
  rewrite (H x) by now left. apply IH. intros y Hy. apply H. now right.
Qed.

End Listing.

Section WholeListing.

Variables (cwd : string) (src : node) (coll : string) (c : Category).

Hypothesis Hscanned : scanned c.

Lemma support_copies_names :
  NoDup (map fst (support_copies cwd src c))
  /\ forall x, In x (map fst (support_copies cwd src c)) -> In x support_files.
Proof.
  apply copies_names.
  - intros f. apply copy_if_present_names.
  - apply nodupb_NoDup. reflexivity.
Qed.

Lemma helper_copies_names :
  NoDup (map fst (helper_copies cwd src))
  /\ forall x, In x (map fst (helper_copies cwd src)) -> In x helper_files.
Proof.
  apply copies_names.
  - intros f. apply copy_if_present_names.
  - apply nodupb_NoDup. reflexivity.
Qed.

Lemma copies_fixed (x : string) :
  In x (map fst (support_copies cwd src c)) \/ In x (map fst (helper_copies cwd src)) ->
  In x ("setup-build-env.sh" :: support_files ++ helper_files)
  /\ is_setup_script x = false.
Proof.
  intros H.
  assert (Hx : In x (support_files ++ helper_files)).
  { apply in_or_app. destruct H as [H|H].
    - left. now apply support_copies_names.
    - right. now apply helper_copies_names. }
  split; [now right |].
  clear H. repeat (destruct Hx as [<-|Hx]; [reflexivity |]). contradiction.
Qed.

Lemma notebook_part_class (x : string) :
  In x (map fst (notebook_part cwd src coll c)) ->
  (Str.endswith ".ipynb" x = true \/ is_builder_script x = true)
  /\ is_setup_script x = false.
Proof.
  intros H. destruct Hscanned as (_ & _ & _ & Hall & _).
  pose proof (notebook_name_class cwd src coll c _ x Hall H) as Hc.
  split; [exact Hc |].
  destruct (is_setup_script x) eqn:E; [| reflexivity].
  apply String.eqb_eq in E. subst x. destruct Hc as [Hc|Hc]; discriminate Hc.
Qed.

Lemma fixed_not_notebook (x : string) :
  In x ("setup-build-env.sh" :: support_files ++ helper_files) ->
  ~ In x (map fst (notebook_part cwd src coll c)).
Proof.
  intros Hf Hn. destruct (fixed_name_class x Hf) as [H1 H2].
  destruct (notebook_part_class x Hn) as [[H|H] _]; congruence.
Qed.

Lemma listing_split :
  build_dir_listing cwd src coll c
  = (("setup-build-env.sh", File (env_setup_script c))
     :: support_copies cwd src c ++ helper_copies cwd src
        ++ notebook_part cwd src coll c)%list.
Proof. reflexivity. Qed.

Lemma listing_names_NoDup : NoDup (map fst (build_dir_listing cwd src coll c)).
Proof.
  rewrite listing_split. cbn [map fst]. rewrite !map_app.
  destruct support_copies_names as [HS HSin].
  destruct helper_copies_names as [HH HHin].
  destruct Hscanned as (_ & _ & _ & Hall & Hnd).
  constructor.
  - rewrite !in_app_iff. intros [H|[H|H]].
    + now destruct (copies_fixed _ (or_introl H)).
    + now destruct (copies_fixed _ (or_intror H)).
    + now destruct (notebook_part_class _ H).
  - apply NoDup_app; [exact HS | |].
    + apply NoDup_app; [exact HH | |].
      * now apply notebook_names_NoDup.
      * intros x Hx. apply fixed_not_notebook.
        now destruct (copies_fixed x (or_intror Hx)).
    + intros x Hx. rewrite in_app_iff. intros [H|H].
      * apply HSin in Hx. apply HHin in H.
        repeat (destruct Hx as [<-|Hx];
                [repeat (destruct H as [H|H]; [discriminate H |]); contradiction |]).
        contradiction.
      * revert H. apply fixed_not_notebook.
        now destruct (copies_fixed x (or_introl Hx)).
Qed.

Lemma listing_put : put [] (build_dir_listing cwd src coll c) = build_dir_listing cwd src coll c.
Proof. apply put_fresh. exact listing_names_NoDup. Qed.

Lemma listing_scripts_count :
  List.length (filter (fun e => is_builder_script (fst e))
                 (build_dir_listing cwd src coll c))
  = List.length (notebooks c).
Proof.
  rewrite listing_split.
  change (List.length
            (filter (fun e => is_builder_script (fst e))
               (support_copies cwd src c ++ helper_copies cwd src
        ++ notebook_part cwd src coll c))
          = List.length (notebooks c)).
  rewrite !filter_app.
  rewrite (filter_none _ (support_copies cwd src c)), (filter_none _ (helper_copies cwd src)).
  - destruct Hscanned as (_ & _ & _ & Hall & _).
    now apply notebook_scripts_count.
  - intros e He.
    destruct (copies_fixed (fst e) (or_intror (in_map fst _ _ He))) as [Hf _].
    now destruct (fixed_name_class _ Hf).
  - intros e He.
    destruct (copies_fixed (fst e) (or_introl (in_map fst _ _ He))) as [Hf _].
    now destruct (fixed_name_class _ Hf).
Qed.

Lemma listing_setup_count :
  List.length (filter (fun e => is_setup_script (fst e))
                 (build_dir_listing cwd src coll c))
  = 1.
Proof.
  rewrite listing_split.
  change (S (List.length
               (filter (fun e => is_setup_script (fst e))
                  (support_copies cwd src c ++ helper_copies cwd src
        ++ notebook_part cwd src coll c)))
          = 1).
  rewrite (filter_none _ (support_copies cwd src c ++ helper_copies cwd src
        ++ notebook_part cwd src coll c));
    [reflexivity |].
  intros e He. apply (in_map fst) in He. rewrite !map_app, !in_app_iff in He.
  destruct He as [H|[H|H]].
  - now destruct (copies_fixed _ (or_introl H)).
  - now destruct (copies_fixed _ (or_intror H)).
  - now destruct (notebook_part_class _ H).
Qed.

End WholeListing.

(* ================================================================= *)
(** ** The categories of a scan *)

Section Scanned.

Variable cwd : string.

Lemma wf_tree_entry (es : entries) (name : string) (child : node) :
  wf_tree (Dir es) = true -> In (name, child) es ->
  valid_name name = true /\ wf_tree child = true.
Proof.
  intros H Hin. simpl in H. apply andb_true_iff in H as [H _].
  rewrite forallb_forall in H. specialize (H _ Hin). simpl in H.
  now apply andb_true_iff in H.
Qed.

Lemma find_In (name : string) (es : entries) (x : node) :
  FS.find name es = Some x -> In (name, x) es.
Proof.
  induction es as [|[k v] es IH]; simpl; [discriminate |].
  destruct (String.eqb_spec k name) as [->|Hne].
  - intros H. injection H as ->. now left.
  - intros H. right. now apply IH.
Qed.

Lemma lookup_wf (cs : list string) (n m : node) :
  wf_tree n = true -> FS.lookup cs n = Some m -> wf_tree m = true.
Proof.
  revert n. induction cs as [|c cs IH]; intros n Hn H.
  - injection H as <-. exact Hn.
  - destruct n as [content|es]; [discriminate H |].
    cbn [FS.lookup] in H. destruct (FS.find c es) as [x|] eqn:E; [| discriminate H].
    apply IH with x; [| exact H].
    now apply (wf_tree_entry es c x Hn), find_In.
Qed.

Lemma subdir_wf (n : node) (names : list string) (es : entries) :
  wf_tree n = true -> subdir n names es ->
  wf_tree (Dir es) = true /\ valid_name (last names "") = true.
Proof.
  intros Hn H. induction H as [es0 name es_d Hin | es0 name child names es_d Hin Hsub IH].
  - destruct (wf_tree_entry es0 name (Dir es_d) Hn Hin) as [Hv Hw]. now split.
  - destruct (wf_tree_entry es0 name child Hn Hin) as [_ Hw].
    destruct (IH Hw) as [H1 H2]. split; [exact H1 |].
    now rewrite (last_cons_nonempty name names (subdir_nonempty _ _ _ Hsub)).
Qed.

Lemma NoDup_names_filter (p : string * node -> bool) (es : entries) :
  NoDup (map fst es) -> NoDup (map fst (filter p es)).
Proof.
  induction es as [|e es IH]; simpl; intros H; [constructor |].
  inversion H as [|? ? Hfresh H']; subst.
  destruct (p e); simpl; [| now apply IH].
  constructor; [| now apply IH].
  intros Hin. apply Hfresh.
  apply in_map_iff in Hin as (e' & <- & He'). apply in_map.
  now apply filter_In in He'.
Qed.

(** The file names of the notebooks found in a directory are the
    names of its entries that [glob] matches. *)
Lemma notebooks_of_filenames (dirpath : string) (es : entries) :
  Forall (fun e => valid_name (fst e) = true) es ->
  map filename (notebooks_of cwd dirpath es)
  = map fst (filter (fun e => is_notebook_name (fst e)) es).
Proof.
  unfold notebooks_of, glob_ipynb. induction es as [|e es IH]; intros H;
    [reflexivity |].
  inversion H as [|? ? Hv H']; subst. simpl.
  destruct (is_notebook_name (fst e)); simpl; [| now apply IH].
  now rewrite (basename_join dirpath (fst e) Hv), IH.
Qed.

Lemma category_of_scanned (start : string) (names : list string) (es : entries) :
  wf_tree (Dir es) = true -> valid_name (last names "") = true ->
  scanned (category_of cwd start names es).
Proof.
  intros Hw Hv.
  assert (Hvalid : Forall (fun e => valid_name (fst e) = true) es).
  { apply Forall_forall. intros [k v] Hin. now apply (wf_tree_entry es k v Hw). }
  assert (Hnames := notebooks_of_filenames (fold_left Path.join names start) es Hvalid).
  unfold scanned, category_of. cbn [cat_name build_dir artifact_dir notebooks].
  repeat split; try assumption.
  - apply Forall_forall. intros nb Hnb.
    assert (Hin : In (filename nb)
                    (map fst (filter (fun e => is_notebook_name (fst e)) es))).
    { rewrite <- Hnames. now apply in_map. }
    apply in_map_iff in Hin as (e & He & Hf). apply filter_In in Hf as [Hin Hnb'].
    rewrite <- He. rewrite Forall_forall in Hvalid. split; [now apply Hvalid |].
    unfold is_notebook_name in Hnb'. now apply andb_true_iff in Hnb'.
  - rewrite Hnames. apply NoDup_names_filter.
    simpl in Hw. apply andb_true_iff in Hw as [_ Hw]. now apply nodupb_NoDup.
Qed.

(** Every category yielded by a scan of a tree of a file system is as
    the scan makes them. *)
Lemma build_categories_scanned (src : node) (start_path : string) (out : node)
    (c : Category) :
  wf_tree src = true ->
  In c (yielded (build_categories cwd src start_path out)) ->
  scanned c.
Proof.
  intros Hw Hin. unfold build_categories in Hin.
  destruct (FS.lookup (Path.resolve cwd start_path) src) as [n|] eqn:L;
    [| contradiction].
  pose proof (lookup_wf _ _ _ Hw L) as Hn.
  pose proof (build_categories_in_buildable cwd n start_path out) as Hall.
  rewrite Forall_forall in Hall.
  unfold yielded in Hin. apply in_map_iff in Hin as (y & <- & Hy).
  destruct (Hall y Hy) as (names & es & Hsub & -> & _).
  destruct (subdir_wf n names es Hn Hsub) as [H1 H2].
  now apply category_of_scanned.
Qed.

Lemma scanned_dirs (c : Category) :
  scanned c ->
  Path.resolve cwd (build_dir c) = ["tmp"; "nbcollection-ci-build-base-dir"; cat_name c]
  /\ Path.resolve cwd (artifact_dir c) = ["tmp"; "artifacts"; cat_name c].
Proof.
  intros (Hv & -> & -> & _). now rewrite !resolve_join.
Qed.

End Scanned.

(* ================================================================= *)
(** ** Runs of [build_job] on the categories of a scan *)

Section ScannedRuns.

Context {Y : Type}.
Variables (cwd : string) (src : node) (coll : string) (c : Category).

Hypothesis Hscanned : scanned c.

Lemma dirs_diverge :
  diverge (Path.resolve cwd (artifact_dir c)) (Path.resolve cwd (build_dir c)) = true
  /\ diverge (Path.resolve cwd (build_dir c)) (Path.resolve cwd (artifact_dir c)) = true.
Proof.
  destruct (scanned_dirs cwd c Hscanned) as [-> ->].
  split; reflexivity.
Qed.

Lemma dirs_nonempty :
  Path.resolve cwd (build_dir c) <> [] /\ Path.resolve cwd (artifact_dir c) <> [].
Proof.
  destruct (scanned_dirs cwd c Hscanned) as [-> ->].
  split; discriminate.
Qed.

Lemma valid_filenames :
  Forall (fun nb => valid_name (filename nb) = true) (notebooks c).
Proof.
  destruct Hscanned as (_ & _ & _ & Hall & _).
  eapply Forall_impl; [| exact Hall]. now intros nb [H _].
Qed.

(** From directories in which both [os.makedirs] go through, the run
    ends with the job and leaves the listing. *)
Lemma build_job_creatable (out : node) :
  src_ok cwd src c ->
  creatable (Path.resolve cwd (build_dir c)) out = true ->
  (forall o1, FS.makedirs (Path.resolve cwd (build_dir c)) out = inr o1 ->
     creatable (Path.resolve cwd (artifact_dir c)) o1 = true) ->
  exists out',
    @build_job cwd src Y coll c out = ([], inr (job_of c), out')
    /\ FS.lookup (Path.resolve cwd (build_dir c)) out'
       = Some (Dir (build_dir_listing cwd src coll c))
    /\ FS.lookup (Path.resolve cwd (artifact_dir c)) out' = Some (Dir []).
Proof.
  intros Hsrc Hb Ha. destruct dirs_diverge as [Dab Dba].
  destruct (creatable_makedirs _ _ Hb) as [o1 M1].
  destruct (creatable_makedirs _ _ (Ha o1 M1)) as [o2 M2].
  assert (L2 : FS.lookup (Path.resolve cwd (build_dir c)) o2 = Some (Dir [])).
  { destruct (only_below_frame _ _ o1 o2 (only_below_makedirs _ _ _ M2) Dba)
      as [-> _].
    now apply makedirs_lookup with out. }
  destruct (build_job_run (Y := Y) cwd src coll c out o1 o2
              Hsrc valid_filenames Dab M1 M2 L2)
    as (out' & E & L & _ & La).
  exists out'. rewrite (listing_put cwd src coll c Hscanned) in L. auto.
Qed.

(** A run that ends without an exception ends with the job and leaves
    the listing. *)
Lemma build_job_ok_run (out : node) :
  raised (@build_job cwd src Y coll c out) = None ->
  exists out',
    @build_job cwd src Y coll c out = ([], inr (job_of c), out')
    /\ FS.lookup (Path.resolve cwd (build_dir c)) out'
       = Some (Dir (build_dir_listing cwd src coll c))
    /\ FS.lookup (Path.resolve cwd (artifact_dir c)) out' = Some (Dir []).
Proof.
  intros Hok. destruct dirs_diverge as [Dab Dba].
  pose proof (build_job_ok_src (Y := Y) cwd src coll c out Hok) as Hsrc.
  destruct (build_job_ok_makedirs (Y := Y) cwd src coll c out Hok)
    as (o1 & o2 & M1 & M2).
  assert (L2 : FS.lookup (Path.resolve cwd (build_dir c)) o2 = Some (Dir [])).
  { destruct (only_below_frame _ _ o1 o2 (only_below_makedirs _ _ _ M2) Dba)
      as [-> _].
    now apply makedirs_lookup with out. }
  destruct (build_job_run (Y := Y) cwd src coll c out o1 o2
              Hsrc valid_filenames Dab M1 M2 L2)
    as (out' & E & L & _ & La).
  exists out'. rewrite (listing_put cwd src coll c Hscanned) in L. auto.
Qed.

Lemma remove_stale_dir (d : string) (es : entries) (out : node) :
  Path.resolve cwd d <> [] ->
  FS.lookup (Path.resolve cwd d) out = Some (Dir es) ->
  @remove_stale cwd Y d out = ([], inr tt, FS.remove (Path.resolve cwd d) out).
Proof.
  intros Hne L. unfold remove_stale, gbind, os_path_exists, FS.exists_.
  rewrite L. unfold shutil_rmtree, syscall, FS.rmtree. rewrite L.
  destruct (Path.resolve cwd d); [congruence | reflexivity].
Qed.

(** After a run, the cleanup goes through and a second run ends with
    the same job and leaves the same listing. *)
Lemma build_job_again (out1 : node) (es : entries) :
  src_ok cwd src c ->
  FS.lookup (Path.resolve cwd (build_dir c)) out1 = Some (Dir es) ->
  FS.lookup (Path.resolve cwd (artifact_dir c)) out1 = Some (Dir []) ->
  exists out2 out3,
    @cleanup Y cwd c out1 = ([], inr tt, out2)
    /\ @build_job cwd src Y coll c out2 = ([], inr (job_of c), out3)
    /\ FS.lookup (Path.resolve cwd (build_dir c)) out3
       = Some (Dir (build_dir_listing cwd src coll c)).
Proof.
  intros Hsrc Lb La. destruct dirs_diverge as [Dab Dba].
  destruct dirs_nonempty as [Nb Na].
  set (c1 := FS.remove (Path.resolve cwd (build_dir c)) out1).
  assert (La1 : FS.lookup (Path.resolve cwd (artifact_dir c)) c1 = Some (Dir [])).
  { destruct (only_below_frame _ _ out1 c1 (only_below_remove _ _) Dab) as [-> _].
    exact La. }
  set (c2 := FS.remove (Path.resolve cwd (artifact_dir c)) c1).
  assert (Hclean : @cleanup Y cwd c out1 = ([], inr tt, c2)).
  { unfold cleanup.
    rewrite (gbind_run_ok _ _ out1 [] tt c1) by now apply remove_stale_dir with es.
    now rewrite (remove_stale_dir (artifact_dir c) [] c1 Na La1). }
  assert (Cb : creatable (Path.resolve cwd (build_dir c)) c2 = true).
  { destruct (only_below_frame _ _ c1 c2 (only_below_remove _ _) Dba) as [_ ->].
    apply creatable_after_remove; [exact Nb |].
    unfold FS.exists_. now rewrite Lb. }
  assert (Ca : forall o1,
            FS.makedirs (Path.resolve cwd (build_dir c)) c2 = inr o1 ->
            creatable (Path.resolve cwd (artifact_dir c)) o1 = true).
  { intros o1 M1.
    destruct (only_below_frame _ _ c2 o1 (only_below_makedirs _ _ _ M1) Dab)
      as [_ ->].
    apply creatable_after_remove; [exact Na |].
    unfold FS.exists_. now rewrite La1. }
  destruct (build_job_creatable c2 Hsrc Cb Ca) as (out3 & E & L & _).
  exists c2, out3. auto.
Qed.

Lemma find_NoDup (x : string) (v : node) (es : entries) :
  NoDup (map fst es) -> In (x, v) es -> FS.find x es = Some v.
Proof.
  induction es as [|[k w] es IH]; intros Hnd Hin; [contradiction |].
  simpl in *. inversion Hnd as [|? ? Hfresh Hnd']; subst.
  destruct Hin as [E|Hin].
  - injection E as -> ->. now rewrite String.eqb_refl.
  - destruct (String.eqb_spec k x) as [->|Hne]; [| now apply IH].
    elim Hfresh. change x with (fst (x, v)). now apply in_map.
Qed.

Lemma lookup_app (cs r : list string) (n : node) :
  FS.lookup (cs ++ r) n
  = match FS.lookup cs n with
    | Some m => FS.lookup r m
    | None => None
    end.
Proof.
  revert n. induction cs as [|k cs IH]; intros n; [reflexivity |].
  destruct n as [content|es]; [reflexivity |].
  simpl. destruct (FS.find k es); [apply IH | reflexivity].
Qed.

(** Reading a file of the listing, by its path. *)
Lemma read_listing (out : node) (x content : string) :
  FS.lookup (Path.resolve cwd (build_dir c)) out = Some (Dir (build_dir_listing cwd src coll c)) ->
  valid_name x = true ->
  In (x, File content) (build_dir_listing cwd src coll c) ->
  FS.read (Path.resolve cwd (Path.join (build_dir c) x)) out = inr content.
Proof.
  intros L Hx Hin. unfold FS.read.
  rewrite (resolve_join cwd (build_dir c) x Hx), lookup_app. rewrite L.
  cbn [FS.lookup]. rewrite (find_NoDup x (File content) _
                    (listing_names_NoDup cwd src coll c Hscanned) Hin).
  reflexivity.
Qed.

Lemma setup_in_listing :
  In ("setup-build-env.sh", File (env_setup_script c)) (build_dir_listing cwd src coll c).
Proof. unfold build_dir_listing. rewrite in_app_iff. left. now left. Qed.

Lemma script_in_listing (nb : Notebook) :
  In nb (notebooks c) ->
  In ((filename nb ++ "-builder.sh")%string,
      File (build_script nb [coll; cat_name c] (build_dir c) (artifact_dir c)))
     (build_dir_listing cwd src coll c).
Proof.
  intros Hnb. unfold build_dir_listing. rewrite !in_app_iff. do 3 right.
  apply in_flat_map. exists nb. split; [exact Hnb | now left].
Qed.

Lemma notebook_in_listing (nb : Notebook) (content : string) :
  In nb (notebooks c) ->
  FS.read (Path.resolve cwd (filepath nb)) src = inr content ->
  In (filename nb, File content) (build_dir_listing cwd src coll c).
Proof.
  intros Hnb R. unfold build_dir_listing. rewrite !in_app_iff. do 3 right.
  apply in_flat_map. exists nb. split; [exact Hnb |].
  right. unfold copy_of. rewrite R. now left.
Qed.

Lemma support_in_listing (f content : string) :
  In f support_files ->
  src_exists cwd src (Path.join (source_dir c) f) = true ->
  FS.read (Path.resolve cwd (Path.join (source_dir c) f)) src = inr content ->
  In (f, File content) (build_dir_listing cwd src coll c).
Proof.
  intros Hf Hex R. unfold build_dir_listing. rewrite !in_app_iff. right. left.
  apply in_flat_map. exists f. split; [exact Hf |].
  unfold copy_if_present, copy_of. rewrite Hex, R. now left.
Qed.

End ScannedRuns.

(** C7, as the code has it: a category as the scan makes them, with
    [N] notebooks of [N] different file names, read by paths that do
    not go up, for which [build_job]
    ends without an exception, is made into the job with its [N] script
    paths, and its build directory then holds exactly: the
    environment-setup script, once; a copy of each support file that
    the source directory has; the helper when the checkout has it; and
    for each notebook its build script and its copy, so [N] build
    scripts in all. *)
Theorem build_job_fills_build_dir
    (cwd : string) (src : node) (coll : string) (c : Category) (out : node) :
  scanned c ->
  reads_plainly cwd c ->
  raised (@build_job cwd src BuildJob coll c out) = None ->
  let run := @build_job cwd src BuildJob coll c out in
  let listing := build_dir_listing cwd src coll c in
  snd (fst run) = inr (job_of c)
  /\ List.length (scripts (job_of c)) = List.length (notebooks c)
  /\ FS.listdir (Path.resolve cwd (build_dir c)) (left_ run) = Some listing
  /\ NoDup (map fst listing)
  /\ List.length (filter (fun e => is_builder_script (fst e)) listing)
     = List.length (notebooks c)
  /\ List.length (filter (fun e => is_setup_script (fst e)) listing) = 1
  /\ In ("setup-build-env.sh", File (env_setup_script c)) listing
  /\ (forall nb, In nb (notebooks c) ->
        In ((filename nb ++ "-builder.sh")%string,
            File (build_script nb [coll; cat_name c] (build_dir c) (artifact_dir c)))
           listing
        /\ exists content,
             FS.read (Path.resolve cwd (filepath nb)) src = inr content
             /\ In (filename nb, File content) listing)
  /\ (forall f, In f support_files ->
        src_exists cwd src (Path.join (source_dir c) f) = true ->
        exists content,
          FS.read (Path.resolve cwd (Path.join (source_dir c) f)) src = inr content
          /\ In (f, File content) listing).
Proof.
  intros Hs _ Hok run listing.
  destruct (build_job_ok_run cwd src coll c Hs out Hok) as (out' & E & L & _).
  destruct (build_job_ok_src cwd src coll c out Hok) as (Hsup & _ & Hnbs).
  unfold run, left_, FS.listdir. rewrite E. cbn [fst snd]. rewrite L.
  split; [reflexivity |].
  split; [apply length_map |].
  split; [reflexivity |].
  split; [now apply listing_names_NoDup |].
  split; [now apply listing_scripts_count |].
  split; [now apply listing_setup_count |].
  split; [apply setup_in_listing |].
  split.
  - intros nb Hnb. split; [now apply script_in_listing |].
    destruct (Hnbs nb Hnb) as [content R]. exists content.
    split; [exact R | now apply notebook_in_listing].
  - intros f Hf Hex. destruct (Hsup f Hf Hex) as [content R]. exists content.
    split; [exact R | now apply support_in_listing].
Qed.

Lemma build_job_fills_build_dir_witness :
  FS.listdir ["tmp"; "nbcollection-ci-build-base-dir"; "catX"]
    (left_ (@build_job "/repo" checkout_catX BuildJob "jdat_notebooks" catX fresh_output))
  = Some (build_dir_listing "/repo" checkout_catX "jdat_notebooks" catX)
  /\ map fst (build_dir_listing "/repo" checkout_catX "jdat_notebooks" catX)
     = ["setup-build-env.sh"; "environment.sh"; "requirements.txt";
        "extract_metadata_from_notebook.py";
        "nb1.ipynb-builder.sh"; "nb1.ipynb"; "nb2.ipynb-builder.sh"; "nb2.ipynb"].
Proof.
  assert (Hs : scanned catX).
  { apply (category_of_scanned "/repo" "/repo/jdat_notebooks" ["catX"]
             [("nb1.ipynb", File "{1}"); ("nb2.ipynb", File "{2}");
              ("requirements.txt", File "numpy");
              ("environment.sh", File "export A=1");
              ("README.md", File "notes")]); reflexivity. }
  assert (Hok : raised (@build_job "/repo" checkout_catX BuildJob "jdat_notebooks"
                          catX fresh_output) = None)
    by (vm_compute; reflexivity).
  assert (Hp : reads_plainly "/repo" catX)
    by (repeat split; repeat constructor).
  destruct (build_job_fills_build_dir "/repo" checkout_catX "jdat_notebooks" catX
              fresh_output Hs Hp Hok)
    as (_ & _ & H & _).
  split; [exact H | vm_compute; reflexivity].
Defined.

(** C7, as the claim has it, fails for a category with two notebooks
    of the same file name, as the scan of line 125 makes of a directory
    named [*]: [build_job] ends without an exception with a job of two
    script paths, and the build directory holds one build script. *)
Lemma equal_file_names_share_a_script :
  let run := @build_job "/repo" checkout_star BuildJob "jdat_notebooks" category_star
               fresh_output in
  raised run = None
  /\ List.length (notebooks category_star) = 2
  /\ option_map (fun listing =>
                   map fst (filter (fun e => is_builder_script (fst e)) listing))
       (FS.listdir ["tmp"; "nbcollection-ci-build-base-dir"; "*"] (left_ run))
     = Some ["n.ipynb-builder.sh"].
Proof. repeat split; vm_compute; reflexivity. Qed.

(** C9: after a run of [build_job] on a category of the scan that ended
    without an exception, the cleanup of the scan goes through, and a
    second run on what it leaves ends with the same job and leaves the
    same build directory: the environment-setup script and the build
    script of every notebook have the same content after both runs. *)
Theorem build_job_deterministic
    (cwd : string) (src : node) (start_path : string) (out0 : node)
    (coll : string) (c : Category) (out : node) :
  wf_tree src = true ->
  In c (yielded (build_categories cwd src start_path out0)) ->
  raised (@build_job cwd src BuildJob coll c out) = None ->
  let run1 := @build_job cwd src BuildJob coll c out in
  let between := @cleanup BuildJob cwd c (left_ run1) in
  let run2 := @build_job cwd src BuildJob coll c (left_ between) in
  raised between = None
  /\ raised run2 = None
  /\ snd (fst run2) = snd (fst run1)
  /\ FS.listdir (Path.resolve cwd (build_dir c)) (left_ run2)
     = FS.listdir (Path.resolve cwd (build_dir c)) (left_ run1)
  /\ FS.read (Path.resolve cwd (Path.join (build_dir c) "setup-build-env.sh")) (left_ run1)
     = inr (env_setup_script c)
  /\ FS.read (Path.resolve cwd (Path.join (build_dir c) "setup-build-env.sh")) (left_ run2)
     = inr (env_setup_script c)
  /\ (forall nb, In nb (notebooks c) ->
        let script := build_script nb [coll; cat_name c] (build_dir c) (artifact_dir c) in
        FS.read (Path.resolve cwd (build_script_filepath nb (build_dir c))) (left_ run1)
        = inr script
        /\ FS.read (Path.resolve cwd (build_script_filepath nb (build_dir c))) (left_ run2)
           = inr script).
Proof.
  intros Hw Hin Hok run1 between run2.
  pose proof (build_categories_scanned cwd src start_path out0 c Hw Hin) as Hs.
  destruct (build_job_ok_run cwd src coll c Hs out Hok) as (out1 & E1 & L1 & La1).
  pose proof (build_job_ok_src cwd src coll c out Hok) as Hsrc.
  assert (R1 : left_ run1 = out1) by (unfold run1, left_; now rewrite E1).
  destruct (build_job_again (Y := BuildJob) cwd src coll c Hs out1 _ Hsrc L1 La1)
    as (out2 & out3 & Ec & E2 & L3).
  assert (Rb : left_ between = out2) by (unfold between; rewrite R1, Ec; reflexivity).
  assert (R2 : left_ run2 = out3) by (unfold run2; rewrite Rb, E2; reflexivity).
  assert (Hvalid : forall nb, In nb (notebooks c) ->
            valid_name (filename nb ++ "-builder.sh") = true).
  { intros nb Hnb. apply valid_builder_script.
    pose proof (valid_filenames c Hs) as Hv. rewrite Forall_forall in Hv.
    now apply Hv. }
  split; [unfold between; rewrite R1, Ec; reflexivity |].
  split; [unfold run2; rewrite Rb, E2; reflexivity |].
  split; [unfold run2, run1; rewrite Rb, E2, E1; reflexivity |].
  split; [unfold FS.listdir; now rewrite R1, R2, L1, L3 |].
  rewrite R1, R2.
  split; [apply (read_listing cwd src coll c Hs); auto using setup_in_listing |].
  split; [apply (read_listing cwd src coll c Hs); auto using setup_in_listing |].
  intros nb Hnb script. unfold build_script_filepath.
  split; apply (read_listing cwd src coll c Hs); auto;
    unfold script; now apply script_in_listing.
Qed.

Lemma build_job_deterministic_witness :
  let run1 := @build_job "/repo" checkout_catX BuildJob "jdat_notebooks" catX fresh_output in
  let between := @cleanup BuildJob "/repo" catX (left_ run1) in
  let run2 := @build_job "/repo" checkout_catX BuildJob "jdat_notebooks" catX
                (left_ between) in
  raised run2 = None
  /\ FS.listdir ["tmp"; "nbcollection-ci-build-base-dir"; "catX"] (left_ run2)
     = FS.listdir ["tmp"; "nbcollection-ci-build-base-dir"; "catX"] (left_ run1).
Proof.
  assert (Hw : wf_tree checkout_catX = true) by reflexivity.
  assert (Hin : In catX (yielded (build_categories "/repo" checkout_catX
                                    "/repo/jdat_notebooks" fresh_output)))
    by (vm_compute; left; reflexivity).
  assert (Hok : raised (@build_job "/repo" checkout_catX BuildJob "jdat_notebooks"
                          catX fresh_output) = None)
    by (vm_compute; reflexivity).
  destruct (build_job_deterministic "/repo" checkout_catX "/repo/jdat_notebooks"
              fresh_output "jdat_notebooks" catX fresh_output Hw Hin Hok)
    as (_ & H2 & _ & H4 & _).
  split; [exact H2 | exact H4].
Defined.

(* ================================================================= *)
(** * Further properties of the script *)

(** ** Notebooks, script names and output directories *)

Section NotebookNames.

Lemma rsplit1_head_append (c : ascii) (a b : string) :
  Str.contains c b = false -> Str.rsplit1_head c (a ++ String c b) = a.
Proof.
  intros Hb. induction a as [|x a IH]; cbn [append Str.rsplit1_head].
  - now rewrite Hb, Ascii.eqb_refl.
  - rewrite contains_append. cbn [Str.contains]. rewrite Ascii.eqb_refl, orb_true_r.
    now rewrite IH.
Qed.

Lemma join_split (s : string) : Str.join Path.sep (Str.split Str.slash s) = s.
Proof.
  induction s as [|a s IH]; [reflexivity |].
  cbn [Str.split]. destruct (Ascii.eqb_spec a Str.slash) as [->|Hne].
  - destruct (Str.split Str.slash s) as [|h t] eqn:E; [now apply split_not_nil in E |].
    rewrite <- IH. reflexivity.
  - destruct (Str.split Str.slash s) as [|h t] eqn:E; [now apply split_not_nil in E |].
    rewrite <- IH. destruct t; reflexivity.
Qed.

Lemma rstrip_snoc (c : ascii) (s : string) :
  Str.rstrip c (s ++ String c "") = Str.rstrip c s.
Proof.
  induction s as [|a s IH]; cbn [append Str.rstrip].
  - now rewrite Ascii.eqb_refl.
  - now rewrite IH.
Qed.

Lemma rstrip_id (c x : ascii) (s : string) :
  last_char s = Some x -> x <> c -> Str.rstrip c s = s.
Proof.
  intros H Hx. induction s as [|a s IH]; [discriminate H |].
  cbn [Str.rstrip]. destruct s as [|b s'].
  - injection H as ->. cbn [Str.rstrip].
    destruct (Ascii.eqb_spec x c); [contradiction | reflexivity].
  - rewrite (IH H). reflexivity.
Qed.

Lemma last_char_slash_free (s : string) :
  slash_free s -> s <> "" -> exists x, last_char s = Some x /\ x <> Str.slash.
Proof.
  unfold slash_free. induction s as [|a s IH]; intros H Hne; [congruence |].
  cbn [Str.contains] in H. apply orb_false_iff in H as [Ha Hs].
  destruct s as [|b s'].
  - exists a. split; [reflexivity |]. now apply Ascii.eqb_neq.
  - destruct (IH Hs) as (x & Hx & Hxs); [discriminate |]. now exists x.
Qed.

(** [os.path.dirname] of a directory followed by a file name. *)
Lemma dirname_append (d f : string) (x : ascii) :
  slash_free f -> last_char d = Some x -> x <> Str.slash ->
  Path.dirname (d ++ String Str.slash f) = d.
Proof.
  intros Hf Hl Hx. unfold Path.dirname.
  rewrite split_append, (split_one _ _ Hf), removelast_last.
  destruct (Str.split Str.slash d) as [|h t] eqn:E; [now apply split_not_nil in E |].
  rewrite <- E, join_split.
  change (d ++ Path.sep)%string with (d ++ String Str.slash "")%string.
  rewrite rstrip_snoc, (rstrip_id Str.slash x d Hl Hx).
  destruct d; [discriminate Hl | reflexivity].
Qed.

End NotebookNames.

(** X2: the directory the build script of a notebook makes with
    [mkdir -p] is the artifact directory it was given, then the
    collection and the category, and it is the directory of both the
    report and the metadata file. *)
Theorem output_dir_holds_artifacts (nb : Notebook) (coll cat artifact_dir : string) :
  valid_name cat = true -> valid_name (filename nb) = true ->
  Path.dirname (html_path nb [coll; cat] artifact_dir)
  = (artifact_dir ++ "/" ++ coll ++ "/" ++ cat)%string
  /\ Path.dirname (metadata_path nb [coll; cat] artifact_dir)
     = Path.dirname (html_path nb [coll; cat] artifact_dir).
Proof.
  intros Hc Hf.
  destruct (valid_name_spec cat Hc) as (Hcs & Hcn & _).
  destruct (valid_name_spec (filename nb) Hf) as (Hfs & _).
  destruct (last_char_slash_free cat Hcs Hcn) as (x & Hx & Hxs).
  assert (Hl : last_char (artifact_dir ++ "/" ++ coll ++ "/" ++ cat)%string = Some x).
  { rewrite <- Hx.
    change (artifact_dir ++ "/" ++ coll ++ "/" ++ cat)%string
      with (artifact_dir ++ (String Str.slash coll ++ String Str.slash cat))%string.
    rewrite <- !append_assoc.
    change (String Str.slash cat) with ("/" ++ cat)%string.
    rewrite <- append_assoc. now apply last_char_append. }
  assert (Hd : forall ext, slash_free ext ->
            Path.dirname (artifact_dir ++ "/" ++ categories_formatted [coll; cat]
                            ++ "/" ++ filename nb ++ ext)
            = (artifact_dir ++ "/" ++ coll ++ "/" ++ cat)%string).
  { intros ext He. unfold categories_formatted. cbn [Str.join].
    replace (artifact_dir ++ "/" ++ (coll ++ "/" ++ cat) ++ "/" ++ filename nb ++ ext)%string
      with ((artifact_dir ++ "/" ++ coll ++ "/" ++ cat)
              ++ String Str.slash (filename nb ++ ext))%string.
    - apply dirname_append with x; try assumption.
      unfold slash_free. rewrite contains_append.
      unfold slash_free in Hfs, He. now rewrite Hfs, He.
    - rewrite !append_assoc. reflexivity. }
  unfold html_path, metadata_path. rewrite !Hd by reflexivity. split; reflexivity.
Qed.

Lemma output_dir_holds_artifacts_witness :
  Path.dirname (html_path (mkNotebook "nb1" "nb1.ipynb" "jdat_notebooks/catX/nb1.ipynb")
                  ["jdat_notebooks"; "catX"] "/tmp/artifacts/catX")
  = "/tmp/artifacts/catX/jdat_notebooks/catX".
Proof.
  destruct (output_dir_holds_artifacts
              (mkNotebook "nb1" "nb1.ipynb" "jdat_notebooks/catX/nb1.ipynb")
              "jdat_notebooks" "catX" "/tmp/artifacts/catX" eq_refl eq_refl) as [H _].
  exact H.
Defined.

(** X3: the driver skips the build script of a notebook exactly when
    the file name of the notebook is [preimaging_01_mirage.ipynb],
    whatever its category and its build directory. *)
Theorem skipped_by_notebook_filename (nb : Notebook) (build_dir : string) :
  valid_name (filename nb) = true ->
  not_skipped (build_script_filepath nb build_dir)
  = negb (String.eqb (filename nb) "preimaging_01_mirage.ipynb").
Proof.
  intros Hv. unfold not_skipped, build_script_filepath.
  rewrite (basename_join build_dir _ (valid_builder_script _ Hv)).
  unfold pass_names. cbn [existsb]. rewrite orb_false_r. f_equal.
  change "preimaging_01_mirage.ipynb-builder.sh"
    with ("preimaging_01_mirage.ipynb" ++ "-builder.sh")%string.
  destruct (String.eqb_spec (filename nb) "preimaging_01_mirage.ipynb") as [->|Hne].
  - apply String.eqb_refl.
  - apply String.eqb_neq. intros E. now apply append_inj_l in E.
Qed.

Lemma skipped_by_notebook_filename_witness :
  not_skipped "/tmp/nbcollection-ci-build-base-dir/any/preimaging_01_mirage.ipynb-builder.sh"
  = false
  /\ not_skipped "/tmp/nbcollection-ci-build-base-dir/any/nb1.ipynb-builder.sh" = true.
Proof.
  split.
  - exact (skipped_by_notebook_filename
             (mkNotebook "preimaging_01_mirage" "preimaging_01_mirage.ipynb" "p")
             "/tmp/nbcollection-ci-build-base-dir/any" eq_refl).
  - exact (skipped_by_notebook_filename
             (mkNotebook "nb1" "nb1.ipynb" "p")
             "/tmp/nbcollection-ci-build-base-dir/any" eq_refl).
Defined.

(** ** The output directories *)

Section OutputDirs.

Variable cwd : string.

(** The start of the script, case by case on what is at
    [/tmp/artifacts]. *)
Lemma module_init_run (out : node) :
  module_init cwd out
  = match FS.lookup artifact_dest_names out with
    | Some (Dir _) =>
        match FS.makedirs artifact_dest_names (FS.remove artifact_dest_names out) with
        | inr out' => ([], inr tt, out')
        | inl e => ([], inl (OSError e ARTIFACT_DEST_DIR), FS.remove artifact_dest_names out)
        end
    | Some (File _) => ([], inl (OSError FS.ENOTDIR ARTIFACT_DEST_DIR), out)
    | None =>
        match FS.makedirs artifact_dest_names out with
        | inr out' => ([], inr tt, out')
        | inl e => ([], inl (OSError e ARTIFACT_DEST_DIR), out)
        end
    end.
Proof.
  assert (R : Path.resolve cwd ARTIFACT_DEST_DIR = artifact_dest_names) by reflexivity.
  unfold module_init, gbind, os_path_exists, shutil_rmtree, os_makedirs, syscall,
    FS.exists_, FS.rmtree, gret.
  rewrite !R. cbv beta iota.
  destruct (FS.lookup artifact_dest_names out) as [[content|es]|] eqn:L.
  - cbv beta iota. now rewrite ?L.
  - cbv beta iota. rewrite ?L. unfold artifact_dest_names at 1.
    destruct (FS.makedirs artifact_dest_names (FS.remove artifact_dest_names out));
      reflexivity.
  - cbv beta iota. destruct (FS.makedirs artifact_dest_names out); reflexivity.
Qed.

Lemma makedirs_exists (cs : list string) (n m : node) :
  FS.lookup cs n = Some m -> FS.makedirs cs n = inl FS.EEXIST.
Proof.
  revert n. induction cs as [|c cs IH]; intros n H; [reflexivity |].
  destruct n as [content|es]; [discriminate H |].
  cbn [FS.lookup] in H. cbn [FS.makedirs].
  destruct (FS.find c es) as [x|]; [| discriminate H].
  now rewrite (IH x H).
Qed.

End OutputDirs.

(** X4: the start of the script leaves [/tmp/artifacts] as an empty
    directory whenever it ends without an exception, and it does so
    whenever a directory was there before; a regular file at
    [/tmp/artifacts] makes it stop with an error and nothing changed;
    and what lies along paths that part from [/tmp/artifacts] is never
    changed. *)
Theorem module_init_resets_artifact_dir (cwd : string) (out : node) :
  let run := module_init cwd out in
  (raised run = None -> FS.lookup artifact_dest_names (left_ run) = Some (Dir []))
  /\ (forall es, FS.lookup artifact_dest_names out = Some (Dir es) -> raised run = None)
  /\ (forall content, FS.lookup artifact_dest_names out = Some (File content) ->
        raised run = Some (OSError FS.ENOTDIR ARTIFACT_DEST_DIR) /\ left_ run = out)
  /\ (forall cs, diverge cs artifact_dest_names = true ->
        FS.lookup cs (left_ run) = FS.lookup cs out).
Proof.
  intros run. unfold run. rewrite module_init_run.
  destruct (FS.lookup artifact_dest_names out) as [[content|es]|] eqn:L.
  - repeat split; try discriminate.
  - assert (C : creatable artifact_dest_names (FS.remove artifact_dest_names out) = true).
    { apply creatable_after_remove; [discriminate |]. unfold FS.exists_. now rewrite L. }
    destruct (creatable_makedirs _ _ C) as [out' M]. rewrite M.
    split; [intros _; now apply makedirs_lookup with (FS.remove artifact_dest_names out) |].
    split; [reflexivity |]. split; [discriminate |].
    intros cs D. unfold left_. cbn [snd].
    destruct (only_below_frame _ cs _ _ (only_below_makedirs _ _ _ M) D) as [-> _].
    now destruct (only_below_frame _ cs _ _
                    (only_below_remove artifact_dest_names out) D).
  - destruct (FS.makedirs artifact_dest_names out) as [e|out'] eqn:M.
    + repeat split; try discriminate.
    + split; [intros _; now apply makedirs_lookup with out |].
      split; [discriminate |]. split; [discriminate |].
      intros cs D.
      now destruct (only_below_frame _ cs _ _ (only_below_makedirs _ _ _ M) D).
Qed.

Lemma module_init_resets_artifact_dir_witness :
  FS.lookup artifact_dest_names
    (left_ (module_init "/repo"
              (Dir [("tmp", Dir [("artifacts", Dir [("old", Dir [("r.html", File "x")])]);
                                 ("keep", File "k")])])))
  = Some (Dir [])
  /\ FS.lookup ["tmp"; "keep"]
       (left_ (module_init "/repo"
                 (Dir [("tmp", Dir [("artifacts", Dir [("old", Dir [("r.html", File "x")])]);
                                    ("keep", File "k")])])))
     = Some (File "k").
Proof.
  destruct (module_init_resets_artifact_dir "/repo"
              (Dir [("tmp", Dir [("artifacts", Dir [("old", Dir [("r.html", File "x")])]);
                                 ("keep", File "k")])]))
    as (H1 & H2 & _ & H4).
  split.
  - apply H1. apply (H2 [("old", Dir [("r.html", File "x")])]). reflexivity.
  - rewrite (H4 ["tmp"; "keep"] eq_refl). reflexivity.
Defined.

(** X5: when the build directory of a category is already there,
    [build_job] stops at its first [os.makedirs] with the error of an
    existing file, and changes nothing; so a second run needs the
    cleanup of the scan. *)
Theorem build_job_refuses_existing_build_dir
    (cwd : string) (src : node) (coll : string) (c : Category) (out : node) :
  FS.exists_ (Path.resolve cwd (build_dir c)) out = true ->
  @build_job cwd src BuildJob coll c out
  = ([], inl (OSError FS.EEXIST (build_dir c)), out).
Proof.
  unfold FS.exists_. intros H.
  destruct (FS.lookup (Path.resolve cwd (build_dir c)) out) as [m|] eqn:L;
    [| discriminate H].
  unfold build_job.
  rewrite (gbind_run_raise _ _ out [] (OSError FS.EEXIST (build_dir c)) out);
    [reflexivity |].
  unfold setup_build_env.
  rewrite (gbind_run_raise _ _ out [] (OSError FS.EEXIST (build_dir c)) out);
    [reflexivity |].
  unfold os_makedirs, syscall. now rewrite (makedirs_exists _ _ _ L).
Qed.

Lemma build_job_refuses_existing_build_dir_witness :
  raised (@build_job "/repo" checkout_catX BuildJob "jdat_notebooks" catX
            (left_ (@build_job "/repo" checkout_catX BuildJob "jdat_notebooks" catX
                      fresh_output)))
  = Some (OSError FS.EEXIST "/tmp/nbcollection-ci-build-base-dir/catX").
Proof.
  rewrite (build_job_refuses_existing_build_dir "/repo" checkout_catX "jdat_notebooks" catX);
    [reflexivity | vm_compute; reflexivity].
Defined.

(** ** What the script leaves alone *)

Section Keeps.

Context {Y : Type}.

Lemma keeps_ret {A : Type} (P : list string -> Prop) (a : A) : keeps P (@gret Y A a).
Proof. intros out cs _. split; reflexivity. Qed.

Lemma keeps_raise {A : Type} (P : list string -> Prop) (e : exn) :
  keeps P (@graise Y A e).
Proof. intros out cs _. split; reflexivity. Qed.

Lemma keeps_yield (P : list string -> Prop) (y : Y) : keeps P (gyield y).
Proof. intros out cs _. split; reflexivity. Qed.

Lemma keeps_bind {A B : Type} (P : list string -> Prop) (m : G Y A) (f : A -> G Y B) :
  keeps P m -> (forall a, keeps P (f a)) -> keeps P (gbind m f).
Proof.
  intros Hm Hf out cs Hcs. specialize (Hm out cs Hcs).
  unfold left_, gbind in *. destruct (m out) as [[ys [e|a]] out1]; [exact Hm |].
  specialize (Hf a out1 cs Hcs). unfold left_ in Hf.
  destruct (f a out1) as [[ys' r] out2]. cbn [snd] in *.
  destruct Hm as [Hm1 Hm2], Hf as [Hf1 Hf2]. split; congruence.
Qed.

Lemma keeps_for {X : Type} (P : list string -> Prop) (body : X -> G Y unit)
    (l : list X) :
  (forall x, In x l -> keeps P (body x)) -> keeps P (gfor body l).
Proof.
  induction l as [|x l IH]; intros H; simpl.
  - apply keeps_ret.
  - apply keeps_bind.
    + apply H. now left.
    + intros _. apply IH. intros y Hy. apply H. now right.
Qed.

Lemma keeps_syscall (P : list string -> Prop) (f : node -> FS.errno + node)
    (p : string) :
  (forall n n' cs, f n = inr n' -> P cs ->
     FS.lookup cs n' = FS.lookup cs n /\ creatable cs n' = creatable cs n) ->
  keeps P (@syscall Y f p).
Proof.
  intros H out cs Hcs. unfold syscall, left_.
  destruct (f out) as [e|out'] eqn:E; [split; reflexivity |].
  now apply H.
Qed.

Variable cwd : string.

Lemma keeps_makedirs (P : list string -> Prop) (p : string) :
  (forall cs, P cs -> diverge cs (Path.resolve cwd p) = true) ->
  keeps P (os_makedirs cwd Y p).
Proof.
  intros HP. apply keeps_syscall. intros n n' cs M Hcs.
  exact (only_below_frame _ cs n n' (only_below_makedirs _ _ _ M) (HP cs Hcs)).
Qed.

Lemma keeps_write (P : list string -> Prop) (p content : string) :
  (forall cs, P cs -> diverge cs (Path.resolve cwd p) = true) ->
  keeps P (write_file cwd Y p content).
Proof.
  intros HP. apply keeps_syscall. intros n n' cs W Hcs.
  exact (only_below_frame _ cs n n' (only_below_write _ _ _ _ W) (HP cs Hcs)).
Qed.

Lemma keeps_remove_stale (P : list string -> Prop) (d : string) :
  (forall cs, P cs -> diverge cs (Path.resolve cwd d) = true) ->
  keeps P (@remove_stale cwd Y d).
Proof.
  intros HP. unfold remove_stale. apply keeps_bind.
  - intros out cs _. split; reflexivity.
  - intros [|]; [| apply keeps_ret].
    apply keeps_syscall. intros n n' cs R Hcs. unfold FS.rmtree in R.
    destruct (FS.lookup (Path.resolve cwd d) n) as [[?|?]|]; try discriminate R.
    destruct (Path.resolve cwd d) as [|k r] eqn:E; [discriminate R |].
    injection R as <-.
    exact (only_below_frame (k :: r) cs n _ (only_below_remove _ _) (HP cs Hcs)).
Qed.

Variable src : node.

Lemma keeps_copyfile (P : list string -> Prop) (source dest : string) :
  (forall cs, P cs -> diverge cs (Path.resolve cwd dest) = true) ->
  keeps P (shutil_copyfile cwd src Y source dest).
Proof.
  intros HP. unfold shutil_copyfile.
  destruct (FS.read (Path.resolve cwd source) src); [apply keeps_raise |].
  now apply keeps_write.
Qed.

(** Every file [build_job] writes has a name of its own in the build
    directory of the category. *)
Lemma keeps_build_job (coll : string) (c : Category) :
  scanned c -> keeps (apart_from_category cwd c) (@build_job cwd src Y coll c).
Proof.
  intros Hs.
  assert (Hin : forall x cs, valid_name x = true -> apart_from_category cwd c cs ->
                  diverge cs (Path.resolve cwd (Path.join (build_dir c) x)) = true).
  { intros x cs Hx [Hb _]. rewrite (resolve_join cwd _ x Hx). now apply diverge_app_r. }
  pose proof (valid_filenames c Hs) as Hv. rewrite Forall_forall in Hv.
  unfold build_job, setup_build_env.
  apply keeps_bind; [| intros _; apply keeps_bind; [| intros _; apply keeps_ret]].
  - apply keeps_bind; [apply keeps_makedirs; now intros cs [H _] | intros _].
    apply keeps_bind; [apply keeps_makedirs; now intros cs [_ H] | intros _].
    cbv zeta.
    apply keeps_bind; [apply keeps_write; intros cs; now apply Hin | intros _].
    apply keeps_bind; [| intros _]; apply keeps_for; intros f Hf;
      unfold copy_if_exists;
      (destruct (src_exists cwd src _); [| apply keeps_ret]);
      apply keeps_copyfile; intros cs; apply Hin;
      auto using valid_support_file, valid_helper_file.
  - apply keeps_for. intros nb Hnb.
    apply keeps_bind; [| intros _].
    + apply keeps_write. intros cs. apply Hin, valid_builder_script. now apply Hv.
    + apply keeps_copyfile. intros cs. apply Hin. now apply Hv.
Qed.

End Keeps.

(** X6: for a category of a scan, [build_job] leaves alone everything
    along the paths that part from the build directory and from the
    artifact directory of the category, whether it ends with a job or
    with an exception; and when it ends with a job the artifact
    directory is there and empty. *)
Theorem build_job_stays_in_its_dirs
    (cwd : string) (src : node) (start_path : string) (out0 : node)
    (coll : string) (c : Category) (out : node) :
  wf_tree src = true ->
  In c (yielded (build_categories cwd src start_path out0)) ->
  let run := @build_job cwd src BuildJob coll c out in
  (forall cs, apart_from_category cwd c cs ->
     FS.lookup cs (left_ run) = FS.lookup cs out)
  /\ (raised run = None ->
      FS.lookup (Path.resolve cwd (artifact_dir c)) (left_ run) = Some (Dir [])).
Proof.
  intros Hw Hin run.
  pose proof (build_categories_scanned cwd src start_path out0 c Hw Hin) as Hs.
  split.
  - intros cs Hcs. exact (proj1 (keeps_build_job cwd src coll c Hs out cs Hcs)).
  - intros Hok.
    destruct (build_job_ok_run cwd src coll c Hs out Hok) as (out' & E & _ & La).
    unfold run, left_. now rewrite E.
Qed.

Lemma build_job_stays_in_its_dirs_witness :
  FS.lookup ["tmp"; "nbcollection-ci-build-base-dir"; "other"; "f"]
    (left_ (@build_job "/repo" checkout_catX BuildJob "jdat_notebooks" catX
              (Dir [("tmp", Dir [("nbcollection-ci-build-base-dir",
                                  Dir [("other", Dir [("f", File "kept")])])])])))
  = Some (File "kept").
Proof.
  assert (Hw : wf_tree checkout_catX = true) by reflexivity.
  assert (Hin : In catX (yielded (build_categories "/repo" checkout_catX
                                    "/repo/jdat_notebooks" fresh_output)))
    by (vm_compute; left; reflexivity).
  destruct (build_job_stays_in_its_dirs "/repo" checkout_catX "/repo/jdat_notebooks"
              fresh_output "jdat_notebooks" catX
              (Dir [("tmp", Dir [("nbcollection-ci-build-base-dir",
                                  Dir [("other", Dir [("f", File "kept")])])])])
              Hw Hin) as [H _].
  rewrite (H ["tmp"; "nbcollection-ci-build-base-dir"; "other"; "f"]);
    [reflexivity | split; reflexivity].
Defined.

Section ScanKeeps.

Variable cwd : string.

Lemma creates_nothing_ret {Y A : Type} (a : A) : creates_nothing (@gret Y A a).
Proof. intros out cs H. exact H. Qed.

Lemma creates_nothing_raise {Y A : Type} (e : exn) : creates_nothing (@graise Y A e).
Proof. intros out cs H. exact H. Qed.

Lemma creates_nothing_bind {Y A B : Type} (m : G Y A) (f : A -> G Y B) :
  creates_nothing m -> (forall a, creates_nothing (f a)) ->
  creates_nothing (gbind m f).
Proof.
  intros Hm Hf out cs Hcs. specialize (Hm out cs Hcs).
  unfold left_, gbind in *. destruct (m out) as [[ys [e|a]] out1]; [exact Hm |].
  specialize (Hf a out1 cs Hm). unfold left_ in Hf.
  now destruct (f a out1) as [[ys' r] out2].
Qed.

Lemma creates_nothing_for {Y X : Type} (body : X -> G Y unit) (l : list X) :
  (forall x, In x l -> creates_nothing (body x)) -> creates_nothing (gfor body l).
Proof.
  induction l as [|x l IH]; intros H; simpl.
  - apply creates_nothing_ret.
  - apply creates_nothing_bind.
    + apply H. now left.
    + intros _. apply IH. intros y Hy. apply H. now right.
Qed.

Lemma creates_nothing_remove_stale {Y : Type} (d : string) :
  creates_nothing (@remove_stale cwd Y d).
Proof.
  unfold remove_stale. apply creates_nothing_bind.
  - intros out cs H. exact H.
  - intros [|]; [| apply creates_nothing_ret].
    intros out cs H. unfold shutil_rmtree, syscall, left_.
    destruct (FS.rmtree (Path.resolve cwd d) out) as [e|out'] eqn:R; [exact H |].
    now apply (rmtree_ok _ _ _ R).
Qed.

Lemma creates_nothing_scan_dir (root dirname : string) (es : entries)
    (recurse : G Category unit) :
  creates_nothing recurse -> creates_nothing (scan_dir cwd root dirname es recurse).
Proof.
  intros Hrec. unfold scan_dir.
  destruct (notebooks_of cwd (Path.join root dirname) es); [exact Hrec |].
  destruct (has_entry "requirements.txt" es); cbn [negb];
    [| apply creates_nothing_raise].
  apply creates_nothing_bind; [apply creates_nothing_remove_stale | intros _].
  apply creates_nothing_bind; [apply creates_nothing_remove_stale | intros _].
  intros out cs H. exact H.
Qed.

Lemma creates_nothing_build_categories_in (n : node) (start : string) :
  creates_nothing (build_categories_in cwd start n).
Proof.
  revert start. induction n as [content|es IH] using node_entries_ind; intros start;
    simpl.
  - apply creates_nothing_ret.
  - rewrite Forall_forall in IH.
    apply creates_nothing_bind; [| intros _]; apply creates_nothing_for;
      intros [d child] Hin; simpl; specialize (IH _ Hin); simpl in IH;
      destruct child as [content|es_d]; try apply creates_nothing_ret.
    + apply creates_nothing_scan_dir, IH.
    + apply IH.
Qed.

Lemma keeps_scan_dir (root dirname : string) (es : entries)
    (recurse : G Category unit) :
  valid_name dirname = true ->
  keeps apart_from_output recurse ->
  keeps apart_from_output (scan_dir cwd root dirname es recurse).
Proof.
  intros Hv Hrec. unfold scan_dir.
  destruct (notebooks_of cwd (Path.join root dirname) es); [exact Hrec |].
  destruct (has_entry "requirements.txt" es); cbn [negb]; [| apply keeps_raise].
  apply keeps_bind; [| intros _; apply keeps_bind; [| intros _; apply keeps_yield]];
    apply keeps_remove_stale; intros cs [Hb Ha]; rewrite (resolve_join cwd _ _ Hv);
    now apply diverge_app_r.
Qed.

Lemma keeps_build_categories_in (n : node) (start : string) :
  wf_tree n = true -> keeps apart_from_output (build_categories_in cwd start n).
Proof.
  revert start. induction n as [content|es IH] using node_entries_ind;
    intros start Hw; simpl.
  - apply keeps_ret.
  - rewrite Forall_forall in IH.
    apply keeps_bind; [| intros _]; apply keeps_for;
      intros [d child] Hin; simpl;
      destruct (wf_tree_entry es d child Hw Hin) as [Hv Hc];
      specialize (IH _ Hin); simpl in IH;
      destruct child as [content|es_d]; try apply keeps_ret.
    + apply keeps_scan_dir; [exact Hv | now apply IH].
    + now apply IH.
Qed.

End ScanKeeps.

(** X7: a scan only removes: what does not exist before it does not
    exist after it; and on a checkout with valid names it leaves alone
    everything along the paths that part from the build base and from
    the artifact root, however it ends. *)
Theorem scan_only_removes_stale_dirs (cwd : string) (src : node) (start_path : string)
    (out : node) :
  let scan := build_categories cwd src start_path out in
  (forall cs, FS.exists_ cs out = false -> FS.exists_ cs (left_ scan) = false)
  /\ (wf_tree src = true ->
      forall cs, apart_from_output cs -> FS.lookup cs (left_ scan) = FS.lookup cs out).
Proof.
  intros scan. unfold scan, build_categories.
  destruct (FS.lookup (Path.resolve cwd start_path) src) as [n|] eqn:L.
  - split.
    + intros cs. apply (creates_nothing_build_categories_in cwd n start_path out cs).
    + intros Hw cs Hcs.
      exact (proj1 (keeps_build_categories_in cwd n start_path (lookup_wf _ _ _ Hw L)
                      out cs Hcs)).
  - split; [intros cs H; exact H | reflexivity].
Qed.

Lemma scan_only_removes_stale_dirs_witness :
  let out := Dir [("tmp", Dir [("nbcollection-ci-build-base-dir",
                                Dir [("catX", Dir [("stale.sh", File "old")])]);
                               ("artifacts", Dir []);
                               ("other", File "kept")])] in
  let scan := build_categories "/repo" checkout_catX "/repo/jdat_notebooks" out in
  FS.exists_ ["tmp"; "nbcollection-ci-build-base-dir"; "new"] (left_ scan) = false
  /\ FS.lookup ["tmp"; "other"] (left_ scan) = Some (File "kept")
  /\ FS.exists_ ["tmp"; "nbcollection-ci-build-base-dir"; "catX"] (left_ scan) = false.
Proof.
  intros out scan.
  destruct (scan_only_removes_stale_dirs "/repo" checkout_catX "/repo/jdat_notebooks" out)
    as [H1 H2].
  split; [apply H1; reflexivity |].
  split; [| vm_compute; reflexivity].
  unfold scan. rewrite (H2 eq_refl ["tmp"; "other"]); [reflexivity | split; reflexivity].
Defined.

(** ** The scan of a flat layout *)

Section FlatScan.

Variable cwd : string.

(** A sequence that ended without an exception: both parts did. *)
Lemma gbind_ok_inv {Y A B : Type} (m : G Y A) (f : A -> G Y B) (out : node) :
  raised (gbind m f out) = None ->
  exists ys a out1,
    m out = (ys, inr a, out1)
    /\ raised (f a out1) = None
    /\ yielded (gbind m f out) = (map fst ys ++ yielded (f a out1))%list
    /\ left_ (gbind m f out) = left_ (f a out1).
Proof.
  unfold raised, yielded, left_, gbind.
  destruct (m out) as [[ys [e|a]] out1]; [discriminate |].
  intros H. exists ys, a, out1.
  destruct (f a out1) as [[ys' r] out2]. cbn [fst snd] in *.
  rewrite map_app. auto.
Qed.

Lemma gfor_neutral {Y X : Type} (body : X -> G Y unit) (l : list X) (out : node) :
  (forall x o, In x l -> body x o = ([], inr tt, o)) ->
  gfor body l out = ([], inr tt, out).
Proof.
  induction l as [|x l IH]; intros H; [reflexivity |].
  simpl. unfold gbind. rewrite (H x out) by now left.
  rewrite IH; [reflexivity |]. intros y o Hy. apply H. now right.
Qed.

(** The scan of a directory that holds files only does nothing. *)
Lemma files_only_run (p : string) (es : entries) (out : node) :
  all_files es = true ->
  build_categories_in cwd p (Dir es) out = ([], inr tt, out).
Proof.
  intros H. unfold all_files in H. rewrite forallb_forall in H.
  assert (Hf : forall e, In e es -> exists content, snd e = File content).
  { intros e He. specialize (H e He). destruct (snd e); [eauto | discriminate H]. }
  cbn [build_categories_in]. unfold gbind.
  rewrite gfor_neutral.
  - rewrite gfor_neutral; [reflexivity |].
    intros e o He. destruct (Hf e He) as [content ->]. reflexivity.
  - intros e o He. destruct (Hf e He) as [content ->]. reflexivity.
Qed.

Lemma scan_dir_flat (start d : string) (es : entries) (out : node) :
  all_files es = true ->
  raised (scan_dir cwd start d es
            (build_categories_in cwd (Path.join start d) (Dir es)) out) = None ->
  yielded (scan_dir cwd start d es
             (build_categories_in cwd (Path.join start d) (Dir es)) out)
  = if has_notebooks es then [category_of cwd start [d] es] else [].
Proof.
  intros Hall. unfold scan_dir.
  destruct (notebooks_of cwd (Path.join start d) es) as [|nb nbs] eqn:N.
  - apply (notebooks_of_nil cwd) in N. rewrite N, (files_only_run _ _ _ Hall).
    reflexivity.
  - assert (Hnb : has_notebooks es = true).
    { destruct (has_notebooks es) eqn:E; [reflexivity |].
      apply (notebooks_of_nil cwd (Path.join start d)) in E. congruence. }
    rewrite Hnb.
    destruct (has_entry "requirements.txt" es); cbn [negb]; [| discriminate].
    unfold gbind.
    destruct (remove_stale_run cwd (Path.join BUILD_BASE_DIR d) out)
      as (r1 & out1 & E1 & _).
    rewrite E1. destruct r1 as [e|[]]; [discriminate |].
    destruct (remove_stale_run cwd (Path.join ARTIFACT_DEST_DIR d) out1)
      as (r2 & out2 & E2 & _).
    rewrite E2. destruct r2 as [e|[]]; [discriminate |].
    intros _. unfold yielded, category_of. cbn [fst snd map app gyield fold_left last].
    now rewrite N.
Qed.

Lemma flat_level_run (start : string) (es : entries) (out : node) :
  flat_dir es = true ->
  let level :=
    gfor (fun e =>
            match snd e with
            | File _ => gret tt
            | Dir es_d =>
                scan_dir cwd start (fst e) es_d
                  (build_categories_in cwd (Path.join start (fst e)) (snd e))
            end) es in
  raised (level out) = None -> yielded (level out) = flat_categories cwd start es.
Proof.
  revert out. induction es as [|[d child] es IH]; intros out Hflat level Hok;
    [reflexivity |].
  cbn [flat_dir forallb snd] in Hflat. apply andb_true_iff in Hflat as [Hc Hflat].
  unfold level in *. cbn [gfor] in *.
  destruct (gbind_ok_inv _ _ out Hok) as (ys & [] & out1 & E & Hok' & Hy & _).
  rewrite Hy, (IH out1 Hflat Hok').
  cbn [flat_categories flat_map snd fst]. f_equal.
  cbn [snd fst] in E. destruct child as [content|es_d].
  - unfold gret in E. now injection E as <- _.
  - pose proof (scan_dir_flat start d es_d out Hc) as H.
    unfold raised, yielded in H. rewrite E in H. cbn [fst snd] in H. now apply H.
Qed.

End FlatScan.

(** X8: on a flat layout, where the subdirectories of the start
    directory hold files only, and where neither the start path nor the
    name of a subdirectory has a wildcard character, a scan that ends
    without an exception yields exactly one category for each
    subdirectory with notebooks, in listing order, and none twice. *)
Theorem flat_scan_yields_each_category_once
    (cwd : string) (src : node) (start_path : string) (es : entries) (out : node) :
  FS.lookup (Path.resolve cwd start_path) src = Some (Dir es) ->
  has_magic start_path = false -> plain_tree (Dir es) = true ->
  no_dotdot cwd = true -> no_dotdot start_path = true ->
  flat_dir es = true ->
  raised (build_categories cwd src start_path out) = None ->
  yielded (build_categories cwd src start_path out)
  = flat_categories cwd start_path es.
Proof.
  intros L _ _ _ _ Hflat. unfold build_categories. rewrite L. cbn [build_categories_in].
  intros Hok.
  destruct (gbind_ok_inv _ _ out Hok) as (ys & [] & out1 & E & Hok' & Hy & _).
  rewrite Hy.
  assert (Hlevel : map fst ys = flat_categories cwd start_path es).
  { pose proof (flat_level_run cwd start_path es out Hflat) as H. cbv zeta in H.
    unfold raised, yielded in H. rewrite E in H. now apply H. }
  rewrite Hlevel.
  rewrite gfor_neutral; [unfold yielded; cbn; apply app_nil_r |].
  intros [d child] o He. cbn [snd fst]. destruct child as [content|es_d]; [reflexivity |].
  apply files_only_run.
  unfold flat_dir in Hflat. rewrite forallb_forall in Hflat.
  exact (Hflat _ He).
Qed.

Lemma flat_scan_yields_each_category_once_witness :
  yielded (build_categories "/repo" checkout_catX "/repo/jdat_notebooks" fresh_output)
  = [catX].
Proof.
  rewrite (flat_scan_yields_each_category_once "/repo" checkout_catX "/repo/jdat_notebooks"
             [("catX", Dir [("nb1.ipynb", File "{1}"); ("nb2.ipynb", File "{2}");
                            ("requirements.txt", File "numpy");
                            ("environment.sh", File "export A=1");
                            ("README.md", File "notes")])]
             fresh_output);
    reflexivity.
Defined.

(** ** The stale directories *)

Section Settles.

Variable cwd : string.

Lemma settles_nil {Y A : Type} (g : G Y A) :
  (forall out, fst (fst (g out)) = []) -> settles g.
Proof. intros H out. rewrite (H out). constructor. Qed.

Lemma settles_bind {Y A B : Type} (m : G Y A) (f : A -> G Y B) :
  settles m -> (forall a, settles (f a)) -> (forall a, creates_nothing (f a)) ->
  settles (gbind m f).
Proof.
  intros Hm Hf Hc out. specialize (Hm out). unfold left_, gbind in *.
  destruct (m out) as [[ys [e|a]] out1]; [exact Hm |].
  specialize (Hf a out1). specialize (Hc a out1). unfold left_ in Hf, Hc.
  destruct (f a out1) as [[ys' r] out2]. cbn [fst snd] in *.
  apply Forall_app. split; [| exact Hf].
  eapply Forall_impl; [| exact Hm]. intros y Hy cs Hcs. apply Hc. now apply Hy.
Qed.

Lemma settles_for {Y X : Type} (body : X -> G Y unit) (l : list X) :
  (forall x, In x l -> settles (body x)) ->
  (forall x, In x l -> creates_nothing (body x)) ->
  settles (gfor body l).
Proof.
  induction l as [|x l IH]; intros Hs Hc; cbn [gfor].
  - apply settles_nil. reflexivity.
  - apply settles_bind.
    + apply Hs. now left.
    + intros _. apply IH; intros y Hy; [apply Hs | apply Hc]; now right.
    + intros _. apply creates_nothing_for. intros y Hy. apply Hc. now right.
Qed.

Lemma remove_stale_yields_nothing {Y : Type} (d : string) (out : node) :
  fst (fst (@remove_stale cwd Y d out)) = [].
Proof.
  unfold remove_stale, gbind, os_path_exists.
  destruct (FS.exists_ (Path.resolve cwd d) out); [| reflexivity].
  unfold shutil_rmtree, syscall.
  now destruct (FS.rmtree (Path.resolve cwd d) out).
Qed.

Lemma settles_scan_dir (root dirname : string) (es : entries)
    (recurse : G Category unit) :
  settles recurse -> settles (scan_dir cwd root dirname es recurse).
Proof.
  intros Hrec. unfold scan_dir.
  destruct (notebooks_of cwd (Path.join root dirname) es); [exact Hrec |].
  destruct (has_entry "requirements.txt" es); cbn [negb];
    [| apply settles_nil; reflexivity].
  apply settles_bind.
  - apply settles_nil. apply remove_stale_yields_nothing.
  - intros _. apply settles_bind.
    + apply settles_nil. apply remove_stale_yields_nothing.
    + intros _ out. repeat constructor. intros cs H. exact H.
    + intros _ out cs H. exact H.
  - intros _. apply creates_nothing_bind; [apply creates_nothing_remove_stale |].
    intros _ out cs H. exact H.
Qed.

Lemma settles_build_categories_in (n : node) (start : string) :
  settles (build_categories_in cwd start n).
Proof.
  revert start. induction n as [content|es IH] using node_entries_ind; intros start;
    cbn [build_categories_in].
  - apply settles_nil. reflexivity.
  - rewrite Forall_forall in IH.
    assert (Hc : forall e, In e es ->
              creates_nothing
                (match snd e with
                 | File _ => gret tt
                 | Dir _ => build_categories_in cwd (Path.join start (fst e)) (snd e)
                 end)).
    { intros [d child] Hin. cbn [fst snd].
      destruct child as [content|es_d]; [apply creates_nothing_ret |].
      apply creates_nothing_build_categories_in. }
    apply settles_bind.
    + apply settles_for; intros [d child] Hin; cbn [fst snd];
        specialize (IH _ Hin); cbn [snd] in IH;
        destruct child as [content|es_d];
        try (apply settles_nil; reflexivity); try apply creates_nothing_ret.
      * apply settles_scan_dir, IH.
      * apply creates_nothing_scan_dir, creates_nothing_build_categories_in.
    + intros _. apply settles_for; [| exact Hc].
      intros [d child] Hin. cbn [fst snd]. specialize (IH _ Hin). cbn [snd] in IH.
      destruct child as [content|es_d]; [apply settles_nil; reflexivity | apply IH].
    + intros _. now apply creates_nothing_for.
Qed.

(** The body of the scan, for a directory with notebooks, yields the
    category of the directory, unless it ends with an exception. *)
Lemma scan_dir_yields_category (start d : string) (es : entries)
    (recurse : G Category unit) (out : node) :
  has_notebooks es = true ->
  raised (scan_dir cwd start d es recurse out) = None ->
  yielded (scan_dir cwd start d es recurse out) = [category_of cwd start [d] es].
Proof.
  intros Hnb. unfold scan_dir.
  destruct (notebooks_of cwd (Path.join start d) es) as [|nb nbs] eqn:N.
  - apply (notebooks_of_nil cwd) in N. congruence.
  - destruct (has_entry "requirements.txt" es); cbn [negb]; [| discriminate].
    unfold gbind.
    destruct (remove_stale_run cwd (Path.join BUILD_BASE_DIR d) out)
      as (r1 & out1 & E1 & _).
    rewrite E1. destruct r1 as [e|[]]; [discriminate |].
    destruct (remove_stale_run cwd (Path.join ARTIFACT_DEST_DIR d) out1)
      as (r2 & out2 & E2 & _).
    rewrite E2. destruct r2 as [e|[]]; [discriminate |].
    intros _. unfold yielded, category_of. cbn [fst snd map app gyield fold_left last].
    now rewrite N.
Qed.

(** A scan that ends without an exception has yielded the category of
    every directory with notebooks right below its start. *)
Lemma children_yielded (start : string) (es : entries) (d : string) (es_d : entries)
    (out : node) :
  In (d, Dir es_d) es -> has_notebooks es_d = true ->
  raised (build_categories_in cwd start (Dir es) out) = None ->
  In (category_of cwd start [d] es_d)
     (yielded (build_categories_in cwd start (Dir es) out)).
Proof.
  intros Hin Hnb. cbn [build_categories_in]. intros Hok.
  destruct (gbind_ok_inv _ _ out Hok) as (ys & [] & out1 & E & _ & Hy & _).
  rewrite Hy. apply in_or_app. left.
  assert (Hlevel : raised (gfor (fun e =>
                                   match snd e with
                                   | File _ => gret tt
                                   | Dir es_d0 =>
                                       scan_dir cwd start (fst e) es_d0
                                         (build_categories_in cwd
                                            (Path.join start (fst e)) (snd e))
                                   end) es out) = None)
    by (unfold raised; now rewrite E).
  assert (Hys : map fst ys
                = yielded (gfor (fun e =>
                                   match snd e with
                                   | File _ => gret tt
                                   | Dir es_d0 =>
                                       scan_dir cwd start (fst e) es_d0
                                         (build_categories_in cwd
                                            (Path.join start (fst e)) (snd e))
                                   end) es out))
    by (unfold yielded; now rewrite E).
  rewrite Hys. clear E Hy Hys Hok ys out1.
  revert out Hlevel. induction es as [|e es IH]; intros out Hlevel; [contradiction |].
  cbn [gfor] in *.
  destruct (gbind_ok_inv _ _ out Hlevel) as (ys & [] & out1 & E & Hok' & Hy & _).
  rewrite Hy. apply in_or_app. destruct Hin as [->|Hin].
  - left. cbn [fst snd] in E.
    pose proof (scan_dir_yields_category start d es_d
                  (build_categories_in cwd (Path.join start d) (Dir es_d)) out Hnb) as H.
    unfold raised, yielded in H. rewrite E in H. cbn [fst snd] in H.
    rewrite (H eq_refl). now left.
  - right. now apply (IH Hin out1).
Qed.

(** The body of the scan, for a directory with notebooks and
    [requirements.txt] whose two directories are there from an earlier
    run: both are removed, nothing else is, and the category is
    yielded. *)
Lemma scan_dir_removes_stale (root d : string) (es : entries)
    (recurse : G Category unit) (out : node) (bs arts : entries) :
  valid_name d = true ->
  has_notebooks es = true -> has_entry "requirements.txt" es = true ->
  FS.lookup ["tmp"; "nbcollection-ci-build-base-dir"; d] out = Some (Dir bs) ->
  FS.lookup ["tmp"; "artifacts"; d] out = Some (Dir arts) ->
  let out' := FS.remove ["tmp"; "artifacts"; d]
                (FS.remove ["tmp"; "nbcollection-ci-build-base-dir"; d] out) in
  scan_dir cwd root d es recurse out
  = ([(category_of cwd root [d] es, out')], inr tt, out').
Proof.
  intros Hv Hnb Hreq Lb La out'. unfold scan_dir.
  destruct (notebooks_of cwd (Path.join root d) es) as [|nb nbs] eqn:N.
  - apply (notebooks_of_nil cwd) in N. congruence.
  - rewrite Hreq. cbn [negb].
    assert (Rb : Path.resolve cwd (Path.join BUILD_BASE_DIR d)
                 = ["tmp"; "nbcollection-ci-build-base-dir"; d])
      by now rewrite resolve_join.
    assert (Ra : Path.resolve cwd (Path.join ARTIFACT_DEST_DIR d)
                 = ["tmp"; "artifacts"; d])
      by now rewrite resolve_join.
    assert (E1 : @remove_stale cwd Category (Path.join BUILD_BASE_DIR d) out
                 = ([], inr tt,
                    FS.remove ["tmp"; "nbcollection-ci-build-base-dir"; d] out)).
    { rewrite <- Rb. apply remove_stale_dir with bs; rewrite Rb;
        [discriminate | exact Lb]. }
    assert (La1 : FS.lookup ["tmp"; "artifacts"; d]
                    (FS.remove ["tmp"; "nbcollection-ci-build-base-dir"; d] out)
                  = Some (Dir arts)).
    { destruct (only_below_frame ["tmp"; "nbcollection-ci-build-base-dir"; d]
                  ["tmp"; "artifacts"; d] out _ (only_below_remove _ _) eq_refl)
        as [-> _].
      exact La. }
    assert (E2 : @remove_stale cwd Category (Path.join ARTIFACT_DEST_DIR d)
                   (FS.remove ["tmp"; "nbcollection-ci-build-base-dir"; d] out)
                 = ([], inr tt, out')).
    { unfold out'. rewrite <- Ra. apply remove_stale_dir with arts; rewrite Ra;
        [discriminate | exact La1]. }
    rewrite (gbind_run_ok _ _ out [] tt _ E1).
    rewrite (gbind_run_ok _ _ _ [] tt out' E2).
    unfold category_of. cbn [fold_left last gyield fst snd app]. now rewrite N.
Qed.

End Settles.

(** C8: at every yield of the scan, the build directory of the category,
    under the build base, and its artifact directory, under the
    artifact root, both named after the category, do not exist; they
    are not there at the end of the scan either, whatever was there
    before it; a scan that ends without an exception has yielded
    the category of every directory with notebooks right below its
    start, so what was left there of an earlier run is gone; and the
    body of the scan, for a directory with notebooks and
    [requirements.txt] whose two directories are there from an earlier
    run, removes the two, and nothing else, and then yields the
    category. *)
Theorem stale_dirs_gone_at_yield (cwd : string) (src : node) (start_path : string)
    (out : node) :
  let scan := build_categories cwd src start_path out in
  Forall (fun y =>
            build_dir (fst y) = Path.join BUILD_BASE_DIR (cat_name (fst y))
            /\ artifact_dir (fst y) = Path.join ARTIFACT_DEST_DIR (cat_name (fst y))
            /\ clean_at_yield cwd y)
         (fst (fst scan))
  /\ Forall (fun c =>
               FS.exists_ (Path.resolve cwd (build_dir c)) (left_ scan) = false
               /\ FS.exists_ (Path.resolve cwd (artifact_dir c)) (left_ scan) = false)
       (yielded scan)
  /\ (forall es d es_d,
        FS.lookup (Path.resolve cwd start_path) src = Some (Dir es) ->
        has_magic start_path = false -> plain_tree (Dir es) = true ->
        no_dotdot cwd = true -> no_dotdot start_path = true ->
        In (d, Dir es_d) es -> has_notebooks es_d = true ->
        raised scan = None ->
        In (mkCategory d (notebooks_of cwd (Path.join start_path d) es_d)
              (Path.join start_path d) (Path.join BUILD_BASE_DIR d)
              (Path.join ARTIFACT_DEST_DIR d))
           (yielded scan))
  /\ (forall root d es recurse o bs arts,
        valid_name d = true -> has_magic (Path.join root d) = false ->
        has_notebooks es = true -> has_entry "requirements.txt" es = true ->
        FS.lookup ["tmp"; "nbcollection-ci-build-base-dir"; d] o = Some (Dir bs) ->
        FS.lookup ["tmp"; "artifacts"; d] o = Some (Dir arts) ->
        let o' := FS.remove ["tmp"; "artifacts"; d]
                    (FS.remove ["tmp"; "nbcollection-ci-build-base-dir"; d] o) in
        scan_dir cwd root d es recurse o
        = ([(mkCategory d (notebooks_of cwd (Path.join root d) es) (Path.join root d)
               (Path.join BUILD_BASE_DIR d) (Path.join ARTIFACT_DEST_DIR d), o')],
           inr tt, o')).
Proof.
  intros scan.
  assert (H1 : Forall (fun y =>
                 build_dir (fst y) = Path.join BUILD_BASE_DIR (cat_name (fst y))
                 /\ artifact_dir (fst y) = Path.join ARTIFACT_DEST_DIR (cat_name (fst y))
                 /\ clean_at_yield cwd y)
                (fst (fst scan))).
  { unfold scan, build_categories.
    destruct (FS.lookup (Path.resolve cwd start_path) src) as [n|]; [| constructor].
    revert out scan. revert n start_path.
    apply (build_categories_in_yields cwd (fun _ _ y => _)).
    - intros start es d child y _ H. exact H.
    - intros start es d es_d out _ _ _ H. simpl. auto. }
  split; [exact H1 |]. split.
  - assert (H2 : Forall (fun y => forall cs, FS.exists_ cs (snd y) = false ->
                                    FS.exists_ cs (left_ scan) = false)
                   (fst (fst scan))).
    { unfold scan, build_categories.
      destruct (FS.lookup (Path.resolve cwd start_path) src) as [n|]; [| constructor].
      apply (settles_build_categories_in cwd n start_path out). }
    unfold yielded. apply Forall_map.
    rewrite Forall_forall in *. intros y Hy.
    destruct (H1 y Hy) as (_ & _ & Hb & Ha).
    split; now apply (H2 y Hy).
  - split.
    + intros es d es_d L _ _ _ _ Hin Hnb. unfold scan, build_categories. rewrite L.
      exact (children_yielded cwd start_path es d es_d out Hin Hnb).
    + intros root d es recurse o bs arts Hv _ Hnb Hreq Lb La.
      exact (scan_dir_removes_stale cwd root d es recurse o bs arts Hv Hnb Hreq Lb La).
Qed.

Lemma stale_dirs_gone_at_yield_witness :
  FS.exists_ ["tmp"; "nbcollection-ci-build-base-dir"; "catX"] stale_output = true
  /\ FS.exists_ ["tmp"; "artifacts"; "catX"] stale_output = true
  /\ In catX (yielded (build_categories "/repo" checkout_catX "/repo/jdat_notebooks"
                         stale_output))
  /\ FS.exists_ ["tmp"; "nbcollection-ci-build-base-dir"; "catX"]
       (left_ (build_categories "/repo" checkout_catX "/repo/jdat_notebooks"
                 stale_output)) = false
  /\ FS.exists_ ["tmp"; "artifacts"; "catX"]
       (left_ (build_categories "/repo" checkout_catX "/repo/jdat_notebooks"
                 stale_output)) = false.
Proof.
  destruct (stale_dirs_gone_at_yield "/repo" checkout_catX "/repo/jdat_notebooks"
              stale_output) as (_ & Hend & Hyield & _).
  assert (Hin : In catX (yielded (build_categories "/repo" checkout_catX
                                    "/repo/jdat_notebooks" stale_output))).
  { apply (Hyield
             [("catX", Dir [("nb1.ipynb", File "{1}"); ("nb2.ipynb", File "{2}");
                            ("requirements.txt", File "numpy");
                            ("environment.sh", File "export A=1");
                            ("README.md", File "notes")])]
             "catX"
             [("nb1.ipynb", File "{1}"); ("nb2.ipynb", File "{2}");
              ("requirements.txt", File "numpy");
              ("environment.sh", File "export A=1");
              ("README.md", File "notes")]);
      try reflexivity.
    left. reflexivity. }
  split; [reflexivity |]. split; [reflexivity |]. split; [exact Hin |].
  rewrite Forall_forall in Hend. exact (Hend catX Hin).
Defined.

(** ** One job for each category *)

Section JobsLoop.

Context {Y Z : Type}.
Variables (cwd : string) (src : node).

(** What is watched of a run, and what the body of the loop gives for
    a job when it ends without an exception; when it does not, it gave
    the first part of that. *)
Variable view : list (Y * node) -> list Z.
Variable body : BuildJob -> G Y unit.
Variable given : BuildJob -> list Z.

Hypothesis view_nil : view [] = [].
Hypothesis view_app : forall a b, view (a ++ b) = (view a ++ view b)%list.
Hypothesis body_ok :
  forall job out,
    exists rest,
      given job = (view (fst (fst (body job out))) ++ rest)%list
      /\ (raised (body job out) = None -> rest = []).

Lemma build_job_result (coll : string) (c : Category) (out : node) (job : BuildJob) :
  snd (fst (@build_job cwd src Y coll c out)) = inr job -> job = job_of c.
Proof.
  unfold build_job, gbind.
  destruct (setup_build_env cwd src c out) as [[ys [e|u]] o1]; [discriminate |].
  destruct (gfor _ (notebooks c) o1) as [[ys' [e|u']] o2]; [discriminate |].
  cbn [fst snd gret]. intros H. inversion H. reflexivity.
Qed.



End JobsLoop.

Lemma flat_map_singleton {A B : Type} (f : A -> B) (l : list A) :
  flat_map (fun x => [f x]) l = map f l.
Proof. induction l as [|x l IH]; simpl; [reflexivity | now rewrite IH]. Qed.

Section JobsYielded.

Variables (cwd : string) (src : node).

Lemma state_after_cons {Y : Type} (y : Y) (o : node) (ys : list (Y * node))
    (start : node) :
  state_after ((y, o) :: ys) start = state_after ys o.
Proof.
  unfold state_after. cbn [map snd]. generalize (map snd ys). intros l.
  revert o start. induction l as [|a l IH]; intros o start; [reflexivity |].
  change (last (o :: a :: l) start) with (last (a :: l) start).
  now rewrite (IH a start), (IH a o).
Qed.

(** The loop of [find_build_jobs] over the categories: the jobs of the
    categories before the first one that cannot be made into a job from
    the directories as the job before it left them, and the exception
    of that one. *)
Lemma jobs_yielded_run (coll : string) (cats : list Category) (out : node) :
  let loop :=
    gfor (fun category =>
            job <- @build_job cwd src BuildJob coll category ;; gyield job) cats in
  exists k,
    k <= List.length cats
    /\ yielded (loop out) = map job_of (firstn k cats)
    /\ match nth_error cats k with
       | None => raised (loop out) = None
       | Some c =>
           raised (loop out)
           = raised (@build_job cwd src BuildJob coll c
                       (state_after (fst (fst (loop out))) out))
           /\ raised (loop out) <> None
       end.
Proof.
  revert out. induction cats as [|c cats IH]; intros out loop.
  - exists 0. split; [reflexivity |]. split; reflexivity.
  - unfold loop. cbn [gfor].
    pose proof (silent_build_job (Y := BuildJob) cwd src coll c out) as Hsil.
    pose proof (build_job_result (Y := BuildJob) cwd src coll c out) as Hres.
    destruct (build_job cwd src coll c out) as [[ys [e|job]] o1] eqn:E;
      cbn [fst snd] in Hsil, Hres; subst ys.
    + exists 0. rewrite (gbind_run_raise _ _ out [] e o1) by now apply gbind_run_raise.
      split; [apply Nat.le_0_l |]. split; [reflexivity |].
      cbn [nth_error fst snd]. unfold state_after. cbn [map last].
      rewrite E. unfold raised. cbn [fst snd]. split; [reflexivity | discriminate].
    + rewrite (Hres job eq_refl) in E.
      rewrite (gbind_run_ok _ _ out [(job_of c, o1)] tt o1)
        by (rewrite (gbind_run_ok _ _ out [] (job_of c) o1 E); reflexivity).
      cbv beta.
      destruct (IH o1) as (k & Hk & Hy & Hn). cbv zeta in Hy, Hn.
      exists (S k). split; [cbn [List.length]; now apply le_n_S |].
      destruct (gfor _ cats o1) as [[ys' r] o2].
      unfold yielded, raised in *. cbn [fst snd] in *.
      split; [cbn [map app firstn fst]; now rewrite Hy |].
      cbn [nth_error app]. now rewrite state_after_cons.
Qed.

End JobsYielded.

(** X9: when the scan ends with an exception, so does
    [find_build_jobs], with no job; otherwise it yields, in the order
    of the scan, the jobs of the categories before the first one that
    cannot be made into a job, from the directories as the job before
    it left them, and ends with the exception of that one; when every
    category can be made into a job, it yields the jobs of all of them
    and ends without an exception. *)
Theorem find_build_jobs_follows_scan (cwd : string) (src : node) (out : node) :
  let scan := build_categories cwd src (Path.join cwd "jdat_notebooks") out in
  let cats := yielded scan in
  let run := find_build_jobs cwd src out in
  match raised scan with
  | Some e => run = ([], inl e, left_ scan)
  | None =>
      exists k,
        k <= List.length cats
        /\ yielded run = map job_of (firstn k cats)
        /\ match nth_error cats k with
           | None => raised run = None
           | Some c =>
               raised run
               = raised (@build_job cwd src BuildJob "jdat_notebooks" c
                           (state_after (fst (fst run)) (left_ scan)))
               /\ raised run <> None
           end
  end.
Proof.
  intros scan cats run. unfold run, find_build_jobs, for_find_build_jobs,
    for_build_collections, collection_names. cbn [gfor].
  unfold cats, scan, yielded, raised, left_.
  destruct (build_categories cwd src (Path.join cwd "jdat_notebooks") out)
    as [[ys [e|[]]] out1] eqn:E; cbn [fst snd].
  - apply gbind_run_raise. apply gbind_run_raise. unfold collect. now rewrite E.
  - destruct (jobs_yielded_run cwd src "jdat_notebooks" (map fst ys) out1)
      as (k & Hk & Hy & Hn).
    cbv zeta in Hy, Hn. exists k. split; [exact Hk |].
    assert (Ec : @collect Category BuildJob
                   (build_categories cwd src (Path.join cwd "jdat_notebooks")) out
                 = ([], inr (map fst ys), out1))
      by (unfold collect; now rewrite E).
    destruct (gfor _ (map fst ys) out1) as [[ys1 r] o2] eqn:El.
    unfold yielded, raised in Hy, Hn. cbn [fst snd] in Hy, Hn.
    destruct r as [e|[]].
    + rewrite (gbind_run_raise _ _ out ys1 e o2)
        by (rewrite (gbind_run_ok _ _ out [] (map fst ys) out1 Ec);
            cbn [col_name categories]; now rewrite El).
      cbn [fst snd]. split; [exact Hy | exact Hn].
    + rewrite (gbind_run_ok _ _ out ys1 tt o2)
        by (rewrite (gbind_run_ok _ _ out [] (map fst ys) out1 Ec);
            cbn [col_name categories]; now rewrite El).
      cbn [fst snd gret]. rewrite app_nil_r. split; [exact Hy | exact Hn].
Qed.

Lemma find_build_jobs_follows_scan_witness :
  yielded (find_build_jobs "/repo" checkout_catX fresh_output) = [job_of catX]
  /\ raised (find_build_jobs "/repo" checkout_grouped fresh_output)
     = raised (@build_job "/repo" checkout_grouped BuildJob "jdat_notebooks"
                 (mkCategory "c" [mkNotebook "n" "n.ipynb" "jdat_notebooks/g/c/n.ipynb"]
                    "/repo/jdat_notebooks/g/c" "/tmp/nbcollection-ci-build-base-dir/c"
                    "/tmp/artifacts/c")
                 (state_after
                    (fst (fst (find_build_jobs "/repo" checkout_grouped fresh_output)))
                    fresh_output)).
Proof.
  split.
  - pose proof (find_build_jobs_follows_scan "/repo" checkout_catX fresh_output) as H.
    cbv zeta in H.
    assert (Hs : raised (build_categories "/repo" checkout_catX
                           (Path.join "/repo" "jdat_notebooks") fresh_output) = None)
      by (vm_compute; reflexivity).
    rewrite Hs in H. destruct H as (k & Hk & Hy & Hn).
    assert (Hc : yielded (build_categories "/repo" checkout_catX
                            (Path.join "/repo" "jdat_notebooks") fresh_output) = [catX])
      by (vm_compute; reflexivity).
    rewrite Hc in Hk, Hy, Hn.
    destruct k as [|k].
    + cbn [nth_error] in Hn. destruct Hn as [_ Hn]. elim Hn. vm_compute. reflexivity.
    + rewrite Hy. destruct k; reflexivity.
  - vm_compute. reflexivity.
Defined.

(** X11: when the scan ends with an exception, the driver stops with
    that exception before any build directory is made and before any
    script is run, also for the categories the scan had yielded. *)
Theorem scan_error_stops_the_run
    (cwd : string) (src : node) (shell : list string -> node -> Process * node)
    (debugger : string -> node -> bool) (out : node) (e : exn) :
  let scan := build_categories cwd src (Path.join cwd "jdat_notebooks") out in
  raised scan = Some e ->
  main cwd src shell debugger out = ([], inl e, left_ scan).
Proof.
  intros scan H. unfold main, for_find_build_jobs, for_build_collections,
    collection_names. cbn [gfor]. unfold gbind at 1 2, collect. fold scan.
  unfold raised, left_ in *.
  destruct scan as [[ys [e'|[]]] out1]; cbn [fst snd] in *; [| discriminate H].
  now injection H as ->.
Qed.

Lemma scan_error_stops_the_run_witness :
  yielded (build_categories "/repo" checkout_without_requirements
             "/repo/jdat_notebooks" fresh_output) <> []
  /\ yielded (main "/repo" checkout_without_requirements (shell_exiting 0)
                  (fun _ _ => true) fresh_output)
     = []
  /\ left_ (main "/repo" checkout_without_requirements (shell_exiting 0)
                  (fun _ _ => true) fresh_output)
     = fresh_output.
Proof.
  split; [vm_compute; discriminate |].
  rewrite (scan_error_stops_the_run "/repo" checkout_without_requirements
             (shell_exiting 0) (fun _ _ => true) fresh_output
             (NotImplementedError
                "Category missing Requirements File[jdat_notebooks/a/requirements.txt]"));
    [| vm_compute; reflexivity].
  split; [reflexivity | vm_compute; reflexivity].
Defined.

(** ** What the driver logs *)

Section Logging.

Variables (delay : list string -> nat) (code : list string -> Z)
  (effect : list string -> node -> node) (resumes : string -> bool).

Lemma logged_app (a b : list event) : logged (a ++ b) = (logged a ++ logged b)%list.
Proof. unfold logged. apply flat_map_app. Qed.

Lemma breakpoints_app (a b : list event) :
  breakpoints (a ++ b) = breakpoints a + breakpoints b.
Proof. unfold breakpoints. now rewrite filter_app, length_app. Qed.

Lemma sleeps_quiet (n : nat) (out : node) :
  logged (map fst (repeat (Sleep, out) n)) = []
  /\ breakpoints (map fst (repeat (Sleep, out) n)) = 0.
Proof. induction n; simpl; [split; reflexivity | exact IHn]. Qed.

Lemma run_script_logged (script : string) (out : node) :
  let run := run_script (shell_of delay code effect) (fun s _ => resumes s) script out in
  logged (yielded run)
  = (if fails code script then [("Unable to build " ++ script)%string] else [])
  /\ breakpoints (yielded run) = (if fails code script then 1 else 0)
  /\ raised run
     = (if (fails code script && negb (resumes script))%bool then Some BdbQuit else None).
Proof.
  unfold run_script, fails, not_skipped.
  destruct (existsb (String.eqb (Path.basename script)) pass_names);
    [repeat split; reflexivity |].
  cbn [negb andb]. unfold gtry. rewrite build_artifact_run. cbv zeta.
  unfold shell_of. cbn [fst snd pending returncode].
  destruct (sleeps_quiet (delay ["bash " ++ script]%string)
              (effect ["bash " ++ script]%string out)) as [Hl Hb].
  destruct (code ["bash " ++ script]%string >? 0)%Z.
  - unfold pdb_set_trace, yielded, raised, gbind, gyield, gret, graise.
    destruct (resumes script); cbn [fst snd map app negb];
      change (Popen ["bash " ++ script]%string
              :: map fst (repeat (Sleep, effect ["bash " ++ script]%string out)
                            (delay ["bash " ++ script]%string)
                          ++ [(LogError ("Unable to build " ++ script),
                               effect ["bash " ++ script]%string out);
                              (SetTrace, effect ["bash " ++ script]%string out)])%list)
        with ([Popen ["bash " ++ script]%string]
              ++ map fst (repeat (Sleep, effect ["bash " ++ script]%string out)
                            (delay ["bash " ++ script]%string)
                          ++ [(LogError ("Unable to build " ++ script),
                               effect ["bash " ++ script]%string out);
                              (SetTrace, effect ["bash " ++ script]%string out)]))%list;
      rewrite map_app, !logged_app, !breakpoints_app, Hl, Hb; repeat split; reflexivity.
  - unfold yielded, raised. cbn [fst snd map].
    change (Popen ["bash " ++ script]%string
            :: map fst (repeat (Sleep, effect ["bash " ++ script]%string out)
                          (delay ["bash " ++ script]%string)))
      with ([Popen ["bash " ++ script]%string]
            ++ map fst (repeat (Sleep, effect ["bash " ++ script]%string out)
                          (delay ["bash " ++ script]%string)))%list.
    rewrite logged_app, breakpoints_app, Hl, Hb. repeat split; reflexivity.
Qed.

End Logging.

(** X12: over the scripts of a job, the driver logs [Unable to build
    <script>], and enters the debugger once, for the scripts that it
    runs and that end with a positive code, in their order, up to the
    first of them after which the debugger is quit; there the loop ends
    with [BdbQuit], and without one it ends without an exception.  A
    script that ends with zero or with a negative code is not logged. *)
Theorem driver_logs_failing_scripts
    (delay : list string -> nat) (code : list string -> Z)
    (effect : list string -> node -> node) (resumes : string -> bool)
    (scripts : list string) (out : node) :
  let run := gfor (run_script (shell_of delay code effect) (fun s _ => resumes s))
               scripts out in
  let failing := filter (fails code) scripts in
  logged (yielded run)
  = map (fun script => ("Unable to build " ++ script)%string) (until_quit resumes failing)
  /\ breakpoints (yielded run) = List.length (until_quit resumes failing)
  /\ raised run = (if forallb resumes failing then None else Some BdbQuit).
Proof.
  revert out. induction scripts as [|script scripts IH]; intros out;
    [repeat split; reflexivity |].
  cbv zeta. cbn [gfor filter].
  destruct (run_script_logged delay code effect resumes script out) as (Hl & Hb & Hr).
  cbv zeta in Hl, Hb, Hr. unfold yielded, raised in *. unfold gbind.
  destruct (run_script (shell_of delay code effect) (fun s _ => resumes s) script out)
    as [[ys r] out1].
  cbn [fst snd] in *.
  destruct (fails code script); cbn [andb] in Hr.
  - cbn [until_quit forallb map List.length]. destruct (resumes script); cbn [negb andb] in *.
    + destruct r as [e|[]]; [discriminate Hr |].
      destruct (IH out1) as (Hl' & Hb' & Hr'). cbv zeta in Hl', Hb', Hr'.
      unfold yielded, raised in *.
      destruct (gfor _ scripts out1) as [[ys' r'] out2]. cbn [fst snd] in *.
      rewrite map_app, logged_app, breakpoints_app, Hl, Hb, Hl', Hb'.
      repeat split; [exact Hr'].
    + destruct r as [e|[]]; [| discriminate Hr]. cbn [fst snd].
      rewrite Hl, Hb. injection Hr as ->. repeat split; reflexivity.
  - destruct r as [e|[]]; [discriminate Hr |].
    destruct (IH out1) as (Hl' & Hb' & Hr'). cbv zeta in Hl', Hb', Hr'.
    unfold yielded, raised in *.
    destruct (gfor _ scripts out1) as [[ys' r'] out2]. cbn [fst snd] in *.
    rewrite map_app, logged_app, breakpoints_app, Hl, Hb, Hl', Hb'.
    repeat split; [exact Hr'].
Qed.

(** ** The scripts the driver starts *)





(** ** The paths of the notebooks *)

Section RelativePaths.

Variable cwd : string.

Lemma normalize_app_valid (l names : list string) :
  Forall (fun x => valid_name x = true) names ->
  Path.normalize (l ++ names) = (Path.normalize l ++ names)%list.
Proof.
  intros H. revert l. induction H as [|x names Hx _ IH]; intros l.
  - now rewrite !app_nil_r.
  - change (x :: names) with ([x] ++ names)%list.
    rewrite !app_assoc, IH, normalize_snoc, (step_valid _ _ Hx). reflexivity.
Qed.

Lemma common_prefix_length_app (a b : list string) :
  Path.common_prefix_length a (a ++ b) = List.length a.
Proof.
  induction a as [|x a IH]; [now destruct b |].
  simpl. now rewrite String.eqb_refl, IH.
Qed.

Lemma skipn_length_app {A : Type} (a b : list A) : skipn (List.length a) (a ++ b) = b.
Proof. induction a as [|x a IH]; [reflexivity | exact IH]. Qed.

Lemma split_join_names (names : list string) :
  names <> [] -> Forall (fun x => valid_name x = true) names ->
  Str.split Str.slash (Str.join "/" names) = names.
Proof.
  intros Hne H. induction H as [|x names Hx Hrest IH]; [congruence |].
  destruct (valid_name_spec x Hx) as (Hs & _).
  destruct names as [|y names].
  - cbn [Str.join]. now apply split_one.
  - change (Str.join "/" (x :: y :: names))
      with (x ++ String Str.slash (Str.join "/" (y :: names)))%string.
    rewrite split_append, (split_one _ _ Hs), IH; [reflexivity | discriminate].
Qed.

Lemma startswith_join_names (x : string) (names : list string) :
  valid_name x = true -> Str.startswith Path.sep (Str.join "/" (x :: names)) = false.
Proof.
  intros Hx. destruct (valid_name_spec x Hx) as (Hs & Hne & _).
  pose proof (startswith_sep x Hs) as H.
  destruct names as [|y names]; [exact H |].
  change (Str.join "/" (x :: y :: names))
    with (x ++ ("/" ++ Str.join "/" (y :: names)))%string.
  now rewrite startswith_sep_append.
Qed.

Lemma resolve_fold_join (p : string) (names : list string) :
  Forall (fun x => valid_name x = true) names ->
  Path.resolve cwd (fold_left Path.join names p) = (Path.resolve cwd p ++ names)%list.
Proof.
  intros H. revert p. induction H as [|x names Hx _ IH]; intros p.
  - now rewrite app_nil_r.
  - cbn [fold_left]. rewrite IH, (resolve_join cwd p x Hx), <- app_assoc. reflexivity.
Qed.

Hypothesis cwd_absolute : Str.startswith Path.sep cwd = true.

Lemma resolve_cwd : Path.resolve cwd cwd = Path.normalize (Str.split Str.slash cwd).
Proof. unfold Path.resolve. now rewrite cwd_absolute. Qed.

Lemma resolve_root_cwd : Path.resolve "/" cwd = Path.normalize (Str.split Str.slash cwd).
Proof. unfold Path.resolve. now rewrite cwd_absolute. Qed.

(** The path of a file below the working directory, seen from the
    working directory, is the names that lead to it, and it leads back
    to the file. *)
Lemma relpath_below_cwd (p : string) (names : list string) :
  names <> [] -> Forall (fun x => valid_name x = true) names ->
  Path.resolve cwd p = (Path.resolve cwd cwd ++ names)%list ->
  Path.relpath cwd p = Str.join "/" names
  /\ Path.resolve cwd (Str.join "/" names) = Path.resolve cwd p.
Proof.
  intros Hne Hv Hp. split.
  - unfold Path.relpath. rewrite Hp, resolve_root_cwd, resolve_cwd.
    rewrite common_prefix_length_app, Nat.sub_diag, skipn_length_app.
    cbn [repeat app]. destruct names; [congruence | reflexivity].
  - rewrite Hp, resolve_cwd. unfold Path.resolve.
    destruct names as [|x names]; [congruence |].
    inversion Hv as [|? ? Hx Hv']; subst.
    rewrite (startswith_join_names x names Hx), (split_join_names _ Hne Hv).
    now apply normalize_app_valid.
Qed.

Lemma subdir_lookup (n : node) (names : list string) (es : entries) :
  wf_tree n = true -> subdir n names es -> FS.lookup names n = Some (Dir es).
Proof.
  intros Hw H. induction H as [es0 name es_d Hin | es0 name child names es_d Hin Hsub IH].
  - cbn [FS.lookup]. rewrite (find_NoDup name (Dir es_d) es0); [reflexivity | | exact Hin].
    simpl in Hw. apply andb_true_iff in Hw as [_ Hw]. now apply nodupb_NoDup.
  - cbn [FS.lookup]. rewrite (find_NoDup name child es0); [| | exact Hin].
    + apply IH. now apply (wf_tree_entry es0 name child Hw Hin).
    + simpl in Hw. apply andb_true_iff in Hw as [_ Hw]. now apply nodupb_NoDup.
Qed.

Lemma subdir_valid_names (n : node) (names : list string) (es : entries) :
  wf_tree n = true -> subdir n names es ->
  Forall (fun x => valid_name x = true) names /\ wf_tree (Dir es) = true.
Proof.
  intros Hw H. induction H as [es0 name es_d Hin | es0 name child names es_d Hin Hsub IH].
  - destruct (wf_tree_entry es0 name (Dir es_d) Hw Hin) as [Hv Hd].
    split; [now constructor | exact Hd].
  - destruct (wf_tree_entry es0 name child Hw Hin) as [Hv Hc].
    destruct (IH Hc) as [H1 H2]. split; [now constructor | exact H2].
Qed.

End RelativePaths.

(** The path recorded for a notebook leads to the notebook. *)
Lemma notebooks_of_resolve
    (cwd coll : string) (src n : node) (names : list string) (es : entries) :
  Str.startswith Path.sep cwd = true ->
  valid_name coll = true ->
  FS.lookup (Path.resolve cwd (Path.join cwd coll)) src = Some n ->
  wf_tree n = true ->
  subdir n names es ->
  Forall (fun nb =>
            filepath nb = Str.join "/" (coll :: names ++ [filename nb])
            /\ exists x, In (filename nb, x) es
                 /\ FS.lookup (Path.resolve cwd (filepath nb)) src = Some x)
    (notebooks_of cwd (fold_left Path.join names (Path.join cwd coll)) es).
Proof.
  intros Habs Hcoll Hn Hw Hsub.
  destruct (subdir_valid_names n names es Hw Hsub) as [Hnames Hes].
  pose proof (subdir_lookup n names es Hw Hsub) as Hl.
  apply Forall_forall. intros nb Hin.
  unfold notebooks_of, glob_ipynb in Hin. rewrite map_map in Hin.
  apply in_map_iff in Hin as ([fname x] & <- & Hin).
  apply filter_In in Hin as [Hin _]. cbn [fst] in *.
  destruct (wf_tree_entry es fname x Hes Hin) as [Hf _].
  cbn [filepath filename]. rewrite (basename_join _ fname Hf).
  assert (Hv : Forall (fun x => valid_name x = true) (coll :: names ++ [fname])).
  { constructor; [exact Hcoll |]. apply Forall_app. split; [exact Hnames |].
    now constructor. }
  assert (Hp : Path.resolve cwd (Path.join (fold_left Path.join names (Path.join cwd coll)) fname)
               = (Path.resolve cwd cwd ++ coll :: names ++ [fname])%list).
  { rewrite (resolve_join _ _ fname Hf), (resolve_fold_join cwd _ names Hnames),
      (resolve_join cwd cwd coll Hcoll), <- !app_assoc. reflexivity. }
  destruct (relpath_below_cwd cwd Habs _ (coll :: names ++ [fname])
              ltac:(discriminate) Hv Hp) as [Hrel Hback].
  rewrite Hrel. split; [reflexivity |]. exists x. split; [exact Hin |].
  rewrite Hback, Hp.
  rewrite (resolve_join cwd cwd coll Hcoll) in Hn.
  change (coll :: names ++ [fname])%list with ([coll] ++ (names ++ [fname]))%list.
  rewrite app_assoc, lookup_app, Hn, lookup_app, Hl.
  cbn [FS.lookup]. rewrite (find_NoDup fname x es); [reflexivity | | exact Hin].
  simpl in Hes. apply andb_true_iff in Hes as [_ Hes]. now apply nodupb_NoDup.
Qed.

(** X13: with an absolute working directory, the path the scan records
    for a notebook of a directory below a collection, when the path of
    the directory has no wildcard character, is
    [<collection>/<directories>/<file name>], and from the working
    directory it leads to that very entry of the directory. *)
Theorem notebook_paths_lead_to_notebooks
    (cwd coll : string) (src n : node) (names : list string) (es : entries) :
  Str.startswith Path.sep cwd = true ->
  no_dotdot cwd = true ->
  has_magic (fold_left Path.join names (Path.join cwd coll)) = false ->
  valid_name coll = true ->
  FS.lookup (Path.resolve cwd (Path.join cwd coll)) src = Some n ->
  wf_tree n = true ->
  subdir n names es ->
  Forall (fun nb =>
            filepath nb = Str.join "/" (coll :: names ++ [filename nb])
            /\ exists x, In (filename nb, x) es
                 /\ FS.lookup (Path.resolve cwd (filepath nb)) src = Some x)
    (notebooks_of cwd (fold_left Path.join names (Path.join cwd coll)) es).
Proof.
  intros Habs _ _ Hcoll Hn Hw Hsub.
  exact (notebooks_of_resolve cwd coll src n names es Habs Hcoll Hn Hw Hsub).
Qed.

Lemma notebook_paths_lead_to_notebooks_witness :
  Forall (fun nb =>
            filepath nb = Str.join "/" ("jdat_notebooks" :: ["catX"] ++ [filename nb])
            /\ exists x, In (filename nb, x)
                           [("nb1.ipynb", File "{1}"); ("nb2.ipynb", File "{2}");
                            ("requirements.txt", File "numpy");
                            ("environment.sh", File "export A=1");
                            ("README.md", File "notes")]
                 /\ FS.lookup (Path.resolve "/repo" (filepath nb)) checkout_catX = Some x)
    (notebooks_of "/repo" "/repo/jdat_notebooks/catX"
       [("nb1.ipynb", File "{1}"); ("nb2.ipynb", File "{2}");
        ("requirements.txt", File "numpy");
        ("environment.sh", File "export A=1");
        ("README.md", File "notes")]).
Proof.
  apply (notebook_paths_lead_to_notebooks "/repo" "jdat_notebooks" checkout_catX
           (Dir [("catX", Dir [("nb1.ipynb", File "{1}"); ("nb2.ipynb", File "{2}");
                               ("requirements.txt", File "numpy");
                               ("environment.sh", File "export A=1");
                               ("README.md", File "notes")])])
           ["catX"]).
  - reflexivity.
  - reflexivity.
  - reflexivity.
  - reflexivity.
  - reflexivity.
  - reflexivity.
  - apply subdir_child. left. reflexivity.
Defined.

(** ** A whole run on the layout of the repository *)

Section WholeRun.

Variable cwd : string.

Lemma creatable_lookup_none (cs : list string) (n : node) :
  creatable cs n = true -> FS.lookup cs n = None.
Proof.
  revert n. induction cs as [|c cs IH]; intros n H; [discriminate H |].
  destruct n as [content|es]; [discriminate H |].
  cbn [creatable] in H. cbn [FS.lookup].
  destruct (FS.find c es) as [x|]; [now apply IH | reflexivity].
Qed.

Lemma diverge_sibling (p : list string) (a b : string) :
  a <> b -> diverge (p ++ [a]) (p ++ [b]) = true.
Proof.
  intros Hne. induction p as [|c p IH]; simpl.
  - apply String.eqb_neq in Hne. now rewrite Hne.
  - now rewrite String.eqb_refl.
Qed.

(** With room for it, the stale directory is removed, or was not
    there, and the directory can be made. *)
Lemma remove_stale_room {Y : Type} (d : string) (out : node) :
  Path.resolve cwd d <> [] -> room_for (Path.resolve cwd d) out ->
  exists out',
    @remove_stale cwd Y d out = ([], inr tt, out')
    /\ creatable (Path.resolve cwd d) out' = true
    /\ forall cs, diverge cs (Path.resolve cwd d) = true ->
         FS.lookup cs out' = FS.lookup cs out /\ creatable cs out' = creatable cs out.
Proof.
  intros Hne [Hc|[es L]].
  - exists out. split; [| split; [exact Hc | now split]].
    unfold remove_stale, gbind, os_path_exists, FS.exists_.
    now rewrite (creatable_lookup_none _ _ Hc).
  - exists (FS.remove (Path.resolve cwd d) out).
    split; [now apply remove_stale_dir with es |]. split.
    + apply creatable_after_remove; [exact Hne |]. unfold FS.exists_. now rewrite L.
    + intros cs D. exact (only_below_frame _ cs out _ (only_below_remove _ _) D).
Qed.

Lemma resolve_build_dir (d : string) :
  valid_name d = true ->
  Path.resolve cwd (Path.join BUILD_BASE_DIR d)
  = ["tmp"; "nbcollection-ci-build-base-dir"; d].
Proof. intros Hv. now rewrite resolve_join. Qed.

Lemma resolve_artifact_dir (d : string) :
  valid_name d = true ->
  Path.resolve cwd (Path.join ARTIFACT_DEST_DIR d) = ["tmp"; "artifacts"; d].
Proof. intros Hv. now rewrite resolve_join. Qed.

(** The two directories of a name part from the two of another name. *)
Lemma dirs_apart (a b : string) :
  a <> b ->
  diverge ["tmp"; "nbcollection-ci-build-base-dir"; a]
          ["tmp"; "nbcollection-ci-build-base-dir"; b] = true
  /\ diverge ["tmp"; "nbcollection-ci-build-base-dir"; a] ["tmp"; "artifacts"; b] = true
  /\ diverge ["tmp"; "artifacts"; a] ["tmp"; "nbcollection-ci-build-base-dir"; b] = true
  /\ diverge ["tmp"; "artifacts"; a] ["tmp"; "artifacts"; b] = true.
Proof.
  intros Hne.
  pose proof (diverge_sibling ["tmp"; "nbcollection-ci-build-base-dir"] a b Hne) as H1.
  pose proof (diverge_sibling ["tmp"; "artifacts"] a b Hne) as H2.
  repeat split; [exact H1 | exact H2].
Qed.

Lemma scan_dir_ready (start d : string) (es : entries) (out : node) :
  valid_name d = true -> all_files es = true -> unbuildable es = false ->
  output_ready out ->
  exists ys out',
    scan_dir cwd start d es (build_categories_in cwd (Path.join start d) (Dir es)) out
    = (ys, inr tt, out')
    /\ map fst ys = (if has_notebooks es then [category_of cwd start [d] es] else [])
    /\ output_ready out'
    /\ (has_notebooks es = true ->
        creatable ["tmp"; "nbcollection-ci-build-base-dir"; d] out' = true
        /\ creatable ["tmp"; "artifacts"; d] out' = true)
    /\ forall cs, apart_from_names [d] cs ->
         FS.lookup cs out' = FS.lookup cs out /\ creatable cs out' = creatable cs out.
Proof.
  intros Hv Hall Hun Hready. unfold scan_dir.
  destruct (notebooks_of cwd (Path.join start d) es) as [|nb nbs] eqn:N.
  - apply (notebooks_of_nil cwd) in N. rewrite N, (files_only_run _ _ _ _ Hall).
    exists [], out. split; [reflexivity |]. split; [reflexivity |].
    split; [exact Hready |]. split; [discriminate |]. intros cs _. now split.
  - assert (Hnb : has_notebooks es = true).
    { destruct (has_notebooks es) eqn:E; [reflexivity |].
      apply (notebooks_of_nil cwd (Path.join start d)) in E. congruence. }
    unfold unbuildable in Hun. rewrite Hnb in Hun. cbn [andb] in Hun. rewrite Hun.
    destruct (Hready d) as [Rb Ra].
    destruct (remove_stale_room (Y := Category) (Path.join BUILD_BASE_DIR d) out)
      as (o1 & E1 & C1 & F1);
      [rewrite (resolve_build_dir d Hv); discriminate
      | now rewrite (resolve_build_dir d Hv) |].
    rewrite (resolve_build_dir d Hv) in C1, F1.
    assert (Ra1 : room_for ["tmp"; "artifacts"; d] o1).
    { destruct (F1 ["tmp"; "artifacts"; d] eq_refl) as [Hl Hc].
      destruct Ra as [Ra|[es' Ra]]; [left; congruence | right; exists es'; congruence]. }
    destruct (remove_stale_room (Y := Category) (Path.join ARTIFACT_DEST_DIR d) o1)
      as (o2 & E2 & C2 & F2);
      [rewrite (resolve_artifact_dir d Hv); discriminate
      | now rewrite (resolve_artifact_dir d Hv) |].
    rewrite (resolve_artifact_dir d Hv) in C2, F2.
    assert (Cb2 : creatable ["tmp"; "nbcollection-ci-build-base-dir"; d] o2 = true).
    { destruct (F2 ["tmp"; "nbcollection-ci-build-base-dir"; d] eq_refl) as [_ ->].
      exact C1. }
    assert (Hframe : forall cs, apart_from_names [d] cs ->
              FS.lookup cs o2 = FS.lookup cs out /\ creatable cs o2 = creatable cs out).
    { intros cs Hcs. destruct (Hcs d (or_introl eq_refl)) as [Db Da].
      destruct (F1 cs Db) as [L1 K1]. destruct (F2 cs Da) as [L2 K2].
      split; congruence. }
    exists [(mkCategory d (nb :: nbs) (Path.join start d) (Path.join BUILD_BASE_DIR d)
               (Path.join ARTIFACT_DEST_DIR d), o2)], o2.
    split; [| split; [| split; [| split]]].
    + cbn [negb]. rewrite (gbind_run_ok _ _ out [] tt o1 E1).
      rewrite (gbind_run_ok _ _ o1 [] tt o2 E2). reflexivity.
    + rewrite Hnb. unfold category_of. cbn [fst map fold_left last]. now rewrite N.
    + intros name. destruct (String.eqb_spec name d) as [->|Hne].
      * split; left; assumption.
      * destruct (dirs_apart name d Hne) as (D1 & D2 & D3 & D4).
        destruct (Hready name) as [Rb' Ra'].
        destruct (Hframe ["tmp"; "nbcollection-ci-build-base-dir"; name]) as [L1 K1].
        { intros d' [<-|[]]. now split. }
        destruct (Hframe ["tmp"; "artifacts"; name]) as [L2 K2].
        { intros d' [<-|[]]. now split. }
        split.
        -- destruct Rb' as [H|[es' H]]; [left; congruence | right; exists es'; congruence].
        -- destruct Ra' as [H|[es' H]]; [left; congruence | right; exists es'; congruence].
    + intros _. now split.
    + exact Hframe.
Qed.

Lemma wf_tree_cons (d : string) (child : node) (es : entries) :
  wf_tree (Dir ((d, child) :: es)) = true ->
  valid_name d = true /\ wf_tree child = true /\ wf_tree (Dir es) = true
  /\ ~ In d (map fst es).
Proof.
  intros H. pose proof (wf_tree_entry _ d child H (or_introl eq_refl)) as [Hv Hc].
  cbn [wf_tree forallb map fst snd] in H. apply andb_true_iff in H as [H1 H2].
  apply andb_true_iff in H1 as [_ H1].
  pose proof (nodupb_NoDup _ H2) as Hnd. inversion Hnd as [|? ? Hfresh Hnd']; subst.
  cbn [nodupb] in H2. apply andb_true_iff in H2 as [_ H2].
  repeat split; try assumption.
  cbn [wf_tree]. now rewrite H1, H2.
Qed.

Lemma apart_from_names_sibling (names : list string) (d : string) :
  ~ In d names ->
  apart_from_names names ["tmp"; "nbcollection-ci-build-base-dir"; d]
  /\ apart_from_names names ["tmp"; "artifacts"; d].
Proof.
  intros Hfresh. split; intros d' Hd';
    (assert (Hne : d <> d') by (intros ->; contradiction));
    destruct (dirs_apart d d' Hne) as (D1 & D2 & D3 & D4); now split.
Qed.

(** The first loop of the scan of a flat layout goes through, and
    leaves room for the two directories of every category. *)
Lemma flat_level_ready (start : string) (es : entries) (out : node) :
  flat_dir es = true -> wf_tree (Dir es) = true ->
  unbuildable_below (Dir es) = false -> output_ready out ->
  exists ys out',
    gfor (fun e =>
            match snd e with
            | File _ => gret tt
            | Dir es_d =>
                scan_dir cwd start (fst e) es_d
                  (build_categories_in cwd (Path.join start (fst e)) (snd e))
            end) es out
    = (ys, inr tt, out')
    /\ map fst ys = flat_categories cwd start es
    /\ output_ready out'
    /\ (forall d es_d, In (d, Dir es_d) es -> has_notebooks es_d = true ->
          creatable ["tmp"; "nbcollection-ci-build-base-dir"; d] out' = true
          /\ creatable ["tmp"; "artifacts"; d] out' = true)
    /\ forall cs, apart_from_names (map fst es) cs ->
         FS.lookup cs out' = FS.lookup cs out /\ creatable cs out' = creatable cs out.
Proof.
  revert out. induction es as [|[d child] es IH]; intros out Hflat Hw Hun Hready.
  - exists [], out. split; [reflexivity |]. split; [reflexivity |].
    split; [exact Hready |]. split; [intros d es_d [] |]. intros cs _. now split.
  - cbn [flat_dir forallb snd] in Hflat. apply andb_true_iff in Hflat as [Hc Hflat].
    destruct (wf_tree_cons d child es Hw) as (Hv & Hwc & Hwes & Hfresh).
    cbn [gfor fst snd flat_categories flat_map map].
    destruct child as [content|es_d].
    + cbn [unbuildable_below existsb snd orb] in Hun.
      destruct (IH out Hflat Hwes Hun Hready) as (ys & out' & E & Hy & Hr & Hc' & Hf).
      exists ys, out'. split; [| split; [exact Hy | split; [exact Hr | split]]].
      * rewrite (gbind_run_ok (gret tt) _ out [] tt out eq_refl). cbv beta.
        rewrite E. reflexivity.
      * intros d0 es0 [H|H]; [discriminate H | now apply Hc'].
      * intros cs Hcs. apply Hf. intros d' Hd'. apply Hcs. now right.
    + cbn [unbuildable_below existsb snd] in Hun.
      apply orb_false_iff in Hun as [Hun1 Hun].
      apply orb_false_iff in Hun1 as [Hun1 _].
      destruct (scan_dir_ready start d es_d out Hv Hc Hun1 Hready)
        as (ys1 & o1 & E1 & Hy1 & Hr1 & Hc1 & Hf1).
      destruct (IH o1 Hflat Hwes Hun Hr1) as (ys & out' & E & Hy & Hr & Hc' & Hf).
      destruct (apart_from_names_sibling (map fst es) d Hfresh) as [Sb Sa].
      exists (ys1 ++ ys)%list, out'.
      split; [| split; [| split; [exact Hr | split]]].
      * rewrite (gbind_run_ok _ _ out ys1 tt o1 E1). cbv beta. rewrite E. reflexivity.
      * rewrite map_app, Hy1, Hy. reflexivity.
      * intros d0 es0 [H|H]; [| now apply Hc'].
        injection H as <- <-. intros Hnb. destruct (Hc1 Hnb) as [Cb Ca].
        destruct (Hf _ Sb) as [_ ->]. destruct (Hf _ Sa) as [_ ->]. now split.
      * intros cs Hcs.
        destruct (Hf1 cs) as [L1 K1].
        { intros d' [<-|[]]. apply Hcs. now left. }
        destruct (Hf cs) as [L2 K2].
        { intros d' Hd'. apply Hcs. now right. }
        split; congruence.
Qed.

(** The scan of a flat layout goes through, yields each category once
    and leaves room for the two directories of every category. *)
Lemma flat_scan_ready (src : node) (start : string) (es : entries) (out : node) :
  FS.lookup (Path.resolve cwd start) src = Some (Dir es) ->
  flat_dir es = true -> wf_tree (Dir es) = true ->
  unbuildable_below (Dir es) = false -> output_ready out ->
  exists ys out',
    build_categories cwd src start out = (ys, inr tt, out')
    /\ map fst ys = flat_categories cwd start es
    /\ (forall d es_d, In (d, Dir es_d) es -> has_notebooks es_d = true ->
          creatable ["tmp"; "nbcollection-ci-build-base-dir"; d] out' = true
          /\ creatable ["tmp"; "artifacts"; d] out' = true)
    /\ forall cs, apart_from_names (map fst es) cs ->
         FS.lookup cs out' = FS.lookup cs out /\ creatable cs out' = creatable cs out.
Proof.
  intros L Hflat Hw Hun Hready.
  destruct (flat_level_ready start es out Hflat Hw Hun Hready)
    as (ys & out' & E & Hy & _ & Hc & Hf).
  exists ys, out'. split; [| split; [exact Hy | split; [exact Hc | exact Hf]]].
  unfold build_categories. rewrite L. cbn [build_categories_in].
  rewrite (gbind_run_ok _ _ out ys tt out' E). cbv beta.
  rewrite gfor_neutral; [cbn [fst snd]; now rewrite app_nil_r |].
  intros [d child] o He. cbn [snd fst]. destruct child as [content|es_d]; [reflexivity |].
  apply files_only_run.
  unfold flat_dir in Hflat. rewrite forallb_forall in Hflat.
  exact (Hflat _ He).
Qed.

Lemma flat_categories_in (start : string) (es : entries) (c : Category) :
  In c (flat_categories cwd start es) ->
  exists d es_d,
    In (d, Dir es_d) es /\ has_notebooks es_d = true
    /\ c = category_of cwd start [d] es_d.
Proof.
  unfold flat_categories. intros H. apply in_flat_map in H as ([d child] & Hin & Hc).
  cbn [snd fst] in Hc. destruct child as [content|es_d]; [contradiction |].
  destruct (has_notebooks es_d) eqn:Hnb; [| contradiction].
  destruct Hc as [<-|[]]. now exists d, es_d.
Qed.

Lemma flat_categories_names (start : string) (es : entries) :
  NoDup (map fst es) -> NoDup (map cat_name (flat_categories cwd start es)).
Proof.
  induction es as [|[d child] es IH]; intros H; [constructor |].
  inversion H as [|? ? Hfresh Hnd]; subst.
  cbn [flat_categories flat_map snd fst]. fold (flat_categories cwd start es).
  destruct child as [content|es_d]; [now apply IH |].
  destruct (has_notebooks es_d); [| now apply IH].
  cbn [app map]. constructor; [| now apply IH].
  intros Hin. apply in_map_iff in Hin as (c & Hname & Hc).
  destruct (flat_categories_in start es c Hc) as (d' & es' & Hin' & _ & ->).
  cbn in Hname. subst d'. apply Hfresh.
  change d with (fst (d, Dir es')). now apply in_map.
Qed.

Variable src : node.

(** The files of a category of a flat layout can all be read. *)
Lemma flat_src_ok (coll : string) (es : entries) (d : string) (es_d : entries) :
  Str.startswith Path.sep cwd = true -> valid_name coll = true ->
  wf_tree src = true ->
  FS.lookup (Path.resolve cwd (Path.join cwd coll)) src = Some (Dir es) ->
  In (d, Dir es_d) es -> all_files es_d = true -> helper_ok cwd src ->
  src_ok cwd src (category_of cwd (Path.join cwd coll) [d] es_d).
Proof.
  intros Habs Hcoll Hw L Hin Hall Hhelper.
  pose proof (lookup_wf _ _ _ Hw L) as Hwes.
  destruct (wf_tree_entry es d (Dir es_d) Hwes Hin) as [Hd Hwd].
  assert (Hfile : forall f x, In (f, x) es_d -> exists content, x = File content).
  { intros f x Hx. unfold all_files in Hall. rewrite forallb_forall in Hall.
    specialize (Hall _ Hx). cbn [snd] in Hall. destruct x; [eauto | discriminate Hall]. }
  assert (Ld : FS.lookup (Path.resolve cwd (Path.join (Path.join cwd coll) d)) src
               = Some (Dir es_d)).
  { rewrite (resolve_join cwd _ d Hd), lookup_app, L. cbn [FS.lookup].
    rewrite (find_NoDup d (Dir es_d) es); [reflexivity | | exact Hin].
    simpl in Hwes. apply andb_true_iff in Hwes as [_ Hwes]. now apply nodupb_NoDup. }
  unfold src_ok, category_of. cbn [source_dir notebooks fold_left].
  split; [| split; [exact Hhelper |]].
  - intros f Hf Hex. pose proof (valid_support_file f Hf) as Hv.
    unfold src_exists, FS.exists_ in Hex. unfold readable, FS.read.
    rewrite (resolve_join cwd _ f Hv), lookup_app, Ld in *. cbn [FS.lookup] in *.
    destruct (FS.find f es_d) as [x|] eqn:F; [| discriminate Hex].
    destruct (Hfile f x (find_In _ _ _ F)) as [content ->]. eauto.
  - intros nb Hnb.
    pose proof (notebooks_of_resolve cwd coll src (Dir es) [d] es_d Habs Hcoll L Hwes
                  (subdir_child es d es_d Hin)) as Hall'.
    rewrite Forall_forall in Hall'.
    destruct (Hall' nb Hnb) as (_ & x & Hx & Hl).
    destruct (Hfile _ x Hx) as [content ->].
    unfold readable, FS.read. rewrite Hl. eauto.
Qed.

Lemma scanned_apart (c c2 : Category) :
  scanned c -> scanned c2 -> cat_name c <> cat_name c2 ->
  apart_from_category cwd c (Path.resolve cwd (build_dir c2))
  /\ apart_from_category cwd c (Path.resolve cwd (artifact_dir c2)).
Proof.
  intros Hc Hc2 Hne. unfold apart_from_category.
  destruct (scanned_dirs cwd c Hc) as [-> ->].
  destruct (scanned_dirs cwd c2 Hc2) as [-> ->].
  assert (Hne' : cat_name c2 <> cat_name c) by congruence.
  destruct (dirs_apart _ _ Hne') as (D1 & D2 & D3 & D4). repeat split; assumption.
Qed.

(** From directories with room for every category, the loop over the
    categories makes every job, and leaves every build directory with
    its listing. *)
Lemma jobs_loop_ready (coll : string) (cats : list Category) (out : node) :
  NoDup (map cat_name cats) ->
  (forall c, In c cats -> scanned c /\ src_ok cwd src c) ->
  (forall c, In c cats ->
     creatable (Path.resolve cwd (build_dir c)) out = true
     /\ creatable (Path.resolve cwd (artifact_dir c)) out = true) ->
  exists ys out',
    gfor (fun category =>
            job <- @build_job cwd src BuildJob coll category ;; gyield job) cats out
    = (ys, inr tt, out')
    /\ map fst ys = map job_of cats
    /\ (forall c, In c cats ->
          FS.lookup (Path.resolve cwd (build_dir c)) out'
          = Some (Dir (build_dir_listing cwd src coll c))
          /\ FS.lookup (Path.resolve cwd (artifact_dir c)) out' = Some (Dir []))
    /\ forall cs, (forall c, In c cats -> apart_from_category cwd c cs) ->
         FS.lookup cs out' = FS.lookup cs out /\ creatable cs out' = creatable cs out.
Proof.
  revert out. induction cats as [|c cats IH]; intros out Hnd Hcats Hroom.
  - exists [], out. split; [reflexivity |]. split; [reflexivity |].
    split; [intros c [] |]. intros cs _. now split.
  - inversion Hnd as [|? ? Hfresh Hnd']; subst.
    destruct (Hcats c (or_introl eq_refl)) as [Hsc Hsrc].
    destruct (Hroom c (or_introl eq_refl)) as [Cb Ca].
    destruct (dirs_diverge cwd c Hsc) as [Dab Dba].
    assert (Ca' : forall o1,
              FS.makedirs (Path.resolve cwd (build_dir c)) out = inr o1 ->
              creatable (Path.resolve cwd (artifact_dir c)) o1 = true).
    { intros o1 M1.
      destruct (only_below_frame _ _ out o1 (only_below_makedirs _ _ _ M1) Dab)
        as [_ ->]. exact Ca. }
    destruct (build_job_creatable (Y := BuildJob) cwd src coll c Hsc out Hsrc Cb Ca')
      as (out1 & E & L & La).
    assert (Hkeep : forall cs, apart_from_category cwd c cs ->
              FS.lookup cs out1 = FS.lookup cs out
              /\ creatable cs out1 = creatable cs out).
    { intros cs Hcs.
      pose proof (keeps_build_job (Y := BuildJob) cwd src coll c Hsc out cs Hcs) as H.
      unfold left_ in H. rewrite E in H. exact H. }
    assert (Hother : forall c2, In c2 cats -> cat_name c <> cat_name c2).
    { intros c2 Hc2 Heq. apply Hfresh. rewrite Heq. now apply in_map. }
    destruct (IH out1 Hnd') as (ys & out' & E2 & Hy & Hl & Hf).
    { intros c2 Hc2. apply Hcats. now right. }
    { intros c2 Hc2. destruct (Hcats c2 (or_intror Hc2)) as [Hsc2 _].
      destruct (scanned_apart c c2 Hsc Hsc2 (Hother c2 Hc2)) as [A1 A2].
      destruct (Hkeep _ A1) as [_ ->]. destruct (Hkeep _ A2) as [_ ->].
      apply Hroom. now right. }
    exists ((job_of c, out1) :: ys), out'.
    split; [| split; [| split]].
    + cbn [gfor].
      rewrite (gbind_run_ok _ _ out [(job_of c, out1)] tt out1)
        by (rewrite (gbind_run_ok _ _ out [] (job_of c) out1 E); reflexivity).
      cbv beta. rewrite E2. reflexivity.
    + cbn [map fst]. now rewrite Hy.
    + intros c0 [<-|Hc0]; [| now apply Hl].
      assert (Hap : forall cs,
                cs = Path.resolve cwd (build_dir c)
                \/ cs = Path.resolve cwd (artifact_dir c) ->
                forall c2, In c2 cats -> apart_from_category cwd c2 cs).
      { intros cs Hcs c2 Hc2. destruct (Hcats c2 (or_intror Hc2)) as [Hsc2 _].
        assert (Hne : cat_name c2 <> cat_name c)
          by (intros Heq; now apply (Hother c2 Hc2)).
        destruct (scanned_apart c2 c Hsc2 Hsc Hne) as [A1 A2].
        destruct Hcs as [->| ->]; assumption. }
      destruct (Hf _ (Hap _ (or_introl eq_refl))) as [-> _].
      destruct (Hf _ (Hap _ (or_intror eq_refl))) as [-> _].
      now split.
    + intros cs Hcs.
      destruct (Hkeep cs (Hcs c (or_introl eq_refl))) as [L1 K1].
      destruct (Hf cs) as [L2 K2].
      { intros c2 Hc2. apply Hcs. now right. }
      split; congruence.
Qed.

Lemma find_build_jobs_run_ok (out : node) (ys : list (Category * node)) (out1 : node)
    (js : list (BuildJob * node)) (out2 : node) :
  build_categories cwd src (Path.join cwd "jdat_notebooks") out = (ys, inr tt, out1) ->
  gfor (fun category =>
          job <- @build_job cwd src BuildJob "jdat_notebooks" category ;; gyield job)
       (map fst ys) out1
  = (js, inr tt, out2) ->
  find_build_jobs cwd src out = (js, inr tt, out2).
Proof.
  intros E El. unfold find_build_jobs, for_find_build_jobs, for_build_collections,
    collection_names. cbn [gfor].
  assert (Ec : @collect Category BuildJob
                 (build_categories cwd src (Path.join cwd "jdat_notebooks")) out
               = ([], inr (map fst ys), out1))
    by (unfold collect; now rewrite E).
  rewrite (gbind_run_ok _ _ out js tt out2)
    by (rewrite (gbind_run_ok _ _ out [] (map fst ys) out1 Ec);
        cbn [col_name categories]; now rewrite El).
  cbn [fst snd gret]. now rewrite app_nil_r.
Qed.

End WholeRun.

(** X14: on the layout of the repository, where every category is a
    directory of files right below the collection, no name on the way
    has a wildcard character, and every directory
    with notebooks has its [requirements.txt], and from output
    directories with room for every category, [find_build_jobs] ends
    without an exception, yields the job of every category once, in
    listing order, and leaves for every category the build directory
    with its listing and the artifact directory empty. *)
Theorem flat_checkout_builds_every_category
    (cwd : string) (src : node) (es : entries) (out : node) :
  Str.startswith Path.sep cwd = true ->
  no_dotdot cwd = true ->
  has_magic cwd = false ->
  wf_tree src = true ->
  FS.lookup (Path.resolve cwd (Path.join cwd "jdat_notebooks")) src = Some (Dir es) ->
  plain_tree (Dir es) = true ->
  flat_dir es = true ->
  unbuildable_below (Dir es) = false ->
  helper_ok cwd src ->
  output_ready out ->
  let cats := flat_categories cwd (Path.join cwd "jdat_notebooks") es in
  let run := find_build_jobs cwd src out in
  raised run = None
  /\ yielded run = map job_of cats
  /\ Forall (fun c =>
               FS.lookup (Path.resolve cwd (build_dir c)) (left_ run)
               = Some (Dir (build_dir_listing cwd src "jdat_notebooks" c))
               /\ FS.lookup (Path.resolve cwd (artifact_dir c)) (left_ run)
                  = Some (Dir []))
       cats.
Proof.
  intros Habs _ _ Hw L _ Hflat Hun Hhelper Hready cats run.
  pose proof (lookup_wf _ _ _ Hw L) as Hwes.
  destruct (flat_scan_ready cwd src _ es out L Hflat Hwes Hun Hready)
    as (ys & out1 & E & Hy & Hroom & _).
  assert (Hnd : NoDup (map fst es)).
  { simpl in Hwes. apply andb_true_iff in Hwes as [_ Hwes]. now apply nodupb_NoDup. }
  assert (Hcat : forall c, In c cats ->
            exists d es_d, In (d, Dir es_d) es /\ has_notebooks es_d = true
                           /\ all_files es_d = true /\ valid_name d = true
                           /\ wf_tree (Dir es_d) = true
                           /\ c = category_of cwd (Path.join cwd "jdat_notebooks") [d] es_d).
  { intros c Hc. destruct (flat_categories_in cwd _ es c Hc) as (d & es_d & Hin & Hnb & ->).
    destruct (wf_tree_entry es d (Dir es_d) Hwes Hin) as [Hd Hwd].
    exists d, es_d. repeat split; try assumption.
    unfold flat_dir in Hflat. rewrite forallb_forall in Hflat. exact (Hflat _ Hin). }
  assert (Hsc : forall c, In c cats -> scanned c /\ src_ok cwd src c).
  { intros c Hc. destruct (Hcat c Hc) as (d & es_d & Hin & Hnb & Hall & Hd & Hwd & ->).
    split; [now apply category_of_scanned |].
    now apply (flat_src_ok cwd src "jdat_notebooks" es d es_d). }
  destruct (jobs_loop_ready cwd src "jdat_notebooks" cats out1) as (js & out2 & El & Hj & Hl & _).
  - now apply flat_categories_names.
  - exact Hsc.
  - intros c Hc. destruct (Hcat c Hc) as (d & es_d & Hin & Hnb & Hall & Hd & Hwd & ->).
    unfold category_of. cbn [build_dir artifact_dir last].
    rewrite (resolve_build_dir cwd d Hd), (resolve_artifact_dir cwd d Hd).
    now apply (Hroom d es_d).
  - unfold cats in El. rewrite <- Hy in El.
    pose proof (find_build_jobs_run_ok cwd src out ys out1 js out2 E El) as R.
    unfold run, raised, yielded, left_. rewrite R. cbn [fst snd].
    split; [reflexivity |]. split; [exact Hj |].
    apply Forall_forall. exact Hl.
Qed.

Lemma flat_checkout_builds_every_category_witness :
  yielded (find_build_jobs "/repo" checkout_catX fresh_output) = [job_of catX]
  /\ raised (find_build_jobs "/repo" checkout_catX fresh_output) = None.
Proof.
  destruct (flat_checkout_builds_every_category "/repo" checkout_catX
              [("catX", Dir [("nb1.ipynb", File "{1}"); ("nb2.ipynb", File "{2}");
                             ("requirements.txt", File "numpy");
                             ("environment.sh", File "export A=1");
                             ("README.md", File "notes")])]
              fresh_output) as (H1 & H2 & _).
  - reflexivity.
  - reflexivity.
  - reflexivity.
  - reflexivity.
  - reflexivity.
  - reflexivity.
  - reflexivity.
  - reflexivity.
  - intros f [<-|[]] _. exists "import json". reflexivity.
  - intros name. split; left; reflexivity.
  - split; [rewrite H2; reflexivity | exact H1].
Defined.
